(** * Scheduler and paged KV-cache block manager: a shallow embedding

    The development follows the Python sources:
    - [vllm/core/block_manager_v1.py]: the two block allocators and
      [BlockSpaceManagerV1];
    - [vllm/sequence.py]: [SequenceStatus], [SequenceData], [Sequence],
      [SequenceGroup];
    - [vllm/core/.backup/scheduler.py]: [SchedulingBudget] and [Scheduler];
    - [vllm/core/policy.py]: the priority policies;
    - [vllm/engine/llm_engine.py]: [LLMEngine.add_request].

    Python integers are [Z]; Python lists are [list] in the same order (index 0
    is the head, [append]/[pop] work at the tail); dictionaries and sets are
    stdpp's [gmap] and [gset]; Python floats are the kernel's binary64 floats.
    A method that mutates its receiver and may
    raise is a function from the state before to an outcome and the state
    after: the state reached when an exception leaves the method is kept. *)

From Stdlib Require Import ZArith Lia List String Bool Floats Uint63.
From stdpp Require Import gmap strings list fin_maps.

Local Open Scope string_scope.
Local Open Scope list_scope.
Local Open Scope Z_scope.

(** ** Exceptions and the state-and-exception monad *)

(** The [ValueError]s the block allocators raise, by message. *)
Inductive value_error : Type :=
| DoubleFree          (* "Double free! ... is already freed." *)
| OutOfMemory         (* "Out of memory! No free blocks are available." *)
| OutOfSharedMemory   (* "Out of shared memory! No free blocks are available." *)
| UnknownBlockType    (* "Unknown block type" *)
| TooManyLogprobs     (* "Cannot request more than ... logprobs." *)
| EmptyArgument.      (* "max() arg is an empty sequence" *)

Inductive exn : Type :=
| ValueError (what : value_error)
| TypeError (callee : string)   (* a call that does not match the callee's signature *)
| KeyError
| IndexError
| ZeroDivisionError
| StopIteration
| AssertionError
| RuntimeError
| Diverges.                     (* no exception: the call does not return *)

Inductive outcome (A : Type) : Type :=
| Returns (a : A)
| Raises (e : exn).
Arguments Returns {A} a.
Arguments Raises {A} e.

(** A method over a mutable state [S] that returns an [A] or raises. *)
Definition Py (S A : Type) : Type := S -> outcome A * S.

Definition ret {S A} (a : A) : Py S A := fun s => (Returns a, s).

Definition raise {S A} (e : exn) : Py S A := fun s => (Raises e, s).

Definition bind {S A B} (m : Py S A) (k : A -> Py S B) : Py S B :=
  fun s => match m s with
           | (Returns a, s') => k a s'
           | (Raises e, s') => (Raises e, s')
           end.

Definition get {S} : Py S S := fun s => (Returns s, s).

Definition put {S} (s : S) : Py S unit := fun _ => (Returns tt, s).

Definition modify {S} (f : S -> S) : Py S unit := fun s => (Returns tt, f s).

(** [assert c]: Python's [assert], an [AssertionError] when [c] is false. *)
Definition assert {S} (c : bool) : Py S unit :=
  if c then ret tt else raise AssertionError.

Notation "'let!' x ':=' m 'in' k" := (bind m (fun x => k))
  (at level 10, x pattern, m at level 100, k at level 200).
Notation "'do!' m 'in' k" := (bind m (fun _ => k))
  (at level 10, m at level 100, k at level 200).

(** A computation that reads nothing of the state. *)
Definition lift {S A} (o : outcome A) : Py S A := fun s => (o, s).

(** [for x in l: body x] *)
Fixpoint for_each {S A} (l : list A) (body : A -> Py S unit) : Py S unit :=
  match l with
  | [] => ret tt
  | x :: l' => do! body x in for_each l' body
  end.

(** Run a method of a component [T] inside a larger state [S]. *)
Definition zoom {S T A} (proj : S -> T) (upd : T -> S -> S) (m : Py T A) : Py S A :=
  fun s => let '(o, t) := m (proj s) in (o, upd t s).

(** [list.pop()]: remove and return the last element. *)
Definition pop {A} (l : list A) : option (list A * A) :=
  match rev l with
  | [] => None
  | x :: r => Some (rev r, x)
  end.

(** ** SchedulingBudget (scheduler.py, lines 72-146) *)

(** [PreemptionReason], lines 58-69. *)
Inductive PreemptionReason : Type :=
| BUDGET_EXHAUSTED
| SEQ_NUM_EXHAUSTED
| ALL_EXHAUSTED
| NONE.

Module SchedulingBudget.

Record t : Type := mk {
  token_budget : Z;
  max_num_seqs : Z;
  _requeset_ids_num_batched_tokens : gset string;
  _requeset_ids_num_curr_seqs : gset string;
  _num_batched_tokens : Z;
  _num_curr_seqs : Z
}.

(** [SchedulingBudget(token_budget=..., max_num_seqs=...)] *)
Definition new (token_budget max_num_seqs : Z) : t :=
  mk token_budget max_num_seqs ∅ ∅ 0 0.

Definition num_batched_tokens (b : t) : Z := _num_batched_tokens b.

Definition num_curr_seqs (b : t) : Z := _num_curr_seqs b.

Definition can_schedule (b : t) (num_new_tokens num_new_seqs : Z) : bool :=
  (num_batched_tokens b + num_new_tokens <=? token_budget b)
  && (num_curr_seqs b + num_new_seqs <=? max_num_seqs b).

Definition remaining_token_budget (b : t) : Z :=
  token_budget b - num_batched_tokens b.

Definition add_num_batched_tokens (req_id : string) (n : Z) (b : t) : t :=
  if decide (req_id ∈ _requeset_ids_num_batched_tokens b) then b
  else mk (token_budget b) (max_num_seqs b)
          ({[req_id]} ∪ _requeset_ids_num_batched_tokens b)
          (_requeset_ids_num_curr_seqs b)
          (_num_batched_tokens b + n)
          (_num_curr_seqs b).

Definition subtract_num_batched_tokens (req_id : string) (n : Z) (b : t) : t :=
  if decide (req_id ∈ _requeset_ids_num_batched_tokens b)
  then mk (token_budget b) (max_num_seqs b)
          (_requeset_ids_num_batched_tokens b ∖ {[req_id]})
          (_requeset_ids_num_curr_seqs b)
          (_num_batched_tokens b - n)
          (_num_curr_seqs b)
  else b.

Definition add_num_seqs (req_id : string) (n : Z) (b : t) : t :=
  if decide (req_id ∈ _requeset_ids_num_curr_seqs b) then b
  else mk (token_budget b) (max_num_seqs b)
          (_requeset_ids_num_batched_tokens b)
          ({[req_id]} ∪ _requeset_ids_num_curr_seqs b)
          (_num_batched_tokens b)
          (_num_curr_seqs b + n).

Definition subtract_num_seqs (req_id : string) (n : Z) (b : t) : t :=
  if decide (req_id ∈ _requeset_ids_num_curr_seqs b)
  then mk (token_budget b) (max_num_seqs b)
          (_requeset_ids_num_batched_tokens b)
          (_requeset_ids_num_curr_seqs b ∖ {[req_id]})
          (_num_batched_tokens b)
          (_num_curr_seqs b - n)
  else b.

(** [can_schedule_infer], lines 90-101. *)
Definition can_schedule_infer (b : t) (num_new_tokens num_new_seqs : Z) : PreemptionReason :=
  let request_tokens := num_batched_tokens b + num_new_tokens in
  let request_seqs := num_curr_seqs b + num_new_seqs in
  if (request_tokens >=? token_budget b) && (request_seqs >=? max_num_seqs b)
  then ALL_EXHAUSTED
  else if (request_tokens >=? token_budget b) && (request_seqs <? max_num_seqs b)
  then BUDGET_EXHAUSTED
  else if (request_tokens <=? token_budget b) && (request_seqs >=? max_num_seqs b)
  then SEQ_NUM_EXHAUSTED
  else NONE.

(** [subtract_num_batched_tokens_partial], lines 125-126. *)
Definition subtract_num_batched_tokens_partial (n : Z) (b : t) : t :=
  mk (token_budget b) (max_num_seqs b)
     (_requeset_ids_num_batched_tokens b)
     (_requeset_ids_num_curr_seqs b)
     (_num_batched_tokens b - n)
     (_num_curr_seqs b).

End SchedulingBudget.

(** ** Physical blocks (vllm.block.PhysicalTokenBlock, as the allocators use it) *)

Inductive Device : Type := GPU | CPU.

#[global] Instance Device_eq_dec : EqDecision Device.
Proof. solve_decision. Defined.

#[global] Instance Device_countable : Countable Device.
Proof.
  refine (inj_countable' (fun d => match d with GPU => true | CPU => false end)
                         (fun b : bool => if b then GPU else CPU) _).
  by intros [].
Defined.

(** A block object is created once per device and block number (the
    allocators' constructors and [allocate_block]) and is shared by reference
    afterwards; its identity is the pair. *)
Abbreviation block_id := (Device * Z)%type.

Definition block_device (b : block_id) : Device := fst b.

Definition block_number (b : block_id) : Z := snd b.

(** The mutable fields of a block object. *)
Record PhysicalTokenBlock : Type := mkBlock {
  block_hash : Z;
  num_hashed_tokens : Z;
  ref_count : Z;
  computed : bool
}.

#[global] Instance PhysicalTokenBlock_inhabited : Inhabited PhysicalTokenBlock :=
  populate (mkBlock (-1) 0 0 false).

Definition set_ref_count (n : Z) (b : PhysicalTokenBlock) : PhysicalTokenBlock :=
  mkBlock (block_hash b) (num_hashed_tokens b) n (computed b).

(** The block objects of both tiers. *)
Abbreviation Heap := (gmap block_id PhysicalTokenBlock).

Definition block_at (h : Heap) (b : block_id) : PhysicalTokenBlock := h !!! b.

Definition write_ref_count (b : block_id) (n : Z) (h : Heap) : Heap :=
  <[b := set_ref_count n (block_at h b)]> h.

(** ** UncachedBlockAllocator (block_manager_v1.py, lines 168-269) *)

Module UncachedBlockAllocator.

Record t : Type := mk {
  device : Device;
  block_size : Z;
  num_blocks : Z;
  num_shared_blocks : Z;
  free_shared_blocks : list block_id;
  free_blocks : list block_id
}.

Definition set_free_blocks (l : list block_id) (a : t) : t :=
  mk (device a) (block_size a) (num_blocks a) (num_shared_blocks a)
     (free_shared_blocks a) l.

Definition set_free_shared_blocks (l : list block_id) (a : t) : t :=
  mk (device a) (block_size a) (num_blocks a) (num_shared_blocks a)
     l (free_blocks a).

(** The blocks [0 .. n-1] of a device, in creation order. *)
Definition fresh_blocks (d : Device) (from n : Z) : list block_id :=
  map (fun i => (d, from + Z.of_nat i)) (seq 0 (Z.to_nat n)).

(** [__init__]: [self.num_shared_blocks] is set to 0 whatever the argument. *)
Definition new (d : Device) (block_size num_blocks num_shared_blocks : Z) : t :=
  mk d block_size num_blocks 0
     (fresh_blocks d num_blocks num_shared_blocks)
     (fresh_blocks d 0 num_blocks).

Definition new_heap (d : Device) (num_blocks num_shared_blocks : Z) (h : Heap) : Heap :=
  fold_right (fun b acc => <[b := mkBlock (-1) 0 0 false]> acc) h
             (fresh_blocks d 0 (num_blocks + num_shared_blocks)).

Definition allocate (block_type : string) : Py (t * Heap) block_id :=
  fun '(a, h) =>
    if String.eqb block_type "normal" then
      match pop (free_blocks a) with
      | None => (Raises (ValueError OutOfMemory), (a, h))
      | Some (rest, b) =>
          (Returns b, (set_free_blocks rest a, write_ref_count b 1 h))
      end
    else if String.eqb block_type "shared" then
      match pop (free_shared_blocks a) with
      | None => (Raises (ValueError OutOfSharedMemory), (a, h))
      | Some (rest, b) =>
          (Returns b, (set_free_shared_blocks rest a, write_ref_count b 1 h))
      end
    else (Raises (ValueError UnknownBlockType), (a, h)).

Definition free (b : block_id) (block_type : string) : Py (t * Heap) unit :=
  fun '(a, h) =>
    if ref_count (block_at h b) =? 0 then (Raises (ValueError DoubleFree), (a, h))
    else
      let n := ref_count (block_at h b) - 1 in
      let h' := write_ref_count b n h in
      if n =? 0 then
        if String.eqb block_type "normal" then
          (Returns tt, (set_free_blocks (free_blocks a ++ [b]) a, h'))
        else if String.eqb block_type "shared" then
          (Returns tt, (set_free_shared_blocks (free_shared_blocks a ++ [b]) a, h'))
        else (Raises (ValueError UnknownBlockType), (a, h'))
      else (Returns tt, (a, h')).

Definition get_num_free_blocks (block_type : string) (a : t) : outcome Z :=
  if String.eqb block_type "normal" then Returns (Z.of_nat (length (free_blocks a)))
  else if String.eqb block_type "shared" then Returns (Z.of_nat (length (free_shared_blocks a)))
  else Raises (ValueError UnknownBlockType).

Definition get_num_total_blocks (block_type : string) (a : t) : outcome Z :=
  if String.eqb block_type "normal" then Returns (num_blocks a)
  else if String.eqb block_type "shared" then Returns (num_shared_blocks a)
  else Raises (ValueError UnknownBlockType).

(** [merge_tables], lines 257-260. *)
Definition merge_tables (a : t) : t :=
  mk (device a) (block_size a) (num_blocks a)
     (num_shared_blocks a - Z.of_nat (length (free_shared_blocks a)))
     [] (free_blocks a ++ free_shared_blocks a).

(** [l.remove(x)] for a block the list holds: its first occurrence goes. *)
Fixpoint list_remove (x : block_id) (l : list block_id) : list block_id :=
  match l with
  | [] => []
  | y :: rest => if decide (y = x) then rest else y :: list_remove x rest
  end.

(** The loop of [split_tables], lines 263-268.  The [for] statement walks
    [self.free_blocks] by position while its body removes from that list:
    [i] is the position the iterator has reached, and the loop ends when it
    is past the end of the list as it is then.  A turn moves the iterator up
    and shortens the list, so [length free_blocks] turns are never all
    taken; [turns] counts them down. *)
Fixpoint split_loop (turns i : nat) (num_shared_blocks0 : Z) (a : t) : t :=
  match turns with
  | O => a
  | S turns' =>
      match free_blocks a !! i with
      | None => a
      | Some block =>
          if num_shared_blocks a >=? num_shared_blocks0 then a
          else split_loop turns' (S i) num_shared_blocks0
                 (mk (device a) (block_size a) (num_blocks a)
                     (num_shared_blocks a + 1)
                     (free_shared_blocks a ++ [block])
                     (list_remove block (free_blocks a)))
      end
  end.

(** [split_tables], lines 262-269: the new allocator and the returned
    [len(self.free_shared_blocks)]. *)
Definition split_tables (num_shared_blocks0 : Z) (a : t) : Z * t :=
  let a' := split_loop (length (free_blocks a)) 0 num_shared_blocks0 a in
  (Z.of_nat (length (free_shared_blocks a')), a').

End UncachedBlockAllocator.

(** ** CachedBlockAllocator.free (block_manager_v1.py, lines 134-142)

    The evictor class ([vllm.core.evictor_v1]) is not part of the sources: its
    type and the two methods [free] calls are parameters. *)

Module CachedBlockAllocator.

Section WithEvictor.

Variable Evictor : Type.
(** [block_hash in self.evictor] *)
Variable evictor_contains : Evictor -> Z -> bool.
(** [self.evictor.add(block)] *)
Variable evictor_add : Evictor -> block_id -> PhysicalTokenBlock -> Evictor.

Record t : Type := mk {
  device : Device;
  block_size : Z;
  num_blocks : Z;
  current_num_blocks : Z;
  cached_blocks : gmap Z block_id;
  evictor : Evictor;
  default_hash_ctr : Z
}.

Definition free (b : block_id) (block_type : string) : Py (t * Heap) unit :=
  fun '(a, h) =>
    if ref_count (block_at h b) =? 0 then (Raises (ValueError DoubleFree), (a, h))
    else
      let n := ref_count (block_at h b) - 1 in
      let h' := write_ref_count b n h in
      if n =? 0 then
        let blk := block_at h' b in
        if evictor_contains (evictor a) (block_hash blk)
        then (Raises AssertionError, (a, h'))
        else
          let a1 := mk (device a) (block_size a) (num_blocks a) (current_num_blocks a)
                       (cached_blocks a) (evictor_add (evictor a) b blk)
                       (default_hash_ctr a) in
          match cached_blocks a1 !! block_hash blk with
          | None => (Raises KeyError, (a1, h'))
          | Some _ =>
              (Returns tt,
               (mk (device a1) (block_size a1) (num_blocks a1) (current_num_blocks a1)
                   (delete (block_hash blk) (cached_blocks a1)) (evictor a1)
                   (default_hash_ctr a1), h'))
          end
      else (Returns tt, (a, h')).

End WithEvictor.

End CachedBlockAllocator.

(** ** Sequences (sequence.py) *)

(** [int] to [float], for the integers the models use (below 2^53). *)
Definition float_of_Z (z : Z) : float :=
  if z <? 0 then PrimFloat.opp (PrimFloat.of_uint63 (Uint63.of_Z (- z)))
  else PrimFloat.of_uint63 (Uint63.of_Z z).

#[global] Instance float_eq_dec : EqDecision float.
Proof.
  intros x y. destruct (PrimFloat.Leibniz.eqb x y) eqn:E.
  - left. by apply FloatAxioms.Leibniz.eqb_spec.
  - right. intros H. apply FloatAxioms.Leibniz.eqb_spec in H. congruence.
Defined.

(** A Python number: an [int], a [float], or a [numpy.float64] (what [np.mean]
    returns).  Arithmetic follows Python's coercions: a numpy operand makes the
    result a numpy float, a float operand a float; true division by zero
    raises unless an operand is a numpy float. *)
Inductive number : Type :=
| Int (z : Z)
| PyFloat (f : float)
| NpFloat (f : float).

#[global] Instance number_eq_dec : EqDecision number.
Proof. solve_decision. Defined.

Module Num.

Definition to_float (n : number) : float :=
  match n with
  | Int z => float_of_Z z
  | PyFloat f => f
  | NpFloat f => f
  end.

Definition is_numpy (n : number) : bool :=
  match n with NpFloat _ => true | _ => false end.

Definition arith (opz : Z -> Z -> Z) (opf : float -> float -> float) (a b : number) : number :=
  match a, b with
  | Int x, Int y => Int (opz x y)
  | _, _ =>
      if is_numpy a || is_numpy b
      then NpFloat (opf (to_float a) (to_float b))
      else PyFloat (opf (to_float a) (to_float b))
  end.

Definition add : number -> number -> number := arith Z.add PrimFloat.add.

Definition sub : number -> number -> number := arith Z.sub PrimFloat.sub.

Definition mul : number -> number -> number := arith Z.mul PrimFloat.mul.

Definition neg (a : number) : number :=
  match a with
  | Int x => Int (- x)
  | PyFloat f => PyFloat (PrimFloat.opp f)
  | NpFloat f => NpFloat (PrimFloat.opp f)
  end.

Definition is_zero (n : number) : bool :=
  match n with
  | Int z => z =? 0
  | PyFloat f => PrimFloat.eqb f 0%float
  | NpFloat f => PrimFloat.eqb f 0%float
  end.

(** [a / b] *)
Definition div (a b : number) : outcome number :=
  if is_numpy a || is_numpy b
  then Returns (NpFloat (PrimFloat.div (to_float a) (to_float b)))
  else if is_zero b then Raises ZeroDivisionError
       else Returns (PyFloat (PrimFloat.div (to_float a) (to_float b))).

(** [a > b] *)
Definition gt (a b : number) : bool :=
  match a, b with
  | Int x, Int y => x >? y
  | _, _ => PrimFloat.ltb (to_float b) (to_float a)
  end.

(** [a >= b] *)
Definition ge (a b : number) : bool :=
  match a, b with
  | Int x, Int y => x >=? y
  | _, _ => PrimFloat.leb (to_float b) (to_float a)
  end.

(** [np.mean] of a list of integers. *)
Definition mean (l : list Z) : number :=
  NpFloat (PrimFloat.div (float_of_Z (fold_right Z.add 0 l))
                         (float_of_Z (Z.of_nat (length l)))).

End Num.

(** [class SequenceStatus(enum.IntEnum)], lines 48-63. *)
Inductive SequenceStatus : Type :=
| WAITING
| RUNNING
| SWAPPED
| FINISHED_STOPPED
| FINISHED_LENGTH_CAPPED
| FINISHED_ABORTED
| FINISHED_IGNORED
| PARTIAL_SWAPPED
| All
| WAITING_TO_RUNNING
| RUNNING_TO_WAITING
| RUNNING_TO_FINISHED_STOPPED.

#[global] Instance SequenceStatus_eq_dec : EqDecision SequenceStatus.
Proof. solve_decision. Defined.

Definition status_value (st : SequenceStatus) : Z :=
  match st with
  | WAITING => 0
  | RUNNING => 1
  | SWAPPED => 2
  | FINISHED_STOPPED => 3
  | FINISHED_LENGTH_CAPPED => 4
  | FINISHED_ABORTED => 5
  | FINISHED_IGNORED => 6
  | PARTIAL_SWAPPED => 7
  | All => 8
  | WAITING_TO_RUNNING => 9
  | RUNNING_TO_WAITING => 10
  | RUNNING_TO_FINISHED_STOPPED => 11
  end.

(** [SequenceStatus.is_finished]: [status > SequenceStatus.SWAPPED]. *)
Definition status_is_finished (st : SequenceStatus) : bool :=
  status_value st >? status_value SWAPPED.

(** [SequenceStatus.get_finished_reason], lines 70-85. *)
Definition get_finished_reason (st : SequenceStatus) : option string :=
  match st with
  | FINISHED_STOPPED => Some "stop"
  | FINISHED_LENGTH_CAPPED => Some "length"
  | FINISHED_ABORTED => Some "abort"
  | FINISHED_IGNORED => Some "length"
  | _ => None
  end.

Inductive SequenceStage : Type := PREFILL | DECODE.

#[global] Instance SequenceStage_eq_dec : EqDecision SequenceStage.
Proof. solve_decision. Defined.

Inductive SequenceType : Type := TEMP | NORMAL.

#[global] Instance SequenceType_eq_dec : EqDecision SequenceType.
Proof. solve_decision. Defined.

Module SequenceData.

Record t : Type := mk {
  _prompt_token_ids : list Z;
  _output_token_ids : list Z;
  _num_computed_tokens : Z;
  _stage : SequenceStage
}.

#[global] Instance eq_dec : EqDecision t.
Proof. solve_decision. Defined.

Definition get_len (d : t) : Z :=
  Z.of_nat (length (_output_token_ids d)) + Z.of_nat (length (_prompt_token_ids d)).

Definition get_prompt_len (d : t) : Z := Z.of_nat (length (_prompt_token_ids d)).

Definition get_output_len (d : t) : Z := Z.of_nat (length (_output_token_ids d)).

Definition get_num_computed_tokens (d : t) : Z := _num_computed_tokens d.

Definition get_num_uncomputed_tokens (d : t) : Z :=
  get_len d - get_num_computed_tokens d.

Definition reset_state_for_recompute (d : t) : t :=
  mk (_prompt_token_ids d) (_output_token_ids d) 0 PREFILL.

(** [update_num_computed_tokens], lines 214-221: the counter is raised
    before the assertion is tested. *)
Definition update_num_computed_tokens (num_new_computed_tokens : Z) : Py t unit :=
  fun d =>
    let d1 := mk (_prompt_token_ids d) (_output_token_ids d)
                 (_num_computed_tokens d + num_new_computed_tokens) (_stage d) in
    if negb (_num_computed_tokens d1 <=? get_len d1) then (Raises AssertionError, d1)
    else if get_num_uncomputed_tokens d1 =? 0
         then (Returns tt, mk (_prompt_token_ids d1) (_output_token_ids d1)
                              (_num_computed_tokens d1) DECODE)
         else (Returns tt, d1).

(** [stage], lines 249-251. *)
Definition stage (d : t) : SequenceStage := _stage d.

End SequenceData.

Module Sequence.

(** The attributes the modelled methods read or write. *)
Record t : Type := mk {
  seq_id : Z;
  block_size : Z;
  data : SequenceData.t;
  seq_type : SequenceType;
  status : SequenceStatus;
  eos_token_prob : list float;
  eos_token_prob_pos : list Z;
  swapped_out_block_nums : Z;
  eos_prob_estimation_window : Z;
  min_eos_rank : Z;
  default_eos_token_prob : float
}.

#[global] Instance eq_dec : EqDecision t.
Proof. solve_decision. Defined.

(** [Sequence(seq_id, inputs, block_size, ...)], lines 273-311. *)
Definition new (seq_id : Z) (prompt_token_ids : list Z) (block_size : Z) : t :=
  mk seq_id block_size (SequenceData.mk prompt_token_ids [] 0 PREFILL)
     NORMAL WAITING [] [] 0 15 (-1) 0x1.999999999999ap-4%float.

Definition get_len (s : t) : Z := SequenceData.get_len (data s).

Definition get_output_len (s : t) : Z := SequenceData.get_output_len (data s).

(** [math.ceil(self.get_len() / self.block_size)], for a positive block size:
    the ceiling of the quotient is minus the floor of the negated one. *)
Definition n_blocks (s : t) : Z := - ((- get_len s) / block_size s).

Definition get_seq_type (s : t) : SequenceType := seq_type s.

Definition is_finished (s : t) : bool := status_is_finished (status s).

Definition set_status (st : SequenceStatus) (s : t) : t :=
  mk (seq_id s) (block_size s) (data s) (seq_type s) st (eos_token_prob s)
     (eos_token_prob_pos s) (swapped_out_block_nums s)
     (eos_prob_estimation_window s) (min_eos_rank s) (default_eos_token_prob s).

Definition set_data (d : SequenceData.t) (s : t) : t :=
  mk (seq_id s) (block_size s) d (seq_type s) (status s) (eos_token_prob s)
     (eos_token_prob_pos s) (swapped_out_block_nums s)
     (eos_prob_estimation_window s) (min_eos_rank s) (default_eos_token_prob s).

Definition set_swapped_out_block_nums (n : Z) (s : t) : t :=
  mk (seq_id s) (block_size s) (data s) (seq_type s) (status s) (eos_token_prob s)
     (eos_token_prob_pos s) n
     (eos_prob_estimation_window s) (min_eos_rank s) (default_eos_token_prob s).

Definition get_eos_token_prob (s : t) : list float :=
  if Z.of_nat (length (eos_token_prob s)) <? eos_prob_estimation_window s
  then [default_eos_token_prob s]
  else eos_token_prob s.

Definition get_eos_token_pos (s : t) : list Z :=
  if Z.of_nat (length (eos_token_prob_pos s)) <? eos_prob_estimation_window s
  then [-1]
  else eos_token_prob_pos s.

Definition update_swapped_out_block_nums (swap_out_block_nums : Z) (s : t) : t :=
  set_swapped_out_block_nums
    (Z.min (n_blocks s) (swapped_out_block_nums s + swap_out_block_nums)) s.

Definition reset_swapped_out_block_ratio (s : t) : t :=
  set_swapped_out_block_nums 0 s.

Definition get_swapped_out_block_nums (s : t) : Z := swapped_out_block_nums s.

Definition reset_state_for_recompute (s : t) : t :=
  set_data (SequenceData.reset_state_for_recompute (data s)) s.

(** [get_num_new_tokens], lines 484-493. *)
Definition get_num_new_tokens (s : t) : Z :=
  if decide (SequenceData.stage (data s) = DECODE) then 1
  else SequenceData.get_num_uncomputed_tokens (data s).

(** [is_prefill], lines 495-496. *)
Definition is_prefill (s : t) : bool :=
  bool_decide (SequenceData.stage (data s) = PREFILL).

End Sequence.

Record SamplingParams : Type := mkSamplingParams {
  best_of : Z;
  use_beam_search : bool;
  max_tokens : Z;
  logprobs : option Z;
  prompt_logprobs : option Z
}.

#[global] Instance SamplingParams_eq_dec : EqDecision SamplingParams.
Proof. solve_decision. Defined.

Record RequestMetrics : Type := mkRequestMetrics {
  arrival_time : float;
  first_scheduled_time : option float;
  waiting_iter_nums : Z
}.

#[global] Instance RequestMetrics_eq_dec : EqDecision RequestMetrics.
Proof. solve_decision. Defined.

Module SequenceGroup.

(** [seqs_dict] is a dictionary in insertion order: the list of its values,
    each carrying its key [seq_id]. *)
Record t : Type := mk {
  request_id : string;
  seqs_dict : list Sequence.t;
  sampling_params : option SamplingParams;
  metrics : RequestMetrics;
  encoder_seq : option Sequence.t;
  current_priority : option Z;
  promoted : Z;
  priority_rate : number;
  max_length : Z
}.

#[global] Instance eq_dec : EqDecision t.
Proof. solve_decision. Defined.

(** [SequenceGroup(request_id, seqs, arrival_time, ..., sampling_params)],
    lines 531-590. *)
Definition new (request_id : string) (seqs : list Sequence.t) (arrival_time : float)
    (sampling_params : option SamplingParams) : t :=
  mk request_id seqs sampling_params
     (mkRequestMetrics arrival_time None 0)
     None None 0 (PyFloat 1%float)
     (match sampling_params with Some p => max_tokens p | None => 10240 end).

Definition set_seqs (l : list Sequence.t) (g : t) : t :=
  mk (request_id g) l (sampling_params g) (metrics g) (encoder_seq g)
     (current_priority g) (promoted g) (priority_rate g) (max_length g).

Definition set_current_priority (p : option Z) (g : t) : t :=
  mk (request_id g) (seqs_dict g) (sampling_params g) (metrics g) (encoder_seq g)
     p (promoted g) (priority_rate g) (max_length g).

Definition set_promoted (p : Z) (g : t) : t :=
  mk (request_id g) (seqs_dict g) (sampling_params g) (metrics g) (encoder_seq g)
     (current_priority g) p (priority_rate g) (max_length g).

Definition set_priority_rate (r : number) (g : t) : t :=
  mk (request_id g) (seqs_dict g) (sampling_params g) (metrics g) (encoder_seq g)
     (current_priority g) (promoted g) r (max_length g).

(** [get_seqs(status)]: every sequence, or those in the given status. *)
Definition get_seqs (status : option SequenceStatus) (g : t) : list Sequence.t :=
  match status with
  | None => seqs_dict g
  | Some st => filter (fun s => Sequence.status s = st) (seqs_dict g)
  end.

Definition is_encoder_decoder (g : t) : bool :=
  match encoder_seq g with Some _ => true | None => false end.

Definition get_encoder_seq (g : t) : option Sequence.t := encoder_seq g.

Definition get_unfinished_seqs (g : t) : list Sequence.t :=
  filter (fun s => Sequence.is_finished s = false) (seqs_dict g).

Definition num_seqs (status : option SequenceStatus) (g : t) : Z :=
  Z.of_nat (length (get_seqs status g)).

Definition num_unfinished_seqs (g : t) : Z :=
  Z.of_nat (length (get_unfinished_seqs g)).

Definition is_finished (g : t) : bool :=
  forallb Sequence.is_finished (seqs_dict g).

Definition seq_len (g : t) : Z :=
  fold_right Z.add 0 (map Sequence.get_len (seqs_dict g)).

Definition decode_len (g : t) : Z :=
  fold_right Z.add 0 (map Sequence.get_output_len (seqs_dict g)).

Definition get_num_uncomputed_tokens (g : t) : Z :=
  fold_right Z.add 0
    (map (fun s => SequenceData.get_num_uncomputed_tokens (Sequence.data s))
         (filter (fun s => Sequence.is_finished s = false) (seqs_dict g))).

(** [get_max_num_running_seqs], lines 685-701. *)
Definition get_max_num_running_seqs (g : t) : Z :=
  match sampling_params g with
  | Some p =>
      if use_beam_search p then best_of p
      else if best_of p >? num_seqs None g then best_of p
      else num_unfinished_seqs g
  | None => num_unfinished_seqs g
  end.

(** Apply [f] to the sequences that satisfy [sel], in place. *)
Definition update_seqs (sel : Sequence.t -> bool) (f : Sequence.t -> Sequence.t) (g : t) : t :=
  set_seqs (map (fun s => if sel s then f s else s) (seqs_dict g)) g.

(** Apply [f] to the sequence object stored under the key [seq_id]. *)
Definition update_seq (seq_id : Z) (f : Sequence.t -> Sequence.t) (g : t) : t :=
  update_seqs (fun s => Sequence.seq_id s =? seq_id) f g.

(** The loop of [update_num_computed_tokens], lines 727-729, over
    [self.seqs_dict.values()]: a sequence whose assertion fails ends it, the
    sequences before it (and that one's counter) updated. *)
Fixpoint update_seqs_computed_tokens (num_new_computed_tokens : Z) (seqs : list Sequence.t)
    : outcome unit * list Sequence.t :=
  match seqs with
  | [] => (Returns tt, [])
  | seq :: rest =>
      if Sequence.is_finished seq then
        let '(o, rest') := update_seqs_computed_tokens num_new_computed_tokens rest in
        (o, seq :: rest')
      else
        match SequenceData.update_num_computed_tokens num_new_computed_tokens
                (Sequence.data seq) with
        | (Returns _, d) =>
            let '(o, rest') := update_seqs_computed_tokens num_new_computed_tokens rest in
            (o, Sequence.set_data d seq :: rest')
        | (Raises e, d) => (Raises e, Sequence.set_data d seq :: rest)
        end
  end.

(** [update_num_computed_tokens], lines 725-729. *)
Definition update_num_computed_tokens (num_new_computed_tokens : Z) : Py t unit :=
  fun g =>
    let '(o, seqs) := update_seqs_computed_tokens num_new_computed_tokens (seqs_dict g) in
    (o, set_seqs seqs g).

End SequenceGroup.

(** ** Python list indexing and slicing *)

(** An index or slice bound as the list sees it: a negative one counts from
    the end, and a slice bound is clamped to the list. *)
Definition slice_bound {A} (l : list A) (i : Z) : nat :=
  let n := Z.of_nat (length l) in
  Z.to_nat (if i <? 0 then Z.max 0 (n + i) else Z.min i n).

(** [l[i]], [None] standing for [IndexError]. *)
Definition py_index {A} (l : list A) (i : Z) : option A :=
  let n := Z.of_nat (length l) in
  if i <? 0 then (if n + i <? 0 then None else l !! Z.to_nat (n + i))
  else l !! Z.to_nat i.

(** [l[lo:hi]] *)
Definition slice {A} (l : list A) (lo hi : Z) : list A :=
  let a := slice_bound l lo in
  let b := slice_bound l hi in
  take (b - a)%nat (drop a l).

(** [l[lo:hi] = new] *)
Definition slice_assign {A} (l : list A) (lo hi : Z) (new : list A) : list A :=
  let a := slice_bound l lo in
  let b := slice_bound l hi in
  take a l ++ new ++ drop (Nat.max a b) l.

(** [l[-1] = x], [None] standing for [IndexError]. *)
Definition set_last {A} (l : list A) (x : A) : option (list A) :=
  match pop l with
  | None => None
  | Some (init, _) => Some (init ++ [x])
  end.

(** A dictionary with insertion order whose keys are blocks (the [mapping] of
    [swap_in] and [swap_out]): the list of its items. *)
Fixpoint mapping_get (mapping : list (block_id * block_id)) (k : block_id) : option block_id :=
  match mapping with
  | [] => None
  | (k', v) :: rest => if decide (k' = k) then Some v else mapping_get rest k
  end.

(** ** BlockSpaceManagerV1 (block_manager_v1.py, lines 272-962)

    The manager is modelled with [enable_caching=False], the constructor's
    default: both tiers are [UncachedBlockAllocator]s and the branches guarded
    by [self.enable_caching] are not taken. *)

(** [vllm.core.interfaces.AllocStatus] *)
Inductive AllocStatus : Type := OK | LATER | NEVER.

Module BlockSpaceManagerV1.

Record t : Type := mk {
  block_size : Z;
  num_total_gpu_blocks : Z;
  num_total_cpu_blocks : Z;
  num_shared_blocks : Z;
  block_sliding_window : option Z;
  watermark_blocks : Z;
  gpu_allocator : UncachedBlockAllocator.t;
  cpu_allocator : UncachedBlockAllocator.t;
  heap : Heap;
  block_tables : gmap Z (list block_id);
  shared_block_tables : gmap Z (list block_id);
  gpu_block_capacity : Z;
  cross_block_tables : gmap string (list block_id)
}.

(** [__init__], lines 275-325.  [watermark_blocks] stands for
    [int(watermark * num_gpu_blocks)]. *)
Definition new (block_size num_gpu_blocks num_cpu_blocks num_shared_blocks
                watermark_blocks : Z) (sliding_window : option Z) : t :=
  mk block_size num_gpu_blocks num_cpu_blocks num_shared_blocks
     (match sliding_window with
      | Some w => Some (- ((- w) / block_size))
      | None => None
      end)
     watermark_blocks
     (UncachedBlockAllocator.new GPU block_size num_gpu_blocks num_shared_blocks)
     (UncachedBlockAllocator.new CPU block_size num_cpu_blocks 0)
     (UncachedBlockAllocator.new_heap GPU num_gpu_blocks num_shared_blocks
        (UncachedBlockAllocator.new_heap CPU num_cpu_blocks 0 ∅))
     ∅ ∅
     (num_gpu_blocks - watermark_blocks - num_shared_blocks)
     ∅.

Definition allocator (d : Device) (m : t) : UncachedBlockAllocator.t :=
  match d with GPU => gpu_allocator m | CPU => cpu_allocator m end.

Definition set_allocator_heap (d : Device) (a : UncachedBlockAllocator.t) (h : Heap) (m : t) : t :=
  match d with
  | GPU => mk (block_size m) (num_total_gpu_blocks m) (num_total_cpu_blocks m)
              (num_shared_blocks m) (block_sliding_window m) (watermark_blocks m)
              a (cpu_allocator m) h (block_tables m) (shared_block_tables m)
              (gpu_block_capacity m) (cross_block_tables m)
  | CPU => mk (block_size m) (num_total_gpu_blocks m) (num_total_cpu_blocks m)
              (num_shared_blocks m) (block_sliding_window m) (watermark_blocks m)
              (gpu_allocator m) a h (block_tables m) (shared_block_tables m)
              (gpu_block_capacity m) (cross_block_tables m)
  end.

Definition set_heap (h : Heap) (m : t) : t :=
  mk (block_size m) (num_total_gpu_blocks m) (num_total_cpu_blocks m)
     (num_shared_blocks m) (block_sliding_window m) (watermark_blocks m)
     (gpu_allocator m) (cpu_allocator m) h (block_tables m) (shared_block_tables m)
     (gpu_block_capacity m) (cross_block_tables m).

Definition set_block_tables (bt : gmap Z (list block_id)) (m : t) : t :=
  mk (block_size m) (num_total_gpu_blocks m) (num_total_cpu_blocks m)
     (num_shared_blocks m) (block_sliding_window m) (watermark_blocks m)
     (gpu_allocator m) (cpu_allocator m) (heap m) bt (shared_block_tables m)
     (gpu_block_capacity m) (cross_block_tables m).

Definition set_shared_block_tables (bt : gmap Z (list block_id)) (m : t) : t :=
  mk (block_size m) (num_total_gpu_blocks m) (num_total_cpu_blocks m)
     (num_shared_blocks m) (block_sliding_window m) (watermark_blocks m)
     (gpu_allocator m) (cpu_allocator m) (heap m) (block_tables m) bt
     (gpu_block_capacity m) (cross_block_tables m).

Definition set_cross_block_tables (bt : gmap string (list block_id)) (m : t) : t :=
  mk (block_size m) (num_total_gpu_blocks m) (num_total_cpu_blocks m)
     (num_shared_blocks m) (block_sliding_window m) (watermark_blocks m)
     (gpu_allocator m) (cpu_allocator m) (heap m) (block_tables m)
     (shared_block_tables m) (gpu_block_capacity m) bt.

(** A method of the allocator of tier [d], run on the manager. *)
Definition on_allocator {A} (d : Device) (f : Py (UncachedBlockAllocator.t * Heap) A) : Py t A :=
  fun m => let '(o, (a, h)) := f (allocator d m, heap m) in
           (o, set_allocator_heap d a h m).

(** [self.gpu_allocator.get_num_free_blocks()] *)
Definition get_num_free_gpu_blocks (m : t) : Z :=
  Z.of_nat (length (UncachedBlockAllocator.free_blocks (gpu_allocator m))).

Definition get_num_free_cpu_blocks (m : t) : Z :=
  Z.of_nat (length (UncachedBlockAllocator.free_blocks (cpu_allocator m))).

Definition _get_seq_num_required_blocks (seq : option Sequence.t) : Z :=
  match seq with
  | None => 0
  | Some s => Sequence.n_blocks s
  end.

(** The block count [can_allocate] compares (lines 337-347), for the first
    waiting sequence [seq]. *)
Definition num_required_blocks (m : t) (seq_group : SequenceGroup.t) (seq : Sequence.t) : Z :=
  let n := _get_seq_num_required_blocks (Some seq)
           + _get_seq_num_required_blocks (SequenceGroup.get_encoder_seq seq_group) in
  match block_sliding_window m with
  | Some w => Z.min n w
  | None => n
  end.

Section CanAllocate.

(** [vllm.core.block.utils.check_no_caching_or_swa_for_blockmgr_encdec] is not
    part of the sources: it returns or raises. *)
Variable check_no_caching_or_swa_for_blockmgr_encdec : t -> SequenceGroup.t -> outcome unit.

(** [can_allocate], lines 331-363. *)
Definition can_allocate (seq_group : SequenceGroup.t) (shared : bool) (m : t) : outcome AllocStatus :=
  match check_no_caching_or_swa_for_blockmgr_encdec m seq_group with
  | Raises e => Raises e
  | Returns _ =>
      match SequenceGroup.get_seqs (Some WAITING) seq_group with
      | [] => Raises IndexError
      | seq :: _ =>
          let num_required_blocks := num_required_blocks m seq_group seq in
          if shared then
            match UncachedBlockAllocator.get_num_free_blocks "shared" (gpu_allocator m) with
            | Raises e => Raises e
            | Returns num_free_gpu_blocks =>
                if num_free_gpu_blocks - num_required_blocks <? 0
                then Returns LATER else Returns OK
            end
          else
            match UncachedBlockAllocator.get_num_free_blocks "normal" (gpu_allocator m) with
            | Raises e => Raises e
            | Returns num_free_gpu_blocks =>
                if gpu_block_capacity m - num_required_blocks <? 0 then Returns NEVER
                else if num_free_gpu_blocks - num_required_blocks >=? watermark_blocks m
                     then Returns OK
                     else Returns LATER
            end
      end
  end.

(** The table of a sequence: [self.shared_block_tables] for a [TEMP] sequence,
    [self.block_tables] otherwise. *)
Definition tables_of (ty : SequenceType) (m : t) : gmap Z (list block_id) :=
  match ty with
  | TEMP => shared_block_tables m
  | NORMAL => block_tables m
  end.

Definition set_tables_of (ty : SequenceType) (bt : gmap Z (list block_id)) (m : t) : t :=
  match ty with
  | TEMP => set_shared_block_tables bt m
  | NORMAL => set_block_tables bt m
  end.

Definition read_table (ty : SequenceType) (seq_id : Z) : Py t (list block_id) :=
  fun m => match tables_of ty m !! seq_id with
           | Some tbl => (Returns tbl, m)
           | None => (Raises KeyError, m)
           end.

Definition write_table (ty : SequenceType) (seq_id : Z) (tbl : list block_id) : Py t unit :=
  modify (fun m => set_tables_of ty (<[seq_id := tbl]> (tables_of ty m)) m).

Definition block_type_of (ty : SequenceType) : string :=
  match ty with
  | TEMP => "shared"
  | NORMAL => "normal"
  end.

(** The loop of [_allocate_sequence], lines 380-394 (caching disabled). *)
Fixpoint allocate_blocks (logical_indices : list Z) (ref_count : Z) (shared : bool)
    (block_table : list block_id) : Py t (list block_id) :=
  match logical_indices with
  | [] => ret block_table
  | logical_idx :: rest =>
      let! m := get in
      let! block :=
        match block_sliding_window m with
        | Some w =>
            if logical_idx >=? w then
              if w =? 0 then raise ZeroDivisionError
              else match py_index block_table (logical_idx mod w) with
                   | None => raise IndexError
                   | Some block => ret block
                   end
            else on_allocator GPU
                   (UncachedBlockAllocator.allocate (if shared then "shared" else "normal"))
        | None =>
            on_allocator GPU
              (UncachedBlockAllocator.allocate (if shared then "shared" else "normal"))
        end in
      do! modify (fun m => set_heap (write_ref_count block ref_count (heap m)) m) in
      allocate_blocks rest ref_count shared (block_table ++ [block])
  end.

(** [_allocate_sequence], lines 370-397. *)
Definition _allocate_sequence (seq : Sequence.t) (ref_count : Z) (shared : bool)
    : Py t (list block_id) :=
  allocate_blocks (map Z.of_nat (List.seq 0 (Z.to_nat (Sequence.n_blocks seq))))
                  ref_count shared [].

(** The encoder part of [allocate], which the source holds twice
    (lines 423-439). *)
Definition allocate_encoder (seq_group : SequenceGroup.t) : Py t unit :=
  match SequenceGroup.get_encoder_seq seq_group with
  | None => ret tt
  | Some encoder_seq =>
      let! block_table := _allocate_sequence encoder_seq 1 false in
      modify (fun m => set_cross_block_tables
                         (<[SequenceGroup.request_id seq_group := block_table]>
                            (cross_block_tables m)) m)
  end.

(** [allocate], lines 399-439. *)
Definition allocate (seq_group : SequenceGroup.t) (shared : bool) : Py t unit :=
  let! m := get in
  do! lift (check_no_caching_or_swa_for_blockmgr_encdec m seq_group) in
  match SequenceGroup.get_seqs (Some WAITING) seq_group with
  | [] => raise IndexError
  | seq :: _ =>
      let! block_table :=
        _allocate_sequence seq (SequenceGroup.num_seqs None seq_group) shared in
      do! for_each (SequenceGroup.get_seqs (Some WAITING) seq_group)
            (fun seq => write_table (if shared then TEMP else NORMAL)
                          (Sequence.seq_id seq) block_table) in
      do! allocate_encoder seq_group in
      allocate_encoder seq_group
  end.

End CanAllocate.


(** [_allocate_last_physical_block], lines 517-531 (caching disabled). *)
Definition _allocate_last_physical_block (seq : Sequence.t) : Py t block_id :=
  on_allocator GPU (UncachedBlockAllocator.allocate (block_type_of (Sequence.get_seq_type seq))).

(** [self.block_sliding_window and len(block_table) >= self.block_sliding_window] *)
Definition reuses_window_block (m : t) (block_table : list block_id) : bool :=
  match block_sliding_window m with
  | Some w => negb (w =? 0) && (Z.of_nat (length block_table) >=? w)
  | None => false
  end.

(** The second half of [append_slots], lines 582-609: the token goes to the
    last physical block, copied first when it is shared. *)
Definition append_to_last_block (seq : Sequence.t) (block_table : list block_id) : Py t (list (Z * Z)) :=
  let seq_type := Sequence.get_seq_type seq in
  match py_index block_table (-1) with
  | None => raise IndexError
  | Some last_block =>
      do! assert (bool_decide (block_device last_block = GPU)) in
      let! m := get in
      if ref_count (block_at (heap m) last_block) =? 1 then ret []
      else
        let! new_block := _allocate_last_physical_block seq in
        do! write_table seq_type (Sequence.seq_id seq)
              (default block_table (set_last block_table new_block)) in
        do! on_allocator GPU (UncachedBlockAllocator.free last_block (block_type_of seq_type)) in
        ret [(block_number last_block, block_number new_block)]
  end.

(** [append_slots], lines 552-609. *)
Definition append_slots (seq : Sequence.t) : Py t (list (Z * Z)) :=
  let seq_type := Sequence.get_seq_type seq in
  let n_blocks := Sequence.n_blocks seq in
  let! block_table := read_table seq_type (Sequence.seq_id seq) in
  if Z.of_nat (length block_table) <? n_blocks then
    do! assert (Z.of_nat (length block_table) =? n_blocks - 1) in
    let! m := get in
    if reuses_window_block m block_table then
      match block_sliding_window m with
      | None => raise AssertionError
      | Some w =>
          match py_index block_table (Z.of_nat (length block_table) mod w) with
          | None => raise IndexError
          | Some b =>
              let block_table' := block_table ++ [b] in
              do! write_table seq_type (Sequence.seq_id seq) block_table' in
              append_to_last_block seq block_table'
          end
      end
    else
      let! new_block := _allocate_last_physical_block seq in
      do! write_table seq_type (Sequence.seq_id seq) (block_table ++ [new_block]) in
      ret []
  else append_to_last_block seq block_table.

(** [_swap_block_table], lines 678-697; the updated [mapping] is returned with
    the new table. *)
Fixpoint _swap_block_table (block_table : list block_id) (src dst : Device)
    (mapping : list (block_id * block_id))
    : Py t (list block_id * list (block_id * block_id)) :=
  match block_table with
  | [] => ret ([], mapping)
  | from_block :: rest =>
      let! (to_block, mapping1) :=
        match mapping_get mapping from_block with
        | Some to_block =>
            do! modify (fun m =>
                  set_heap (write_ref_count to_block
                              (ref_count (block_at (heap m) to_block) + 1) (heap m)) m) in
            ret (to_block, mapping)
        | None =>
            let! to_block := on_allocator dst (UncachedBlockAllocator.allocate "normal") in
            ret (to_block, mapping ++ [(from_block, to_block)])
        end in
      do! on_allocator src (UncachedBlockAllocator.free from_block "normal") in
      let! (rest', mapping2) := _swap_block_table rest src dst mapping1 in
      ret (to_block :: rest', mapping2)
  end.

(** A method of the manager, run where a sequence group is in scope too. *)
Definition on_manager {A} (f : Py t A) : Py (t * SequenceGroup.t) A :=
  fun '(m, g) => let '(o, m') := f m in (o, (m', g)).

(** A mutation of a sequence object of the group. *)
Definition on_seq (seq_id : Z) (f : Sequence.t -> Sequence.t) : Py (t * SequenceGroup.t) unit :=
  modify (fun '(m, g) => (m, SequenceGroup.update_seq seq_id f g)).

(** [[(k.block_number, v.block_number) for k, v in mapping.items()]] *)
Definition block_number_pairs (mapping : list (block_id * block_id)) : list (Z * Z) :=
  map (fun '(k, v) => (block_number k, block_number v)) mapping.

(** The body of the loop of [swap_out], lines 769-802, for one sequence. *)
Definition swap_out_seq (swap_out_block_nums : Z) (seq : Sequence.t)
    (mapping : list (block_id * block_id))
    : Py (t * SequenceGroup.t) (list (block_id * block_id)) :=
  let seq_id := Sequence.seq_id seq in
  let! block_tables := on_manager (read_table NORMAL seq_id) in
  let block_table_length := Z.of_nat (length block_tables) in
  if swap_out_block_nums >? 0 then
    let swapped_out_block_nums := Sequence.get_swapped_out_block_nums seq in
    let swapped_out_blocks_idx := swapped_out_block_nums in
    let swapping_out_blocks_idx :=
      Z.min (swapped_out_block_nums + swap_out_block_nums) block_table_length in
    do! on_seq seq_id (Sequence.update_swapped_out_block_nums swap_out_block_nums) in
    let swapping_out_blocks :=
      slice block_tables swapped_out_blocks_idx swapping_out_blocks_idx in
    let! (swapped_out_blocks, mapping') :=
      on_manager (_swap_block_table swapping_out_blocks GPU CPU mapping) in
    do! on_manager (write_table NORMAL seq_id
          (slice_assign block_tables swapped_out_blocks_idx swapping_out_blocks_idx
             swapped_out_blocks)) in
    ret mapping'
  else
    do! on_seq seq_id (Sequence.update_swapped_out_block_nums block_table_length) in
    let! (swapped_out_blocks, mapping') :=
      on_manager (_swap_block_table block_tables GPU CPU mapping) in
    do! on_manager (write_table NORMAL seq_id swapped_out_blocks) in
    ret mapping'.

(** [for seq in seqs: ...] with the [mapping] the iterations share. *)
Fixpoint for_seqs (body : Sequence.t -> list (block_id * block_id) ->
                          Py (t * SequenceGroup.t) (list (block_id * block_id)))
    (seqs : list Sequence.t) (mapping : list (block_id * block_id))
    : Py (t * SequenceGroup.t) (list (block_id * block_id)) :=
  match seqs with
  | [] => ret mapping
  | seq :: rest => let! mapping' := body seq mapping in for_seqs body rest mapping'
  end.

(** The cross-attention table of an encoder/decoder group, swapped after the
    sequences (lines 745-750 and 810-815). *)
Definition swap_cross_table (seq_group : SequenceGroup.t) (src dst : Device)
    (mapping : list (block_id * block_id))
    : Py (t * SequenceGroup.t) (list (block_id * block_id)) :=
  if SequenceGroup.is_encoder_decoder seq_group then
    let request_id := SequenceGroup.request_id seq_group in
    let! m := on_manager get in
    match cross_block_tables m !! request_id with
    | None => raise KeyError
    | Some tbl =>
        let! (tbl', mapping') := on_manager (_swap_block_table tbl src dst mapping) in
        do! on_manager (modify (fun m =>
              set_cross_block_tables (<[request_id := tbl']> (cross_block_tables m)) m)) in
        ret mapping'
    end
  else ret mapping.

(** [swap_out], lines 758-818.  The state holds the manager and the group
    whose sequence objects the method updates. *)
Definition swap_out (swap_out_block_nums : Z) : Py (t * SequenceGroup.t) (list (Z * Z)) :=
  let! (_, seq_group) := get in
  let seqs := SequenceGroup.get_seqs (Some RUNNING) seq_group
              ++ SequenceGroup.get_seqs (Some PARTIAL_SWAPPED) seq_group in
  let! mapping := for_seqs (swap_out_seq swap_out_block_nums) seqs [] in
  let! mapping := swap_cross_table seq_group GPU CPU mapping in
  ret (block_number_pairs mapping).

(** The indices of the blocks of a table that are on the host. *)
Fixpoint cpu_indices (block_table : list block_id) (block_indx : nat) : list nat :=
  match block_table with
  | [] => []
  | block :: rest =>
      if decide (block_device block = CPU)
      then block_indx :: cpu_indices rest (S block_indx)
      else cpu_indices rest (S block_indx)
  end.

(** [self.block_tables[seq.seq_id][block_indx] = swapped_in_blocks[index_value]]
    for the recorded indices, in order (lines 730-735). *)
Fixpoint write_back (block_table : list block_id) (indices : list nat)
    (swapped_in_blocks : list block_id) : list block_id :=
  match indices, swapped_in_blocks with
  | block_indx :: indices', b :: rest => write_back (<[block_indx := b]> block_table) indices' rest
  | _, _ => block_table
  end.

(** The body of the loop of [swap_in], lines 709-737, for one sequence. *)
Definition swap_in_seq (seq : Sequence.t) (mapping : list (block_id * block_id))
    : Py (t * SequenceGroup.t) (list (block_id * block_id)) :=
  let seq_id := Sequence.seq_id seq in
  do! on_seq seq_id Sequence.reset_swapped_out_block_ratio in
  let! block_table := on_manager (read_table NORMAL seq_id) in
  let swapped_in_block_indices := cpu_indices block_table 0 in
  let swapping_in_blocks :=
    match swapped_in_block_indices with
    | [] => block_table
    | _ => filter (fun b => block_device b = CPU) block_table
    end in
  let! (swapped_in_blocks, mapping') :=
    on_manager (_swap_block_table swapping_in_blocks CPU GPU mapping) in
  do! on_manager (write_table NORMAL seq_id
        match swapped_in_block_indices with
        | [] => swapped_in_blocks
        | _ => write_back block_table swapped_in_block_indices swapped_in_blocks
        end) in
  ret mapping'.

(** [swap_in], lines 699-752. *)
Definition swap_in : Py (t * SequenceGroup.t) (list (Z * Z)) :=
  let! (_, seq_group) := get in
  let seqs := SequenceGroup.get_seqs (Some SWAPPED) seq_group
              ++ SequenceGroup.get_seqs (Some PARTIAL_SWAPPED) seq_group in
  let! mapping := for_seqs swap_in_seq seqs [] in
  let! mapping := swap_cross_table seq_group CPU GPU mapping in
  ret (block_number_pairs mapping).

(** [_get_physical_blocks], lines 627-641: the distinct blocks of the tables of
    the unfinished sequences and of the cross-attention table.  The result is
    built from a set; its order is not specified and only its length is read. *)
Fixpoint tables_of_unfinished (m : t) (seqs : list Sequence.t) : outcome (list block_id) :=
  match seqs with
  | [] => Returns []
  | seq :: rest =>
      if Sequence.is_finished seq then tables_of_unfinished m rest
      else match block_tables m !! Sequence.seq_id seq with
           | None => Raises KeyError
           | Some tbl =>
               match tables_of_unfinished m rest with
               | Raises e => Raises e
               | Returns l => Returns (tbl ++ l)
               end
           end
  end.

Definition _get_physical_blocks (seq_group : SequenceGroup.t) (m : t) : outcome (list block_id) :=
  match tables_of_unfinished m (SequenceGroup.get_seqs None seq_group) with
  | Raises e => Raises e
  | Returns l =>
      if SequenceGroup.is_encoder_decoder seq_group then
        match cross_block_tables m !! SequenceGroup.request_id seq_group with
        | None => Raises KeyError
        | Some tbl => Returns (remove_dups (l ++ tbl))
        end
      else Returns (remove_dups l)
  end.

(** [can_swap_out], lines 754-756. *)
Definition can_swap_out (seq_group : SequenceGroup.t) (m : t) : outcome bool :=
  match _get_physical_blocks seq_group m with
  | Raises e => Raises e
  | Returns blocks => Returns (Z.of_nat (length blocks) <=? get_num_free_cpu_blocks m)
  end.

(** [can_swap_in], lines 643-664. *)
Definition can_swap_in (seq_group : SequenceGroup.t) (m : t) : outcome AllocStatus :=
  match _get_physical_blocks seq_group m with
  | Raises e => Raises e
  | Returns blocks =>
      let num_swapped_seqs :=
        SequenceGroup.num_seqs (Some SWAPPED) seq_group
        + SequenceGroup.num_seqs (Some PARTIAL_SWAPPED) seq_group
        + (if SequenceGroup.is_encoder_decoder seq_group then 1 else 0) in
      let num_free_blocks := get_num_free_gpu_blocks m in
      let num_required_blocks := Z.of_nat (length blocks) + num_swapped_seqs in
      if UncachedBlockAllocator.num_blocks (gpu_allocator m) <? num_required_blocks
      then Returns NEVER
      else if num_free_blocks - num_required_blocks >=? watermark_blocks m
           then Returns OK
           else Returns LATER
  end.

(** [_free_block_table], lines 820-833.  The loop runs over a set of blocks;
    the model visits them in the order of their first occurrence. *)
Definition _free_block_table (block_table : list block_id) (block_type : string) : Py t unit :=
  let! m := get in
  let blocks_to_free :=
    match block_sliding_window m with
    | Some w => slice block_table (- w) (Z.of_nat (length block_table))
    | None => block_table
    end in
  for_each (remove_dups blocks_to_free)
    (fun block =>
       if decide (block_device block = GPU)
       then on_allocator GPU (UncachedBlockAllocator.free block block_type)
       else on_allocator CPU (UncachedBlockAllocator.free block "normal")).

(** [free], lines 835-849. *)
Definition free (seq : Sequence.t) : Py t unit :=
  let seq_type := Sequence.get_seq_type seq in
  let! m := get in
  match tables_of seq_type m !! Sequence.seq_id seq with
  | None => ret tt
  | Some block_table =>
      do! _free_block_table block_table (block_type_of seq_type) in
      modify (fun m => set_tables_of seq_type
                         (delete (Sequence.seq_id seq) (tables_of seq_type m)) m)
  end.

(** [get_block_table], lines 892-894. *)
Definition get_block_table (seq : Sequence.t) (m : t) : option (list Z) :=
  option_map (map block_number) (block_tables m !! Sequence.seq_id seq).

(** [can_append_slots], lines 460-478. *)
Definition can_append_slots (seq_group : SequenceGroup.t) (num_lookahead_slots : Z) (m : t)
    : outcome bool :=
  if negb (num_lookahead_slots =? 0) then Raises AssertionError
  else
    match SequenceGroup.get_seqs (Some RUNNING) seq_group with
    | [] => Raises IndexError
    | seq :: _ =>
        let num_seqs := SequenceGroup.num_seqs (Some RUNNING) seq_group in
        match UncachedBlockAllocator.get_num_free_blocks
                (block_type_of (Sequence.get_seq_type seq)) (gpu_allocator m) with
        | Raises e => Raises e
        | Returns num_free_gpu_blocks => Returns (num_seqs <=? num_free_gpu_blocks)
        end
    end.

(** [fork], lines 611-625.  The counts are raised over [set(src_block_table)];
    the model visits the blocks in the order of their first occurrence. *)
Definition fork (parent_seq child_seq : Sequence.t) : Py t unit :=
  let! m := get in
  match block_tables m !! Sequence.seq_id parent_seq with
  | None => ret tt
  | Some src_block_table =>
      do! modify (fun m => set_block_tables
                     (<[Sequence.seq_id child_seq := src_block_table]> (block_tables m)) m) in
      for_each (remove_dups src_block_table)
        (fun block =>
           modify (fun m => set_heap (write_ref_count block
                                        (ref_count (block_at (heap m) block) + 1) (heap m)) m))
  end.

(** [free_cross], lines 852-858. *)
Definition free_cross (seq_group : SequenceGroup.t) : Py t unit :=
  let! m := get in
  match cross_block_tables m !! SequenceGroup.request_id seq_group with
  | None => ret tt
  | Some block_table =>
      do! _free_block_table block_table "normal" in
      modify (fun m => set_cross_block_tables
                         (delete (SequenceGroup.request_id seq_group) (cross_block_tables m)) m)
  end.

(** [add_shared_blocks], lines 870-878; [None] is the value of the bare
    [return]. *)
Definition add_shared_blocks (num_shared_blocks0 : Z) : Py t (option Z) :=
  if num_shared_blocks0 =? 0 then ret None
  else
    let! m := get in
    let shared_block_nums := Z.min num_shared_blocks0 (get_num_free_gpu_blocks m) in
    if shared_block_nums =? 0 then ret (Some 0)
    else
      let '(allocated_shared_block_nums, a) :=
        UncachedBlockAllocator.split_tables shared_block_nums (gpu_allocator m) in
      do! put (set_allocator_heap GPU a (heap m) m) in
      ret (Some allocated_shared_block_nums).

End BlockSpaceManagerV1.

(** ** Scheduler (scheduler.py) *)

Record SchedulerConfig : Type := mkSchedulerConfig {
  chunked_prefill_enabled : bool;
  policy : string;
  max_num_batched_tokens : Z;
  max_num_seqs : Z
}.

Record ScheduledSequenceGroup : Type := mkScheduledSequenceGroup {
  seq_group : SequenceGroup.t;
  token_chunk_size : option Z
}.

Record SchedulerRunningOutputs : Type := mkSchedulerRunningOutputs {
  decode_seq_groups : list ScheduledSequenceGroup;
  prefill_seq_groups : list ScheduledSequenceGroup;
  running_preempted : list SequenceGroup.t;
  swapped_out : list SequenceGroup.t;
  running_blocks_to_swap_out : list (Z * Z);
  running_blocks_to_copy : list (Z * Z);
  running_num_lookahead_slots : Z
}.

(** [SchedulerOutputs], lines 159-209.  The deadline branch stores the integer
    0 in the three block lists, which [is_empty] reads like an empty list, and
    wraps each ignored group in a [ScheduledSequenceGroup]; both are
    represented here by the list types. *)
Record SchedulerOutputs : Type := mkSchedulerOutputs {
  scheduled_seq_groups : list ScheduledSequenceGroup;
  num_prefill_groups : Z;
  num_batched_tokens : Z;
  blocks_to_swap_in : list (Z * Z);
  blocks_to_swap_out : list (Z * Z);
  blocks_to_copy : list (Z * Z);
  ignored_seq_groups : list ScheduledSequenceGroup;
  num_lookahead_slots : Z;
  running_queue_size : Z;
  preempted : Z;
  num_waiting_to_running : Z;
  num_running_to_waiting : Z;
  recomputed_token_nums : Z
}.

Definition is_nil {A} (l : list A) : bool :=
  match l with [] => true | _ => false end.

(** [SchedulerOutputs.is_empty] *)
Definition is_empty (o : SchedulerOutputs) : bool :=
  is_nil (scheduled_seq_groups o) && is_nil (blocks_to_swap_in o)
  && is_nil (blocks_to_swap_out o) && is_nil (blocks_to_copy o).

Inductive queue_name : Type := Waiting | Running | Swapped.

Module Scheduler.

(** The partial-swap table maps a request id to the remaining device blocks of
    a group that one of the queues holds. *)
Record t : Type := mk {
  scheduler_config : SchedulerConfig;
  block_manager : BlockSpaceManagerV1.t;
  waiting : list SequenceGroup.t;
  running : list SequenceGroup.t;
  swapped : list SequenceGroup.t;
  reach_ddl : bool;
  partial_swapped : gmap string Z;
  partial_swapped_values : list (Z * string);
  iter_nums : Z
}.

Definition set_block_manager (m : BlockSpaceManagerV1.t) (s : t) : t :=
  mk (scheduler_config s) m (waiting s) (running s) (swapped s) (reach_ddl s)
     (partial_swapped s) (partial_swapped_values s) (iter_nums s).

Definition set_queues (w r sw : list SequenceGroup.t) (s : t) : t :=
  mk (scheduler_config s) (block_manager s) w r sw (reach_ddl s)
     (partial_swapped s) (partial_swapped_values s) (iter_nums s).

Definition queue (q : queue_name) (s : t) : list SequenceGroup.t :=
  match q with
  | Waiting => waiting s
  | Running => running s
  | Swapped => swapped s
  end.

Definition set_queue (q : queue_name) (l : list SequenceGroup.t) (s : t) : t :=
  match q with
  | Waiting => set_queues l (running s) (swapped s) s
  | Running => set_queues (waiting s) l (swapped s) s
  | Swapped => set_queues (waiting s) (running s) l s
  end.

(** [add_seq_group], lines 429-431. *)
Definition add_seq_group (seq_group : SequenceGroup.t) : Py t unit :=
  modify (fun s => set_queue Waiting (waiting s ++ [seq_group]) s).

(** [free_seq], lines 2557-2559. *)
Definition free_seq (seq : Sequence.t) : Py t unit :=
  zoom block_manager set_block_manager (BlockSpaceManagerV1.free seq).

(** The first loop over a state queue in [abort_seq_group], lines 450-459:
    the groups to abort, in queue order, and the ids still looked for. *)
Fixpoint find_aborted (request_ids : gset string) (state_queue : list SequenceGroup.t)
    : list SequenceGroup.t * gset string :=
  match state_queue with
  | [] => ([], request_ids)
  | seq_group :: rest =>
      if decide (request_ids = ∅) then ([], request_ids)
      else if decide (SequenceGroup.request_id seq_group ∈ request_ids) then
        let '(aborted, ids) :=
          find_aborted (request_ids ∖ {[SequenceGroup.request_id seq_group]}) rest in
        (seq_group :: aborted, ids)
      else find_aborted request_ids rest
  end.

(** [deque.remove(x)]: drop the first element equal to [x]. *)
Fixpoint remove_first (x : SequenceGroup.t) (l : list SequenceGroup.t) : list SequenceGroup.t :=
  match l with
  | [] => []
  | y :: rest => if decide (y = x) then rest else y :: remove_first x rest
  end.

(** The body of the second loop, lines 461-467, for one aborted group. *)
Definition abort_group (q : queue_name) (aborted_group : SequenceGroup.t) : Py t unit :=
  do! modify (fun s => set_queue q (remove_first aborted_group (queue q s)) s) in
  for_each (SequenceGroup.get_seqs None aborted_group)
    (fun seq =>
       if Sequence.is_finished seq then ret tt
       else free_seq (Sequence.set_status FINISHED_ABORTED seq)).

Definition abort_in_queue (q : queue_name) (request_ids : gset string) : Py t (gset string) :=
  let! s := get in
  let '(aborted_groups, ids) := find_aborted request_ids (queue q s) in
  do! for_each aborted_groups (abort_group q) in
  ret ids.

(** [abort_seq_group], lines 433-467, for the set of request ids. *)
Definition abort_seq_group (request_ids : gset string) : Py t unit :=
  let! ids := abort_in_queue Waiting request_ids in
  let! ids := abort_in_queue Running ids in
  let! ids := abort_in_queue Swapped ids in
  ret tt.

(** [has_unfinished_seqs], lines 469-471. *)
Definition has_unfinished_seqs (s : t) : bool :=
  negb (is_nil (waiting s)) || negb (is_nil (running s)) || negb (is_nil (swapped s)).

(** [get_num_unfinished_seq_groups], lines 473-474. *)
Definition get_num_unfinished_seq_groups (s : t) : Z :=
  Z.of_nat (length (waiting s)) + Z.of_nat (length (running s))
  + Z.of_nat (length (swapped s)).

(** [_swap_out], lines 2691-2711, on [self.block_manager] and the group; the
    mapping it appends to [blocks_to_swap_out] is returned. *)
Definition _swap_out (swap_out_block_nums : Z) (seq_group_status : SequenceStatus)
    : Py (BlockSpaceManagerV1.t * SequenceGroup.t) (list (Z * Z)) :=
  let! (m, g) := get in
  let! ok := lift (BlockSpaceManagerV1.can_swap_out g m) in
  if negb ok then raise RuntimeError
  else
    let! mapping := BlockSpaceManagerV1.swap_out swap_out_block_nums in
    do! modify (fun '(m, g) =>
          (m, SequenceGroup.update_seqs
                (fun s => bool_decide (Sequence.status s = RUNNING))
                (Sequence.set_status seq_group_status) g)) in
    ret mapping.

(** [_swap_in], lines 2675-2689. *)
Definition _swap_in : Py (BlockSpaceManagerV1.t * SequenceGroup.t) (list (Z * Z)) :=
  let! mapping := BlockSpaceManagerV1.swap_in in
  do! modify (fun '(m, g) =>
        (m, SequenceGroup.update_seqs
              (fun s => bool_decide (Sequence.status s = SWAPPED)
                        || bool_decide (Sequence.status s = PARTIAL_SWAPPED))
              (Sequence.set_status RUNNING) g)) in
  ret mapping.

(** The deadline branch of [_schedule_chunked_prefill], lines 2182-2209. *)
Definition stop_all (seq_group : SequenceGroup.t) : SequenceGroup.t :=
  SequenceGroup.update_seqs (fun _ => true) (Sequence.set_status FINISHED_STOPPED) seq_group.

Definition deadline_outputs (budget : SchedulingBudget.t) (groups : list SequenceGroup.t)
    : SchedulerOutputs :=
  mkSchedulerOutputs [] 0 (SchedulingBudget.num_batched_tokens budget) [] [] []
    (map (fun g => mkScheduledSequenceGroup (stop_all g) None) groups)
    0 0 0 0 0 0.

(** [itertools.accumulate(numbers)] of Python's standard library: the running
    sums, the first of them the first number. *)
Fixpoint accumulate_from (total : Z) (numbers : list Z) : list Z :=
  match numbers with
  | [] => []
  | x :: rest => (total + x) :: accumulate_from (total + x) rest
  end.

Definition accumulate (numbers : list Z) : list Z := accumulate_from 0 numbers.

(** The loop of [bisect.bisect_right] and of [bisect.bisect_left] (Python's
    standard library), [while lo < hi: mid = (lo + hi) // 2; ...]: the test
    [go_right] on [a[mid]] is [not (x < a[mid])] in [bisect_right] and
    [a[mid] < x] in [bisect_left]; it moves [lo] to [mid + 1], and otherwise
    [hi] moves to [mid].  [turns] bounds the number of turns: a loop that
    would take more does not return in the model. *)
Fixpoint bisect_loop (go_right : Z -> bool) (a : list Z) (turns lo hi : nat) : outcome nat :=
  if (lo <? hi)%nat then
    match turns with
    | O => Raises Diverges
    | S turns' =>
        let mid := ((lo + hi) / 2)%nat in
        match a !! mid with
        | None => Raises IndexError
        | Some v =>
            if go_right v then bisect_loop go_right a turns' (mid + 1)%nat hi
            else bisect_loop go_right a turns' lo mid
        end
    end
  else Returns lo.

Definition bisect_right (a : list Z) (x : Z) : outcome nat :=
  bisect_loop (fun v => negb (x <? v)) a (length a) 0%nat (length a).

Definition bisect_left (a : list Z) (x : Z) : outcome nat :=
  bisect_loop (fun v => v <? x) a (length a) 0%nat (length a).

(** [max_numbers_sum_at_most], lines 2775-2783. *)
Definition max_numbers_sum_at_most (numbers : list Z) (target : Z) : outcome Z :=
  let prefix_sum := accumulate numbers in
  match bisect_right prefix_sum target with
  | Raises e => Raises e
  | Returns index =>
      if (length prefix_sum <=? index)%nat then Returns (-1)
      else Returns (Z.of_nat index)
  end.

(** [min_numbers_sum_at_least], lines 2785-2798. *)
Definition min_numbers_sum_at_least (numbers : list Z) (target : Z) : outcome Z :=
  let prefix_sum := accumulate numbers in
  match bisect_left prefix_sum target with
  | Raises e => Raises e
  | Returns index =>
      if (length prefix_sum <=? index)%nat then Returns (-1)
      else Returns (Z.of_nat index + 1)
  end.

(** [_get_num_new_tokens], lines 2742-2773. *)
Definition _get_num_new_tokens (seq_group : SequenceGroup.t) (status : SequenceStatus)
    (enable_chunking : bool) (budget : SchedulingBudget.t) : outcome Z :=
  let seqs :=
    if decide (status = SWAPPED)
    then SequenceGroup.get_seqs (Some status) seq_group
         ++ SequenceGroup.get_seqs (Some PARTIAL_SWAPPED) seq_group
    else SequenceGroup.get_seqs (Some status) seq_group in
  let num_new_tokens :=
    fold_left (fun n seq => n + Sequence.get_num_new_tokens seq) seqs 0 in
  if negb (num_new_tokens >? 0) then Raises AssertionError
  else if enable_chunking && (length seqs =? 1)%nat
       then Returns (Z.min num_new_tokens (SchedulingBudget.remaining_token_budget budget))
       else Returns num_new_tokens.

(** The loop of [_append_slots], lines 2592-2594, on [self.block_manager]:
    the copies each [append_slots] asks for are added to [blocks_to_copy]. *)
Fixpoint append_slots_of (seqs : list Sequence.t) (blocks_to_copy : list (Z * Z))
    : Py BlockSpaceManagerV1.t (list (Z * Z)) :=
  match seqs with
  | [] => ret blocks_to_copy
  | seq :: rest =>
      let! cows := BlockSpaceManagerV1.append_slots seq in
      append_slots_of rest (blocks_to_copy ++ cows)
  end.

(** [_append_slots], lines 2574-2594; [blocks_to_copy], which the method
    extends in place, is returned.  The number of lookahead slots it passes
    on is not used by [append_slots] of this block manager. *)
Definition _append_slots (seq_group : SequenceGroup.t) (blocks_to_copy : list (Z * Z))
    : Py t (list (Z * Z)) :=
  zoom block_manager set_block_manager
    (append_slots_of (SequenceGroup.get_seqs (Some RUNNING) seq_group) blocks_to_copy).

Section Passes.

(** The passes over the queues when no deadline applies,
    [_schedule_chunked_prefill] from line 2210 on, and [_schedule_running]
    (lines 1563-1716), which returns the remaining running queue, its outputs
    and the budget it updated. *)
Variable chunked_passes : SchedulingBudget.t -> Py t SchedulerOutputs.
Variable _schedule_running :
  SchedulingBudget.t ->
  Py t (list SequenceGroup.t * SchedulerRunningOutputs * SchedulingBudget.t).

(** [_schedule_chunked_prefill], lines 2162-2383. *)
Definition _schedule_chunked_prefill : Py t SchedulerOutputs :=
  let! s := get in
  let budget := SchedulingBudget.new (max_num_batched_tokens (scheduler_config s))
                                     (max_num_seqs (scheduler_config s)) in
  if reach_ddl s then
    let groups := waiting s ++ running s ++ swapped s in
    do! put (set_queues [] [] [] s) in
    ret (deadline_outputs budget groups)
  else chunked_passes budget.

(** [_schedule_default], lines 2065-2160.  The calls of [_schedule_prefills]
    (line 2096) and [_schedule_swapped] (line 2115) leave out the required
    parameter [pending_swapped_rate]: each raises [TypeError] before the
    callee's body runs. *)
Definition _schedule_default : Py t SchedulerOutputs :=
  let! s := get in
  let budget :=
    fold_left (fun b g => SchedulingBudget.add_num_seqs (SequenceGroup.request_id g)
                            (SequenceGroup.get_max_num_running_seqs g) b)
              (running s)
              (SchedulingBudget.new (max_num_batched_tokens (scheduler_config s))
                                    (max_num_seqs (scheduler_config s))) in
  if is_nil (swapped s) then raise (TypeError "_schedule_prefills")
  else
    let! (remaining_running, running_scheduled, budget) := _schedule_running budget in
    if (length (running_preempted running_scheduled)
        + length (swapped_out running_scheduled) =? 0)%nat
    then raise (TypeError "_schedule_swapped")
    else
      do! assert (SchedulingBudget.num_batched_tokens budget
                  <=? max_num_batched_tokens (scheduler_config s)) in
      do! assert (SchedulingBudget.num_curr_seqs budget
                  <=? max_num_seqs (scheduler_config s)) in
      let! s1 := get in
      do! put (set_queues
                 (rev (running_preempted running_scheduled) ++ waiting s1)
                 (remaining_running ++ map seq_group (decode_seq_groups running_scheduled))
                 (swapped s1 ++ swapped_out running_scheduled) s1) in
      do! assert (is_nil (prefill_seq_groups running_scheduled)) in
      let! s2 := get in
      ret (mkSchedulerOutputs
             (decode_seq_groups running_scheduled) 0
             (SchedulingBudget.num_batched_tokens budget)
             [] (running_blocks_to_swap_out running_scheduled)
             (running_blocks_to_copy running_scheduled)
             [] (running_num_lookahead_slots running_scheduled)
             (Z.of_nat (length (running s2)))
             (Z.of_nat (length (running_preempted running_scheduled)
                        + length (swapped_out running_scheduled)))
             0 0 0).

(** [_schedule], lines 2387-2392. *)
Definition _schedule : Py t SchedulerOutputs :=
  let! s := get in
  if chunked_prefill_enabled (scheduler_config s)
  then _schedule_chunked_prefill
  else _schedule_default.

End Passes.

End Scheduler.

(** ** LLMEngine (llm_engine.py) *)

Inductive RequestParams : Type :=
| WithSamplingParams (p : SamplingParams)
| WithPoolingParams.

Module LLMEngine.

Record t : Type := mk {
  scheduler : list Scheduler.t;
  seq_counter : Z;
  cache_block_size : Z;
  max_logprobs : Z
}.

Definition set_scheduler (l : list Scheduler.t) (e : t) : t :=
  mk l (seq_counter e) (cache_block_size e) (max_logprobs e).

(** [x and x > max_logprobs] for an optional count. *)
Definition exceeds (x : option Z) (max_logprobs : Z) : bool :=
  match x with
  | Some n => negb (n =? 0) && (n >? max_logprobs)
  | None => false
  end.

(** [_create_sequence_group_with_sampling], lines 690-728. *)
Definition _create_sequence_group_with_sampling (request_id : string) (seq : Sequence.t)
    (sampling_params : SamplingParams) (arrival_time : float) : Py t SequenceGroup.t :=
  let! e := get in
  if exceeds (logprobs sampling_params) (max_logprobs e)
     || exceeds (prompt_logprobs sampling_params) (max_logprobs e)
  then raise (ValueError TooManyLogprobs)
  else ret (SequenceGroup.new request_id [seq] arrival_time (Some sampling_params)).

(** [_create_sequence_group_with_pooling], lines 730-753. *)
Definition _create_sequence_group_with_pooling (request_id : string) (seq : Sequence.t)
    (arrival_time : float) : Py t SequenceGroup.t :=
  ret (SequenceGroup.new request_id [seq] arrival_time None).

(** [costs.index(min(costs))]: the index of the first least cost. *)
Fixpoint index_of_min (costs : list Z) : option (nat * Z) :=
  match costs with
  | [] => None
  | c :: rest =>
      match index_of_min rest with
      | None => Some (0%nat, c)
      | Some (i, c') => if c' <? c then Some (S i, c') else Some (0%nat, c)
      end
  end.

(** [_add_processed_request], lines 534-580. *)
Definition _add_processed_request (request_id : string) (prompt_token_ids : list Z)
    (params : RequestParams) (arrival_time : float) : Py t unit :=
  let! e := get in
  let seq_id := seq_counter e in
  do! put (mk (scheduler e) (seq_counter e + 1) (cache_block_size e) (max_logprobs e)) in
  let seq := Sequence.new seq_id prompt_token_ids (cache_block_size e) in
  let! seq_group :=
    match params with
    | WithSamplingParams p =>
        _create_sequence_group_with_sampling request_id seq p arrival_time
    | WithPoolingParams =>
        _create_sequence_group_with_pooling request_id seq arrival_time
    end in
  let! e := get in
  match index_of_min (map Scheduler.get_num_unfinished_seq_groups (scheduler e)) with
  | None => raise (ValueError EmptyArgument)
  | Some (i, _) =>
      match scheduler e !! i with
      | None => raise IndexError
      | Some min_cost_scheduler =>
          put (set_scheduler
                 (<[i := snd (Scheduler.add_seq_group seq_group min_cost_scheduler)]>
                    (scheduler e)) e)
      end
  end.

Section WithInputProcessor.

(** The model's input processor ([INPUT_REGISTRY]), applied to the prompt
    token ids of the request; it returns the processed ids or raises. *)
Variable input_processor : list Z -> outcome (list Z).

(** [add_request], lines 616-688, for inputs that carry [prompt_token_ids]
    and no LoRA request. *)
Definition add_request (request_id : string) (prompt_token_ids : list Z)
    (params : RequestParams) (arrival_time : float) : Py t unit :=
  let! processed_inputs := lift (input_processor prompt_token_ids) in
  _add_processed_request request_id processed_inputs params arrival_time.

End WithInputProcessor.

(** [abort_request], lines 755-773. *)
Fixpoint abort_in_schedulers (request_ids : gset string) (l : list Scheduler.t)
    : outcome unit * list Scheduler.t :=
  match l with
  | [] => (Returns tt, [])
  | s :: rest =>
      match Scheduler.abort_seq_group request_ids s with
      | (Raises e, s') => (Raises e, s' :: rest)
      | (Returns _, s') =>
          let '(o, rest') := abort_in_schedulers request_ids rest in (o, s' :: rest')
      end
  end.

Definition abort_request (request_ids : gset string) : Py t unit :=
  fun e => let '(o, l) := abort_in_schedulers request_ids (scheduler e) in
           (o, set_scheduler l e).

(** [has_unfinished_requests], lines 788-791. *)
Definition has_unfinished_requests (e : t) : bool :=
  existsb Scheduler.has_unfinished_seqs (scheduler e).

End LLMEngine.

(** ** Policies (policy.py) *)

Module Policy.

(** [SkipJoinMLFQ.__init__], lines 76-79: [starve_limit] is set to 5 and
    [min_quantum] to 2 whatever the arguments. *)
Record SkipJoinMLFQ_params : Type := mkSkipJoinMLFQ {
  quantum_ratio : Z;
  starve_limit : Z;
  min_quantum : Z
}.

Definition SkipJoinMLFQ_new (quantum_ratio : Z) : SkipJoinMLFQ_params :=
  mkSkipJoinMLFQ quantum_ratio 5 2.

(** The classes of [_POLICY_REGISTRY]. *)
Inductive t : Type :=
| FCFS
| UncomputedTokensFirst
| Random
| WaitingTimeFirst
| ShortJobFirst
| ShortRemainJobFirst
| LeastAttainedSvr
| LongJobFirst
| TFTLatencyTrade
| SkipJoinMLFQ (params : SkipJoinMLFQ_params)
| TFITTradeoff.

(** [PolicyFactory.get_policy(policy_name)], lines 339-357, with no keyword
    arguments. *)
Definition get_policy (policy_name : string) : option t :=
  if String.eqb policy_name "fcfs" then Some FCFS
  else if String.eqb policy_name "utf" then Some UncomputedTokensFirst
  else if String.eqb policy_name "random" then Some Random
  else if String.eqb policy_name "wtf" then Some WaitingTimeFirst
  else if String.eqb policy_name "sjf" then Some ShortJobFirst
  else if String.eqb policy_name "srjf" then Some ShortRemainJobFirst
  else if String.eqb policy_name "las" then Some LeastAttainedSvr
  else if String.eqb policy_name "ljf" then Some LongJobFirst
  else if String.eqb policy_name "infer" then Some TFTLatencyTrade
  else if String.eqb policy_name "sjmlfq" then Some (SkipJoinMLFQ (SkipJoinMLFQ_new 2))
  else if String.eqb policy_name "inferpreempt" then Some TFTLatencyTrade
  else if String.eqb policy_name "tfittradeoff" then Some TFITTradeoff
  else None.

(** [max(l)] over floats: the first element no later one exceeds. *)
Definition float_max (l : list float) : option float :=
  match l with
  | [] => None
  | x :: rest => Some (fold_left (fun m y => if PrimFloat.ltb m y then y else m) rest x)
  end.

(** [min(l, default=d)] over integers. *)
Definition int_min (l : list Z) (d : Z) : Z :=
  match l with
  | [] => d
  | x :: rest => fold_left Z.min rest x
  end.

(** The loop of [get_highest_priority], lines 85-87; [None] when the fuel does
    not reach the loop's exit. *)
Fixpoint highest_priority_loop (fuel : nat) (priority_level quantum first_iteration_time ratio : Z)
    : option Z :=
  match fuel with
  | O => None
  | S fuel' =>
      if quantum <=? first_iteration_time
      then highest_priority_loop fuel' (priority_level + 1) (quantum * ratio)
             first_iteration_time ratio
      else Some priority_level
  end.

(** [get_highest_priority], lines 81-89: the quantum at least doubles on each
    turn (for a ratio of 2 or more), so [first_iteration_time + 1] turns reach
    the exit. *)
Definition get_highest_priority (p : SkipJoinMLFQ_params) (first_iteration_time : Z) : option Z :=
  highest_priority_loop (S (Z.to_nat first_iteration_time)) 1 (min_quantum p)
    first_iteration_time (quantum_ratio p).

Section WithLibrary.

(** [math.exp], [float ** int] and the generator behind [random.random()]:
    library code outside the sources. *)
Variable exp : float -> float.
Variable fpow : float -> Z -> float.
Variable RNG : Type.
Variable random : RNG -> float * RNG.

(** What a priority function can reach: the group it is given and the
    module-level random generator.  The methods take [self], a number and
    [seq_group]; the policy objects hold numbers only ([SkipJoinMLFQ]) or
    nothing, and [SequenceGroup] holds no reference to a scheduler or a block
    manager. *)
Definition world : Type := (RNG * SequenceGroup.t)%type.

Definition the_group : Py world SequenceGroup.t := fun w => (Returns (snd w), w).

Definition update_group (f : SequenceGroup.t -> SequenceGroup.t) : Py world unit :=
  modify (fun w => (fst w, f (snd w))).

(** [len(seq_group.prompt_token_ids)]: the prompt of the first sequence. *)
Definition prompt_length (g : SequenceGroup.t) : outcome Z :=
  match SequenceGroup.seqs_dict g with
  | [] => Raises StopIteration
  | seq :: _ => Returns (SequenceData.get_prompt_len (Sequence.data seq))
  end.

(** [seq_group.current_priority = self.get_highest_priority(input_length)] *)
Definition assign_highest_priority (p : SkipJoinMLFQ_params) (input_length : Z) : Py world unit :=
  match get_highest_priority p input_length with
  | None => raise Diverges
  | Some level => update_group (SequenceGroup.set_current_priority (Some level))
  end.

(** [SkipJoinMLFQ.get_priority], lines 91-106.  A priority that was assigned
    is at least 1, so the power of two is an integer. *)
Definition SkipJoinMLFQ_get_priority (p : SkipJoinMLFQ_params) (now : float) : Py world number :=
  let! g := the_group in
  let! input_length := lift (prompt_length g) in
  do!
    match SequenceGroup.current_priority g with
    | Some cp =>
        if cp =? 0 then assign_highest_priority p input_length
        else
          match first_scheduled_time (SequenceGroup.metrics g) with
          | None => raise (TypeError "float - NoneType")
          | Some fst_time =>
              if Num.gt (PyFloat (PrimFloat.sub now fst_time))
                        (Int (2 ^ (cp - 1) * min_quantum p))
                 && (SequenceGroup.promoted g =? 0)
              then update_group (SequenceGroup.set_current_priority (Some (cp + 1)))
              else if waiting_iter_nums (SequenceGroup.metrics g) >=? starve_limit p
                   then update_group (fun g => SequenceGroup.set_promoted 1
                                                 (SequenceGroup.set_current_priority (Some 1) g))
                   else ret tt
          end
    | None => assign_highest_priority p input_length
    end in
  let! g := the_group in
  match SequenceGroup.current_priority g with
  | Some cp => ret (Int (- cp))
  | None => raise (TypeError "bad operand type for unary -")
  end.

(** [TFTLatencyTrade.get_gittins_index], lines 111-126. *)
Definition get_gittins_index (g : SequenceGroup.t) (eos_probs : float) (decoding_length : Z)
    : outcome number :=
  let n := 15 in
  let value := PrimFloat.sub 1 eos_probs in
  let eos_probs_in_next_interval := PrimFloat.sub 1 (fpow value 15) in
  let numerator :=
    PrimFloat.sub (PrimFloat.add 1 (PrimFloat.mul (float_of_Z n) (fpow value (n + 1))))
                  (PrimFloat.mul (float_of_Z (n + 1)) (fpow value n)) in
  match Num.div (PyFloat numerator) (PyFloat (fpow (PrimFloat.sub 1 value) 2)) with
  | Raises e => Raises e
  | Returns q =>
      let expect_remaining_length := Num.mul (PyFloat value) q in
      match Num.div (PyFloat eos_probs_in_next_interval) expect_remaining_length with
      | Raises e => Raises e
      | Returns gittins_index =>
          let w := waiting_iter_nums (SequenceGroup.metrics g) in
          let waiting_percent :=
            Num.mul (Int (w * w)) (PyFloat (PrimFloat.sqrt (float_of_Z decoding_length))) in
          Returns (Num.mul gittins_index (Num.add (Int 1) waiting_percent))
      end
  end.

(** [TFTLatencyTrade.get_priority], lines 128-148. *)
Definition TFTLatencyTrade_get_priority (now : float) : Py world number :=
  let! g := the_group in
  let eos_token_probs := concat (map Sequence.get_eos_token_prob (SequenceGroup.seqs_dict g)) in
  let decoding_length := SequenceGroup.decode_len g in
  match float_max eos_token_probs with
  | None => raise (ValueError EmptyArgument)
  | Some max_eos_token_prob =>
      if PrimFloat.eqb max_eos_token_prob (-1000)%float
      then ret (Int (2000 - SequenceGroup.seq_len g))
      else lift (get_gittins_index g (exp max_eos_token_prob) decoding_length)
  end.

(** The ranks of the EOS token over the sequences of the group, with their
    least element and the bound the two scoring functions compare it to
    (lines 168-175 and 208-215). *)
Definition all_eos_token_pos (g : SequenceGroup.t) : list Z :=
  concat (map Sequence.get_eos_token_pos (SequenceGroup.seqs_dict g)).

Definition max_eos_token_pos (g : SequenceGroup.t) : number :=
  if Z.of_nat (length (all_eos_token_pos g)) <? 10 then Int 32000
  else Num.mean (drop 10 (all_eos_token_pos g)).

(** [TFITTradeoff._get_running_priority], lines 158-203. *)
Definition _get_running_priority (avg_priority_rate : number) : Py world number :=
  let! g := the_group in
  let min_eos_token_pos := int_min (all_eos_token_pos g) (-1) in
  let max_eos_token_pos := max_eos_token_pos g in
  if min_eos_token_pos >? 0 then
    let! rate := lift (Num.div (Num.sub max_eos_token_pos (Int min_eos_token_pos))
                               max_eos_token_pos) in
    do! update_group (SequenceGroup.set_priority_rate rate) in
    let! seq_weight := lift (Num.div (Int (SequenceGroup.seq_len g))
                                     (Int (SequenceGroup.max_length g))) in
    lift (Num.div (Num.mul rate (Int (SequenceGroup.seq_len g)))
                  (Int (SequenceGroup.max_length g)))
  else
    lift (Num.div (Int (SequenceGroup.seq_len g)) (Int (SequenceGroup.max_length g))).

(** [TFITTradeoff._get_waiting_priority], lines 205-233. *)
Definition _get_waiting_priority (avg_priority_rate : number) : Py world number :=
  let! g := the_group in
  let min_eos_token_pos := int_min (all_eos_token_pos g) (-1) in
  let max_eos_token_pos := max_eos_token_pos g in
  let! priority_rate := lift (Num.div (Num.sub max_eos_token_pos (Int min_eos_token_pos))
                                      max_eos_token_pos) in
  let load := Int (SequenceGroup.seq_len g + waiting_iter_nums (SequenceGroup.metrics g)) in
  if Num.gt priority_rate (Int 0) then
    let! rate := lift (Num.div (Num.sub (Int 32000) priority_rate) (Int 32000)) in
    do! update_group (SequenceGroup.set_priority_rate rate) in
    lift (Num.div (Num.mul rate load) (Int (SequenceGroup.max_length g)))
  else
    let! q := lift (Num.div load (Int (SequenceGroup.max_length g))) in
    ret (Num.mul avg_priority_rate q).

(** [get_priority(now, seq_group)] of each registered class. *)
Definition get_priority (p : t) (now : float) : Py world number :=
  match p with
  | FCFS | TFITTradeoff =>
      let! g := the_group in
      ret (PyFloat (PrimFloat.sub now (arrival_time (SequenceGroup.metrics g))))
  | UncomputedTokensFirst =>
      let! g := the_group in ret (Int (SequenceGroup.get_num_uncomputed_tokens g))
  | Random =>
      fun w => let '(x, rng) := random (fst w) in (Returns (PyFloat x), (rng, snd w))
  | WaitingTimeFirst =>
      let! g := the_group in ret (Int (waiting_iter_nums (SequenceGroup.metrics g)))
  | ShortJobFirst =>
      let! g := the_group in ret (Int (- SequenceGroup.max_length g))
  | ShortRemainJobFirst =>
      let! g := the_group in
      ret (Int (- (SequenceGroup.max_length g - SequenceGroup.decode_len g)))
  | LeastAttainedSvr =>
      let! g := the_group in ret (Int (- SequenceGroup.decode_len g))
  | LongJobFirst =>
      let! g := the_group in
      let w := waiting_iter_nums (SequenceGroup.metrics g) in
      ret (Int (SequenceGroup.seq_len g - w * w))
  | TFTLatencyTrade => TFTLatencyTrade_get_priority now
  | SkipJoinMLFQ params => SkipJoinMLFQ_get_priority params now
  end.

(** [got_priority(avg_priority_rate, seq_group, pending_swapped_rate)]:
    [TFITTradeoff] overrides it (lines 235-246); the base class returns
    [None]. *)
Definition got_priority (p : t) (avg_priority_rate pending_swapped_rate : number)
    : Py world (option number) :=
  match p with
  | TFITTradeoff =>
      let! priority :=
        if negb (PrimFloat.eqb (Num.to_float pending_swapped_rate) (-1)%float)
        then _get_running_priority avg_priority_rate
        else _get_waiting_priority avg_priority_rate in
      ret (Some priority)
  | _ => ret None
  end.

End WithLibrary.

(** The policies whose [get_priority] assigns nothing. *)
Definition reads_only (p : t) : bool :=
  match p with
  | SkipJoinMLFQ _ => false
  | _ => true
  end.

End Policy.

(** ** Priority functions on queued groups *)

Section QueuedPriority.

Variable exp : float -> float.
Variable fpow : float -> Z -> float.
Variable RNG : Type.
Variable random : RNG -> float * RNG.

(** The key function of [Policy.sort_by_priority] (lines 27-37) applied to the
    group at position [i] of a state queue: the queue holds the group object,
    which the priority function may update in place. *)
Definition priority_of_queued (p : Policy.t) (now : float) (q : queue_name) (i : nat)
    : Py (RNG * Scheduler.t) number :=
  fun '(rng, s) =>
    match Scheduler.queue q s !! i with
    | None => (Raises IndexError, (rng, s))
    | Some g =>
        let '(o, (rng', g')) := Policy.get_priority exp fpow RNG random p now (rng, g) in
        (o, (rng', Scheduler.set_queue q (<[i := g']> (Scheduler.queue q s)) s))
    end.

(** The key function of [Policy.sorted_by_priority] (lines 39-51), likewise. *)
Definition got_priority_of_queued (p : Policy.t)
    (avg_priorities pending_swapped_rate : number) (q : queue_name) (i : nat)
    : Py (RNG * Scheduler.t) (option number) :=
  fun '(rng, s) =>
    match Scheduler.queue q s !! i with
    | None => (Raises IndexError, (rng, s))
    | Some g =>
        let '(o, (rng', g')) :=
          Policy.got_priority RNG p avg_priorities pending_swapped_rate (rng, g) in
        (o, (rng', Scheduler.set_queue q (<[i := g']> (Scheduler.queue q s)) s))
    end.

End QueuedPriority.

(** ** Concrete inputs for the examples *)

(** The priority of a group under the registered policy of the given name at
    time 5.0, and the group afterwards; the library functions are not
    reached by the policies the examples use. *)
Definition run_policy (policy_name : string) (g : SequenceGroup.t)
    : option (outcome number * SequenceGroup.t) :=
  match Policy.get_policy policy_name with
  | None => None
  | Some p =>
      let '(o, (_, g')) :=
        Policy.get_priority (fun x => x) (fun x _ => x) unit (fun r => (0%float, r))
          p 5%float (tt, g) in
      Some (o, g')
  end.

Definition get_policy_priority (policy_name : string) (g : SequenceGroup.t)
    : option (outcome number) :=
  option_map fst (run_policy policy_name g).

Definition group_after_priority (policy_name : string) (g : SequenceGroup.t)
    : option SequenceGroup.t :=
  option_map snd (run_policy policy_name g).

(** The group after [TFITTradeoff._get_waiting_priority] with an average
    priority rate of 1. *)
Definition group_after_waiting_priority (g : SequenceGroup.t) : SequenceGroup.t :=
  snd (snd (Policy._get_waiting_priority unit (Int 1) (tt, g))).

(** A request with a prompt of [n] tokens, as [add_request] builds it. *)
Definition prompt_group (request_id : string) (seq_id : Z) (n : nat) (block_size : Z)
    : SequenceGroup.t :=
  SequenceGroup.new request_id [Sequence.new seq_id (repeat 0 n) block_size] 0%float None.

(** A decoder-only deployment: the encoder/decoder check returns. *)
Definition no_check : BlockSpaceManagerV1.t -> SequenceGroup.t -> outcome unit :=
  fun _ _ => Returns tt.

(** The sequence [seq] after the tokens [output] were appended to it and it
    was admitted: what [append_slots] is called with in the decode phase. *)
Definition decoding (seq : Sequence.t) (output : list Z) : Sequence.t :=
  Sequence.set_status RUNNING
    (Sequence.set_data
       (SequenceData.mk (SequenceData._prompt_token_ids (Sequence.data seq)) output
          (SequenceData.get_prompt_len (Sequence.data seq)) DECODE)
       seq).

(** A request with two sequences over one prompt of [n] tokens (a group of
    [best_of=2] as the copy-on-write scenario has it). *)
Definition pair_group (request_id : string) (n : nat) (block_size : Z) : SequenceGroup.t :=
  SequenceGroup.new request_id
    [Sequence.new 0 (repeat 0 n) block_size; Sequence.new 1 (repeat 0 n) block_size]
    0%float None.

(** One waiting request of 10 prompt tokens in a scheduler with the given
    mode whose deadline flag is set. *)
Definition past_deadline (chunked : bool) : Scheduler.t :=
  Scheduler.mk (mkSchedulerConfig chunked "fcfs" 2048 256)
    (BlockSpaceManagerV1.new 16 8 4 0 0 None)
    [prompt_group "r1" 0 10 16] [] [] true ∅ [] 0.

Definition no_passes : SchedulingBudget.t -> Py Scheduler.t SchedulerOutputs :=
  fun _ => raise RuntimeError.

Definition no_running_pass :
  SchedulingBudget.t ->
  Py Scheduler.t (list SequenceGroup.t * SchedulerRunningOutputs * SchedulingBudget.t) :=
  fun _ => raise RuntimeError.

(** The number of queued groups that carry the request id. *)
Definition queued_with_id (request_id : string) (s : Scheduler.t) : nat :=
  length (filter (fun g => SequenceGroup.request_id g = request_id)
                 (Scheduler.waiting s ++ Scheduler.running s ++ Scheduler.swapped s)).

(** A scheduler with empty queues over 8 device and 4 host blocks of 16
    tokens, and an engine that owns it. *)
Definition idle_scheduler : Scheduler.t :=
  Scheduler.mk (mkSchedulerConfig true "fcfs" 2048 256)
    (BlockSpaceManagerV1.new 16 8 4 0 0 None) [] [] [] false ∅ [] 0.

Definition idle_engine : LLMEngine.t := LLMEngine.mk [idle_scheduler] 0 16 5.

(** The engine after two requests named "r1" were added. *)
Definition twice_added : LLMEngine.t :=
  snd (LLMEngine.add_request Returns "r1" [4; 5] WithPoolingParams 1%float
         (snd (LLMEngine.add_request Returns "r1" [1; 2; 3] WithPoolingParams 0%float
                 idle_engine))).

(** A sequence group whose sequences were admitted: every one is running. *)
Definition admitted (g : SequenceGroup.t) : SequenceGroup.t :=
  SequenceGroup.update_seqs (fun _ => true) (Sequence.set_status RUNNING) g.

(** The manager with [n_gpu] device and [n_cpu] host blocks of 16 tokens after
    a prompt of [n] tokens was allocated for the request "r1". *)
Definition allocated_manager (n_gpu n_cpu : Z) (sliding_window : option Z) (n : nat)
    : BlockSpaceManagerV1.t :=
  snd (BlockSpaceManagerV1.allocate no_check (prompt_group "r1" 0 n 16) false
         (BlockSpaceManagerV1.new 16 n_gpu n_cpu 0 0 sliding_window)).

(** ** Vocabulary of the swap theorems *)

(** [block.ref_count], read in the manager's heap. *)
Definition ref_count_of (m : BlockSpaceManagerV1.t) (b : block_id) : Z :=
  ref_count (block_at (BlockSpaceManagerV1.heap m) b).

(** The free list of the allocator of a tier. *)
Definition free_blocks_of (d : Device) (m : BlockSpaceManagerV1.t) : list block_id :=
  UncachedBlockAllocator.free_blocks (BlockSpaceManagerV1.allocator d m).

(** The manager with the free list of the tier [d] and the heap replaced. *)
Definition with_free_blocks (d : Device) (l : list block_id) (h : Heap)
    (m : BlockSpaceManagerV1.t) : BlockSpaceManagerV1.t :=
  BlockSpaceManagerV1.set_allocator_heap d
    (UncachedBlockAllocator.set_free_blocks l (BlockSpaceManagerV1.allocator d m)) h m.

(** The number of entries of a table that hold the block [b]. *)
Definition occurrences (b : block_id) (table : list block_id) : Z :=
  Z.of_nat (length (filter (fun x => x = b) table)).

(** [mapping[b]], and [b] itself where the dictionary has no such key. *)
Definition rename (mapping : list (block_id * block_id)) (b : block_id) : block_id :=
  default b (mapping_get mapping b).

(** The blocks of a table that are not among the keys [keys], each once, in
    the order in which the table first names them: the keys
    [_swap_block_table] adds to its mapping. *)
Fixpoint fresh (keys : list block_id) (table : list block_id) : list block_id :=
  match table with
  | [] => []
  | b :: rest =>
      if decide (b ∈ keys) then fresh keys rest else b :: fresh (keys ++ [b]) rest
  end.

(** The blocks whose reference count reaches zero while each entry of the
    table gives up one reference, in that order: what [_swap_block_table]
    appends to the free list of the source tier.  [r] reads the counts. *)
Fixpoint released (r : block_id -> Z) (table : list block_id) : list block_id :=
  match table with
  | [] => []
  | b :: rest =>
      (if r b - 1 =? 0 then [b] else [])
      ++ released (fun x => if decide (x = b) then r b - 1 else r x) rest
  end.

(** [self.block_tables[seq.seq_id]], and the empty table where the sequence
    has none. *)
Definition table_of (m : BlockSpaceManagerV1.t) (seq : Sequence.t) : list block_id :=
  default [] (BlockSpaceManagerV1.block_tables m !! Sequence.seq_id seq).

(** The three parts of one iteration of the loops of [swap_out] and [swap_in]:
    the blocks of the table that are handed to [_swap_block_table], the table
    that is stored once they are swapped, and the update of the sequence. *)
Record swap_step : Type := mkSwapStep {
  swapping : Sequence.t -> list block_id -> list block_id;
  stored : Sequence.t -> list block_id -> list block_id -> list block_id;
  marked : Sequence.t -> list block_id -> Sequence.t -> Sequence.t
}.

(** [swap_out], lines 769-802. *)
Definition swap_out_step (swap_out_block_nums : Z) : swap_step :=
  mkSwapStep
    (fun seq table =>
       if swap_out_block_nums >? 0 then
         slice table (Sequence.get_swapped_out_block_nums seq)
           (Z.min (Sequence.get_swapped_out_block_nums seq + swap_out_block_nums)
                  (Z.of_nat (length table)))
       else table)
    (fun seq table swapped_out_blocks =>
       if swap_out_block_nums >? 0 then
         slice_assign table (Sequence.get_swapped_out_block_nums seq)
           (Z.min (Sequence.get_swapped_out_block_nums seq + swap_out_block_nums)
                  (Z.of_nat (length table)))
           swapped_out_blocks
       else swapped_out_blocks)
    (fun seq table =>
       Sequence.update_swapped_out_block_nums
         (if swap_out_block_nums >? 0 then swap_out_block_nums
          else Z.of_nat (length table))).

(** [swap_in], lines 709-737. *)
Definition swap_in_step : swap_step :=
  mkSwapStep
    (fun seq table =>
       match BlockSpaceManagerV1.cpu_indices table 0 with
       | [] => table
       | _ => filter (fun b => block_device b = CPU) table
       end)
    (fun seq table swapped_in_blocks =>
       match BlockSpaceManagerV1.cpu_indices table 0 with
       | [] => swapped_in_blocks
       | _ => BlockSpaceManagerV1.write_back table (BlockSpaceManagerV1.cpu_indices table 0)
                swapped_in_blocks
       end)
    (fun seq table => Sequence.reset_swapped_out_block_ratio).

(** The blocks the loop hands to [_swap_block_table], over all its
    iterations. *)
Definition swapping_blocks (step : swap_step) (m : BlockSpaceManagerV1.t)
    (seqs : list Sequence.t) : list block_id :=
  seqs ≫= (fun seq => swapping step seq (table_of m seq)).

(** The tables after the loop, the swapped blocks being the images under
    [image] of the blocks handed over. *)
Definition stored_tables (step : swap_step) (m : BlockSpaceManagerV1.t)
    (image : block_id -> block_id) (seqs : list Sequence.t)
    (tables : gmap Z (list block_id)) : gmap Z (list block_id) :=
  foldl (fun tables seq =>
           <[Sequence.seq_id seq :=
               stored step seq (table_of m seq)
                 (image <$> swapping step seq (table_of m seq))]> tables)
        tables seqs.

(** The group after the loop. *)
Definition marked_group (step : swap_step) (m : BlockSpaceManagerV1.t)
    (seqs : list Sequence.t) (g : SequenceGroup.t) : SequenceGroup.t :=
  foldl (fun g seq =>
           SequenceGroup.update_seq (Sequence.seq_id seq) (marked step seq (table_of m seq)) g)
        g seqs.

(** A method of the manager that neither reads nor writes
    [self.block_tables]: it commutes with an assignment to it. *)
Definition apart_from_tables {A} (c : Py BlockSpaceManagerV1.t A) : Prop :=
  forall (bt : gmap Z (list block_id)) (m : BlockSpaceManagerV1.t),
    c (BlockSpaceManagerV1.set_block_tables bt m)
    = (fst (c m), BlockSpaceManagerV1.set_block_tables bt (snd (c m))).

(** The sequences [swap_out] visits, in its order (lines 766-767). *)
Definition swap_out_seqs (g : SequenceGroup.t) : list Sequence.t :=
  SequenceGroup.get_seqs (Some RUNNING) g ++ SequenceGroup.get_seqs (Some PARTIAL_SWAPPED) g.

(** The sequences [swap_in] visits (lines 706-707). *)
Definition swap_in_seqs (g : SequenceGroup.t) : list Sequence.t :=
  SequenceGroup.get_seqs (Some SWAPPED) g ++ SequenceGroup.get_seqs (Some PARTIAL_SWAPPED) g.

(** A running sequence after [_swap_out] with [swap_out_block_nums=-1] and
    the status [SWAPPED]: its counter was raised by the length of its table
    and its status set; any other sequence is left as it is. *)
Definition after_swap_out (m : BlockSpaceManagerV1.t) (s : Sequence.t) : Sequence.t :=
  if decide (Sequence.status s = RUNNING) then
    Sequence.set_status SWAPPED
      (Sequence.update_swapped_out_block_nums (Z.of_nat (length (table_of m s))) s)
  else s.

(** A sequence of a running group: running with nothing swapped out and with
    a block table, or finished. *)
Definition runs_or_finished (m : BlockSpaceManagerV1.t) (s : Sequence.t) : Prop :=
  (Sequence.status s = RUNNING
   /\ Sequence.swapped_out_block_nums s = 0
   /\ is_Some (BlockSpaceManagerV1.block_tables m !! Sequence.seq_id s))
  \/ (Sequence.is_finished s = true /\ Sequence.status s <> PARTIAL_SWAPPED).

#[global] Instance runs_or_finished_dec m s : Decision (runs_or_finished m s).
Proof. unfold runs_or_finished. apply _. Defined.

(** The blocks [split_tables] takes from a free list of distinct blocks when
    it may take [j] more: the first, the third, the fifth, ... *)
Fixpoint taken_blocks (j : nat) (l : list block_id) : list block_id :=
  match j, l with
  | O, _ => []
  | S _, [] => []
  | S _, [x] => [x]
  | S j', x :: _ :: rest => x :: taken_blocks j' rest
  end.

(** The blocks it leaves on the free list. *)
Fixpoint left_blocks (j : nat) (l : list block_id) : list block_id :=
  match j, l with
  | O, _ => l
  | S _, [] => []
  | S _, [_] => []
  | S j', _ :: y :: rest => y :: left_blocks j' rest
  end.

(** The sum of the first [k] numbers of a list. *)
Definition sum_first (k : nat) (numbers : list Z) : Z := foldr Z.add 0 (take k numbers).

(** The heap after [_allocate_sequence] took the blocks [taken] and set their
    reference counts to [ref_count0]: [allocate] sets the count to 1,
    [_allocate_sequence] then to [ref_count0]. *)
Fixpoint counted (ref_count0 : Z) (taken : list block_id) (h : Heap) : Heap :=
  match taken with
  | [] => h
  | b :: rest => counted ref_count0 rest (write_ref_count b ref_count0 (write_ref_count b 1 h))
  end.

(** An encoder/decoder request: one waiting decoder sequence of [n] prompt
    tokens and an encoder sequence of [n_encoder] tokens, blocks of 16. *)
Definition encoder_group (request_id : string) (n n_encoder : nat) : SequenceGroup.t :=
  SequenceGroup.mk request_id [Sequence.new 0 (repeat 0 n) 16] None
    (mkRequestMetrics 0%float None 0)
    (Some (Sequence.new 1 (repeat 0 n_encoder) 16)) None 0 (PyFloat 1%float) 10240.

(** * Properties *)

(** ** The monad *)

Lemma bind_returns {S A B} (m : Py S A) (k : A -> Py S B) s a s' :
  m s = (Returns a, s') -> bind m k s = k a s'.
Proof. intros H. unfold bind. by rewrite H. Qed.

Lemma bind_raises {S A B} (m : Py S A) (k : A -> Py S B) s e s' :
  m s = (Raises e, s') -> bind m k s = (Raises e, s').
Proof. intros H. unfold bind. by rewrite H. Qed.

(** ** SchedulingBudget *)

Lemma add_num_batched_tokens_member req_id n b :
  req_id ∈ SchedulingBudget._requeset_ids_num_batched_tokens
             (SchedulingBudget.add_num_batched_tokens req_id n b).
Proof.
  unfold SchedulingBudget.add_num_batched_tokens.
  case_decide; simpl; set_solver.
Qed.

Lemma add_num_seqs_member req_id n b :
  req_id ∈ SchedulingBudget._requeset_ids_num_curr_seqs
             (SchedulingBudget.add_num_seqs req_id n b).
Proof.
  unfold SchedulingBudget.add_num_seqs.
  case_decide; simpl; set_solver.
Qed.

(** C5.  A second [add_num_batched_tokens] (respectively [add_num_seqs]) for
    the same request id leaves the budget as the first call left it, whatever
    amounts the two calls carry: the whole budget, so in particular both
    totals [num_batched_tokens] and [num_curr_seqs], is unchanged. *)
Theorem budget_second_add_is_noop (b : SchedulingBudget.t) (req_id : string) (n1 n2 : Z) :
  let b1 := SchedulingBudget.add_num_batched_tokens req_id n1 b in
  let c1 := SchedulingBudget.add_num_seqs req_id n1 b in
  SchedulingBudget.add_num_batched_tokens req_id n2 b1 = b1
  /\ SchedulingBudget.num_batched_tokens
       (SchedulingBudget.add_num_batched_tokens req_id n2 b1)
     = SchedulingBudget.num_batched_tokens b1
  /\ SchedulingBudget.num_curr_seqs
       (SchedulingBudget.add_num_batched_tokens req_id n2 b1)
     = SchedulingBudget.num_curr_seqs b1
  /\ SchedulingBudget.add_num_seqs req_id n2 c1 = c1
  /\ SchedulingBudget.num_batched_tokens (SchedulingBudget.add_num_seqs req_id n2 c1)
     = SchedulingBudget.num_batched_tokens c1
  /\ SchedulingBudget.num_curr_seqs (SchedulingBudget.add_num_seqs req_id n2 c1)
     = SchedulingBudget.num_curr_seqs c1.
Proof.
  intros b1 c1.
  assert (Hb : SchedulingBudget.add_num_batched_tokens req_id n2 b1 = b1).
  { unfold SchedulingBudget.add_num_batched_tokens at 1.
    rewrite decide_True; [done | apply add_num_batched_tokens_member]. }
  assert (Hc : SchedulingBudget.add_num_seqs req_id n2 c1 = c1).
  { unfold SchedulingBudget.add_num_seqs at 1.
    rewrite decide_True; [done | apply add_num_seqs_member]. }
  rewrite Hb, Hc. repeat split.
Qed.

(** ** The allocators *)

(** C10.  Freeing a block whose [ref_count] is already 0 raises the
    double-free [ValueError] in the uncached allocator (for any block type) and
    in the cached allocator (for any evictor), and the state the exception
    leaves behind is the state before the call: free lists, cache, evictor and
    block objects are unchanged. *)
Theorem free_of_unreferenced_block_raises
    (Evictor : Type) (evictor_contains : Evictor -> Z -> bool)
    (evictor_add : Evictor -> block_id -> PhysicalTokenBlock -> Evictor)
    (ua : UncachedBlockAllocator.t) (ca : CachedBlockAllocator.t Evictor)
    (h : Heap) (b : block_id) (block_type : string) :
  ref_count (block_at h b) = 0 ->
  UncachedBlockAllocator.free b block_type (ua, h)
    = (Raises (ValueError DoubleFree), (ua, h))
  /\ CachedBlockAllocator.free Evictor evictor_contains evictor_add b block_type (ca, h)
    = (Raises (ValueError DoubleFree), (ca, h)).
Proof.
  intros Hrc.
  unfold UncachedBlockAllocator.free, CachedBlockAllocator.free.
  rewrite Hrc. simpl. done.
Qed.

(** The theorem at a fresh two-block device tier whose block 0 is unreferenced,
    with a list of hashes for evictor. *)
Lemma free_of_unreferenced_block_raises_witness :
  let h := UncachedBlockAllocator.new_heap GPU 2 0 ∅ in
  let ua := UncachedBlockAllocator.new GPU 16 2 0 in
  let ca := CachedBlockAllocator.mk (list Z) GPU 16 2 0 ∅ [] 0 in
  ref_count (block_at h (GPU, 0)) = 0
  /\ UncachedBlockAllocator.free (GPU, 0) "normal" (ua, h)
     = (Raises (ValueError DoubleFree), (ua, h))
  /\ CachedBlockAllocator.free (list Z) (fun ev x => bool_decide (x ∈ ev))
       (fun ev _ blk => block_hash blk :: ev) (GPU, 0) "normal" (ca, h)
     = (Raises (ValueError DoubleFree), (ca, h)).
Proof.
  intros h ua ca.
  assert (Hrc : ref_count (block_at h (GPU, 0)) = 0) by (vm_compute; reflexivity).
  split; [exact Hrc |].
  exact (free_of_unreferenced_block_raises (list Z) (fun ev x => bool_decide (x ∈ ev))
           (fun ev _ blk => block_hash blk :: ev) ua ca h (GPU, 0) "normal" Hrc).
Defined.

(** ** BlockSpaceManagerV1.can_allocate *)

Section CanAllocateFacts.

Variable check : BlockSpaceManagerV1.t -> SequenceGroup.t -> outcome unit.

(** C1, as amended.  For a group with a waiting sequence (and the
    encoder/decoder check passing), with [shared=False]: the answer is [NEVER]
    exactly when the required block count exceeds [gpu_block_capacity], which
    is the device total minus the watermark blocks minus the shared blocks;
    [OK] exactly when it does not and the free-block count minus the required
    count is at least the watermark (equality included); [LATER] exactly in
    the remaining case. *)
Theorem can_allocate_decides (m : BlockSpaceManagerV1.t) (g : SequenceGroup.t)
    (seq : Sequence.t) (rest : list Sequence.t) :
  SequenceGroup.get_seqs (Some WAITING) g = seq :: rest ->
  check m g = Returns tt ->
  let need := BlockSpaceManagerV1.num_required_blocks m g seq in
  let free := BlockSpaceManagerV1.get_num_free_gpu_blocks m in
  let capacity := BlockSpaceManagerV1.gpu_block_capacity m in
  let watermark := BlockSpaceManagerV1.watermark_blocks m in
  (BlockSpaceManagerV1.can_allocate check g false m = Returns NEVER
     <-> capacity < need)
  /\ (BlockSpaceManagerV1.can_allocate check g false m = Returns OK
     <-> need <= capacity /\ watermark <= free - need)
  /\ (BlockSpaceManagerV1.can_allocate check g false m = Returns LATER
     <-> need <= capacity /\ free - need < watermark)
  /\ (free - need = watermark -> need <= capacity ->
      BlockSpaceManagerV1.can_allocate check g false m = Returns OK).
Proof.
  intros Hw Hc need free capacity watermark.
  unfold BlockSpaceManagerV1.can_allocate.
  rewrite Hc, Hw. simpl.
  fold need. fold capacity. fold watermark.
  change (Z.of_nat (length (UncachedBlockAllocator.free_blocks
                              (BlockSpaceManagerV1.gpu_allocator m)))) with free.
  destruct (Z.ltb_spec (capacity - need) 0) as [Hn | Hn].
  - repeat split; intros; try discriminate; try lia.
  - unfold Z.geb.
    destruct (Z.compare_spec (free - need) watermark) as [He | Hl | Hg].
    + repeat split; intros; try discriminate; try lia.
    + repeat split; intros; try discriminate; try lia.
    + repeat split; intros; try discriminate; try lia.
Qed.

End CanAllocateFacts.

(** The constructor sets [gpu_block_capacity] to the device total minus the
    watermark blocks minus the shared blocks. *)
Lemma new_gpu_block_capacity block_size n_gpu n_cpu n_shared watermark_blocks window :
  BlockSpaceManagerV1.gpu_block_capacity
    (BlockSpaceManagerV1.new block_size n_gpu n_cpu n_shared watermark_blocks window)
  = n_gpu - watermark_blocks - n_shared.
Proof. reflexivity. Qed.

(** C1, the claim as stated fails.  A fresh manager of 10 device blocks with
    2 shared blocks and a watermark of 1 block, and a prompt that needs 8
    blocks: the whole device is free, free - need = 2 is above the watermark
    (and 8 blocks fit in the 10 of the device, watermark kept), yet the answer
    is [NEVER], not [OK]. *)
Lemma can_allocate_never_despite_room :
  let m := BlockSpaceManagerV1.new 16 10 4 2 1 None in
  let g := prompt_group "r1" 0 128 16 in
  let seq := Sequence.new 0 (repeat 0 128) 16 in
  SequenceGroup.get_seqs (Some WAITING) g = [seq]
  /\ BlockSpaceManagerV1.num_required_blocks m g seq = 8
  /\ BlockSpaceManagerV1.get_num_free_gpu_blocks m = 10
  /\ BlockSpaceManagerV1.num_total_gpu_blocks m = 10
  /\ BlockSpaceManagerV1.watermark_blocks m = 1
  /\ BlockSpaceManagerV1.can_allocate no_check g false m = Returns NEVER.
Proof. vm_compute. repeat split; reflexivity. Qed.

(** The theorem at a fresh manager of 10 device blocks with a watermark of 1
    block and a prompt that needs 9 blocks: free - need equals the watermark,
    and the answer is [OK]. *)
Lemma can_allocate_decides_witness :
  let m := BlockSpaceManagerV1.new 16 10 4 0 1 None in
  let g := prompt_group "r1" 0 144 16 in
  let seq := Sequence.new 0 (repeat 0 144) 16 in
  BlockSpaceManagerV1.get_num_free_gpu_blocks m
    - BlockSpaceManagerV1.num_required_blocks m g seq
    = BlockSpaceManagerV1.watermark_blocks m
  /\ BlockSpaceManagerV1.can_allocate no_check g false m = Returns OK.
Proof.
  intros m g seq.
  split; [vm_compute; reflexivity |].
  apply (can_allocate_decides no_check m g seq []).
  - vm_compute; reflexivity.
  - reflexivity.
  - vm_compute; reflexivity.
  - vm_compute; discriminate.
Defined.

(** ** Lists as Python uses them *)

Lemma pop_snoc {A} (l : list A) (x : A) : pop (l ++ [x]) = Some (l, x).
Proof. unfold pop. rewrite rev_unit. by rewrite rev_involutive. Qed.

Lemma pop_nil {A} : pop (@nil A) = None.
Proof. reflexivity. Qed.



(** ** Block objects *)

Lemma block_at_write_same b n h :
  block_at (write_ref_count b n h) b = set_ref_count n (block_at h b).
Proof. unfold block_at, write_ref_count. by rewrite lookup_total_insert_eq. Qed.

Lemma block_at_write_other b b' n h :
  b <> b' -> block_at (write_ref_count b n h) b' = block_at h b'.
Proof. intros Hne. unfold block_at, write_ref_count. by rewrite lookup_total_insert_ne. Qed.

Lemma ref_count_write_same b n h : ref_count (block_at (write_ref_count b n h) b) = n.
Proof. by rewrite block_at_write_same. Qed.

Lemma ref_count_write_other b b' n h :
  b <> b' -> ref_count (block_at (write_ref_count b n h) b') = ref_count (block_at h b').
Proof. intros Hne. by rewrite block_at_write_other. Qed.

(** ** BlockSpaceManagerV1.append_slots *)














(** ** The deadline step *)

Section DeadlineFacts.

Variable chunked_passes : SchedulingBudget.t -> Py Scheduler.t SchedulerOutputs.
Variable _schedule_running :
  SchedulingBudget.t ->
  Py Scheduler.t (list SequenceGroup.t * SchedulerRunningOutputs * SchedulingBudget.t).

Lemma stop_all_stops (g : SequenceGroup.t) :
  Forall (fun q => Sequence.status q = FINISHED_STOPPED)
         (SequenceGroup.seqs_dict (Scheduler.stop_all g)).
Proof.
  unfold Scheduler.stop_all, SequenceGroup.update_seqs. simpl.
  induction (SequenceGroup.seqs_dict g) as [| q l IH]; simpl; constructor; auto.
Qed.

Lemma stop_all_request_id (g : SequenceGroup.t) :
  SequenceGroup.request_id (Scheduler.stop_all g) = SequenceGroup.request_id g.
Proof. reflexivity. Qed.

(** X23.  With chunked prefill enabled, the scheduling step taken
    once the deadline flag is set returns an empty plan whose
    [ignored_seq_groups] lists every group of the waiting, running and swapped
    queues, in that order, each with all its sequences [FINISHED_STOPPED];
    the three queues are empty afterwards, so [has_unfinished_seqs] and the
    engine's [has_unfinished_requests] are false. *)
Theorem deadline_step_chunked (s : Scheduler.t) :
  chunked_prefill_enabled (Scheduler.scheduler_config s) = true ->
  Scheduler.reach_ddl s = true ->
  exists out s',
    Scheduler._schedule chunked_passes _schedule_running s = (Returns out, s')
    /\ is_empty out = true
    /\ scheduled_seq_groups out = []
    /\ map seq_group (ignored_seq_groups out)
       = map Scheduler.stop_all (Scheduler.waiting s ++ Scheduler.running s ++ Scheduler.swapped s)
    /\ map (fun x => SequenceGroup.request_id (seq_group x)) (ignored_seq_groups out)
       = map SequenceGroup.request_id
           (Scheduler.waiting s ++ Scheduler.running s ++ Scheduler.swapped s)
    /\ Forall (fun x => Forall (fun q => Sequence.status q = FINISHED_STOPPED)
                               (SequenceGroup.seqs_dict (seq_group x)))
              (ignored_seq_groups out)
    /\ Scheduler.waiting s' = [] /\ Scheduler.running s' = [] /\ Scheduler.swapped s' = []
    /\ Scheduler.has_unfinished_seqs s' = false
    /\ (forall c b l, LLMEngine.has_unfinished_requests (LLMEngine.mk [s'] c b l) = false).
Proof.
  intros Hmode Hddl.
  unfold Scheduler._schedule, Scheduler._schedule_chunked_prefill, bind, get, put, ret.
  rewrite Hmode, Hddl. simpl.
  eexists. eexists. split; [reflexivity |].
  simpl. repeat split.
  - by rewrite map_map.
  - rewrite map_map. by apply map_ext.
  - apply Forall_map. apply Forall_forall. intros g _. apply stop_all_stops.
Qed.

(** In the default mode a step with an empty swapped queue leaves
    [_schedule] through the [TypeError] of line 2096, whatever the deadline
    flag says: the scheduler state is untouched. *)
Lemma schedule_default_raises (s : Scheduler.t) :
  chunked_prefill_enabled (Scheduler.scheduler_config s) = false ->
  Scheduler.swapped s = [] ->
  Scheduler._schedule chunked_passes _schedule_running s
  = (Raises (TypeError "_schedule_prefills"), s).
Proof.
  intros Hmode Hsw.
  unfold Scheduler._schedule, Scheduler._schedule_default, bind, get, raise.
  by rewrite Hmode, Hsw.
Qed.

End DeadlineFacts.

(** C8, the failing run.  The claim covers every scheduling mode; with
    chunked prefill disabled [_schedule] goes to [_schedule_default], which
    does not hold the deadline branch of its sibling
    [_schedule_chunked_prefill] (lines 2182-2209) and stops at the call of
    line 2096, which leaves out the required argument [pending_swapped_rate].
    With the deadline flag set, the step over one waiting request returns no
    plan: it raises [TypeError], the scheduler is as it was, the request stays
    in the waiting queue with its sequence [WAITING], and
    [has_unfinished_seqs] is still true. *)
Lemma deadline_not_handled_in_default_mode :
  let s := past_deadline false in
  Scheduler.reach_ddl s = true
  /\ Scheduler._schedule no_passes no_running_pass s
     = (Raises (TypeError "_schedule_prefills"), s)
  /\ map (fun g => map Sequence.status (SequenceGroup.seqs_dict g)) (Scheduler.waiting s)
     = [[WAITING]]
  /\ Scheduler.has_unfinished_seqs s = true.
Proof.
  intros s. split; [reflexivity |]. split.
  - by apply schedule_default_raises.
  - split; reflexivity.
Qed.

(** The theorem at the same scheduler with chunked prefill enabled. *)
Lemma deadline_step_chunked_witness :
  exists out s',
    Scheduler._schedule no_passes no_running_pass (past_deadline true) = (Returns out, s')
    /\ map (fun x => SequenceGroup.request_id (seq_group x)) (ignored_seq_groups out) = ["r1"]
    /\ Scheduler.has_unfinished_seqs s' = false.
Proof.
  destruct (deadline_step_chunked no_passes no_running_pass (past_deadline true)
              eq_refl eq_refl)
    as (out & s' & Hrun & _ & _ & _ & Hids & _ & _ & _ & _ & Hun & _).
  exists out, s'. split; [exact Hrun |]. split; [exact Hids | exact Hun].
Defined.

(** ** LLMEngine.add_request *)

Lemma index_of_min_in_range (costs : list Z) :
  costs <> [] ->
  exists i c, LLMEngine.index_of_min costs = Some (i, c) /\ (i < length costs)%nat.
Proof.
  induction costs as [| c rest IH]; [done |].
  intros _. simpl.
  destruct rest as [| c' rest'].
  - simpl. exists 0%nat, c. split; [done | lia].
  - destruct IH as (i & c0 & Hi & Hlt); [done |].
    rewrite Hi. destruct (c0 <? c).
    + exists (S i), c0. split; [done | simpl in *; lia].
    + exists 0%nat, c. split; [done | simpl; lia].
Qed.

(** [costs.index(min(costs))]: the position found holds the least cost, and
    no earlier position holds it. *)
Lemma index_of_min_spec (costs : list Z) (i : nat) (c : Z) :
  LLMEngine.index_of_min costs = Some (i, c) ->
  costs !! i = Some c
  /\ (forall j c', costs !! j = Some c' -> c <= c')
  /\ (forall j c', (j < i)%nat -> costs !! j = Some c' -> c < c').
Proof.
  revert i c. induction costs as [| c0 rest IH]; [done |].
  intros i c. simpl.
  destruct (LLMEngine.index_of_min rest) as [[i' c'] |] eqn:Hrest.
  - destruct (IH i' c' eq_refl) as (Hat & Hmin & Hfirst).
    destruct (Z.ltb_spec c' c0) as [Hlt | Hge]; intros [= <- <-].
    + split; [exact Hat |]. split.
      * intros [| j] x Hx; simpl in Hx.
        -- injection Hx as <-. lia.
        -- by apply (Hmin j).
      * intros [| j] x Hj Hx; simpl in Hx.
        -- injection Hx as <-. exact Hlt.
        -- apply (Hfirst j); [lia | done].
    + split; [done |]. split.
      * intros [| j] x Hx; simpl in Hx.
        -- injection Hx as <-. lia.
        -- specialize (Hmin j x Hx). lia.
      * intros j x Hj. lia.
  - intros [= <- <-]. destruct rest as [| c1 rest'].
    + split; [done |]. split.
      * intros [| j] x Hx; simpl in Hx; [injection Hx as <-; lia | done].
      * intros j x Hj. lia.
    + simpl in Hrest. destruct (LLMEngine.index_of_min rest') as [[? ?] |];
        [destruct (_ <? _) |]; discriminate.
Qed.

Section AddRequestFacts.

Variable input_processor : list Z -> outcome (list Z).

(** C7, as amended.  [add_request] holds no duplicate check: whatever
    requests the engine already has, a call whose inputs are processed and
    whose log-probability counts are within the model's bound returns
    normally, and the waiting queue of one scheduler [s], at position [i],
    ends with a new group of the given request id and one waiting sequence,
    numbered by the engine's counter, so the number of queued groups with that
    id grows by one.  The scheduler [s] is the one
    [costs.index(min(costs))] of line 579 picks: no scheduler of the engine
    has fewer unfinished groups, and every scheduler before position [i] has
    more.  The other schedulers are as they were and the counter has advanced
    by one. *)
Theorem add_request_always_enqueues (e : LLMEngine.t) (request_id : string)
    (prompt_token_ids processed : list Z) (params : RequestParams) (arrival_time : float) :
  input_processor prompt_token_ids = Returns processed ->
  LLMEngine.scheduler e <> [] ->
  match params with
  | WithSamplingParams p =>
      LLMEngine.exceeds (logprobs p) (LLMEngine.max_logprobs e) = false
      /\ LLMEngine.exceeds (prompt_logprobs p) (LLMEngine.max_logprobs e) = false
  | WithPoolingParams => True
  end ->
  exists e' i s g,
    LLMEngine.add_request input_processor request_id prompt_token_ids params arrival_time e
      = (Returns tt, e')
    /\ LLMEngine.scheduler e !! i = Some s
    /\ SequenceGroup.request_id g = request_id
    /\ map Sequence.status (SequenceGroup.seqs_dict g) = [WAITING]
    /\ LLMEngine.scheduler e'
       = <[i := Scheduler.set_queue Waiting (Scheduler.waiting s ++ [g]) s]>
           (LLMEngine.scheduler e)
    /\ queued_with_id request_id (Scheduler.set_queue Waiting (Scheduler.waiting s ++ [g]) s)
       = S (queued_with_id request_id s)
    /\ (forall j s', LLMEngine.scheduler e !! j = Some s' ->
          Scheduler.get_num_unfinished_seq_groups s
          <= Scheduler.get_num_unfinished_seq_groups s')
    /\ (forall j s', (j < i)%nat -> LLMEngine.scheduler e !! j = Some s' ->
          Scheduler.get_num_unfinished_seq_groups s
          < Scheduler.get_num_unfinished_seq_groups s')
    /\ SequenceGroup.seqs_dict g
       = [Sequence.new (LLMEngine.seq_counter e) processed (LLMEngine.cache_block_size e)]
    /\ LLMEngine.seq_counter e' = LLMEngine.seq_counter e + 1.
Proof.
  intros Hproc Hne Hparams.
  destruct (index_of_min_in_range
              (map Scheduler.get_num_unfinished_seq_groups (LLMEngine.scheduler e)))
    as (i & c & Hi & Hlt).
  { destruct (LLMEngine.scheduler e); [done | discriminate]. }
  rewrite length_map in Hlt.
  destruct (lookup_lt_is_Some_2 _ _ Hlt) as [s Hs].
  destruct (index_of_min_spec _ _ _ Hi) as (Hat & Hmin & Hfirst).
  rewrite list_lookup_fmap, Hs in Hat. injection Hat as Hc.
  set (seq := Sequence.new (LLMEngine.seq_counter e) processed (LLMEngine.cache_block_size e)).
  set (g := SequenceGroup.new request_id [seq] arrival_time
              match params with WithSamplingParams p => Some p | WithPoolingParams => None end).
  exists (LLMEngine.set_scheduler
            (<[i := Scheduler.set_queue Waiting (Scheduler.waiting s ++ [g]) s]>
               (LLMEngine.scheduler e))
            (LLMEngine.mk (LLMEngine.scheduler e) (LLMEngine.seq_counter e + 1)
               (LLMEngine.cache_block_size e) (LLMEngine.max_logprobs e))),
    i, s, g.
  split.
  - unfold LLMEngine.add_request, bind, lift. rewrite Hproc.
    unfold LLMEngine._add_processed_request, bind, get, put.
    destruct params as [p |].
    + unfold LLMEngine._create_sequence_group_with_sampling, bind, get, ret, raise.
      simpl. destruct Hparams as [H1 H2]. rewrite H1, H2. simpl.
      rewrite Hi, Hs. reflexivity.
    + unfold LLMEngine._create_sequence_group_with_pooling, ret. simpl.
      rewrite Hi, Hs. reflexivity.
  - split; [exact Hs |]. split; [reflexivity |]. split; [reflexivity |].
    split; [reflexivity |].
    split.
    { unfold queued_with_id. simpl.
      rewrite <- !app_assoc, !filter_app, !length_app. simpl.
      rewrite filter_cons_True by reflexivity. simpl. lia. }
    split.
    { intros j s' Hj. rewrite Hc. apply (Hmin j).
      by rewrite list_lookup_fmap, Hj. }
    split.
    { intros j s' Hlt' Hj. rewrite Hc. apply (Hfirst j); [exact Hlt' |].
      by rewrite list_lookup_fmap, Hj. }
    split; reflexivity.
Qed.

End AddRequestFacts.

(** C7, the claim as stated fails.  In an engine with one scheduler the
    request id "r1" is added twice: the second call returns like the first,
    and the waiting queue holds two groups named "r1", the first of them
    still unfinished. *)
Lemma add_request_accepts_duplicate_id :
  exists e1 e2 s2,
    LLMEngine.add_request Returns "r1" [1; 2; 3] WithPoolingParams 0%float idle_engine
      = (Returns tt, e1)
    /\ LLMEngine.has_unfinished_requests e1 = true
    /\ LLMEngine.add_request Returns "r1" [4; 5] WithPoolingParams 1%float e1
      = (Returns tt, e2)
    /\ LLMEngine.scheduler e2 = [s2]
    /\ map SequenceGroup.request_id (Scheduler.waiting s2) = ["r1"; "r1"]
    /\ map SequenceGroup.is_finished (Scheduler.waiting s2) = [false; false].
Proof.
  eexists. eexists. eexists.
  split; [vm_compute; reflexivity |].
  split; [vm_compute; reflexivity |].
  split; [vm_compute; reflexivity |].
  split; [vm_compute; reflexivity |].
  split; vm_compute; reflexivity.
Qed.

(** The theorem at the second of two calls with the same request id. *)
Lemma add_request_always_enqueues_witness :
  let e1 := snd (LLMEngine.add_request Returns "r1" [1; 2; 3] WithPoolingParams 0%float
                   idle_engine) in
  exists e2,
    LLMEngine.add_request Returns "r1" [4; 5] WithPoolingParams 1%float e1 = (Returns tt, e2).
Proof.
  intros e1.
  destruct (add_request_always_enqueues Returns e1 "r1" [4; 5] [4; 5] WithPoolingParams
              1%float eq_refl ltac:(vm_compute; discriminate) I)
    as (e2 & _ & _ & _ & Hrun & _).
  exists e2. exact Hrun.
Defined.

(** ** Policies *)

Section PolicyFacts.

Variable exp : float -> float.
Variable fpow : float -> Z -> float.
Variable RNG : Type.
Variable random : RNG -> float * RNG.

Local Abbreviation get_priority := (Policy.get_priority exp fpow RNG random).
Local Abbreviation got_priority := (Policy.got_priority RNG).

(** A reading policy leaves the group as it was. *)
Lemma reading_policy_keeps_group (p : Policy.t) (now : float) (w : Policy.world RNG) :
  Policy.reads_only p = true ->
  snd (snd (get_priority p now w)) = snd w.
Proof.
  intros Hp. destruct w as [rng g].
  destruct p; try discriminate; simpl; try reflexivity.
  - destruct (random rng); reflexivity.
  - unfold Policy.TFTLatencyTrade_get_priority, bind, Policy.the_group, lift, raise, ret. simpl.
    destruct (Policy.float_max _); [| reflexivity].
    destruct (PrimFloat.eqb _ _); reflexivity.
Qed.

(** A reading policy other than [Random] leaves the generator alone too. *)
Lemma reading_policy_keeps_world (p : Policy.t) (now : float) (w : Policy.world RNG) :
  Policy.reads_only p = true -> p <> Policy.Random ->
  snd (get_priority p now w) = w.
Proof.
  intros Hp Hr. destruct w as [rng g].
  destruct p; try discriminate; try congruence; simpl; try reflexivity.
  unfold Policy.TFTLatencyTrade_get_priority, bind, Policy.the_group, lift, raise, ret. simpl.
  destruct (Policy.float_max _); [| reflexivity].
  destruct (PrimFloat.eqb _ _); reflexivity.
Qed.

(** Every policy leaves the request id and the sequences of the group alone:
    [SkipJoinMLFQ] assigns [current_priority] and [promoted] only. *)
Lemma get_priority_keeps_identity (p : Policy.t) (now : float) (w : Policy.world RNG) :
  let g' := snd (snd (get_priority p now w)) in
  SequenceGroup.request_id g' = SequenceGroup.request_id (snd w)
  /\ SequenceGroup.seqs_dict g' = SequenceGroup.seqs_dict (snd w).
Proof.
  destruct (Policy.reads_only p) eqn:Hp.
  - intros g'. subst g'. by rewrite reading_policy_keeps_group.
  - destruct p; try discriminate. destruct w as [rng g]. simpl.
    unfold Policy.SkipJoinMLFQ_get_priority, Policy.assign_highest_priority,
      Policy.update_group, Policy.the_group, bind, lift, raise, ret, modify.
    simpl.
    destruct (Policy.prompt_length g); [| done].
    destruct (SequenceGroup.current_priority g) as [cp |].
    + destruct (cp =? 0).
      * destruct (Policy.get_highest_priority _ _); simpl; done.
      * destruct (first_scheduled_time _); [| done].
        destruct (_ && _); simpl; [done |].
        destruct (_ >=? _); simpl; [done |].
        destruct (SequenceGroup.current_priority g); done.
    + destruct (Policy.get_highest_priority _ _); simpl; done.
Qed.

(** [SkipJoinMLFQ.get_priority] assigns [current_priority] and [promoted]
    and nothing else, and [promoted] only on the starvation branch of lines
    102-104, where both become 1. *)
Lemma skip_join_writes_priority_only (params : Policy.SkipJoinMLFQ_params) (now : float)
    (rng : RNG) (g : SequenceGroup.t) :
  exists level promoted,
    snd (get_priority (Policy.SkipJoinMLFQ params) now (rng, g))
    = (rng, SequenceGroup.set_promoted promoted (SequenceGroup.set_current_priority level g))
    /\ (promoted = SequenceGroup.promoted g \/ promoted = 1 /\ level = Some 1).
Proof.
  assert (Hsame : forall c, exists level promoted,
            (rng, SequenceGroup.set_current_priority c g)
            = (rng, SequenceGroup.set_promoted promoted
                      (SequenceGroup.set_current_priority level g))
            /\ (promoted = SequenceGroup.promoted g \/ promoted = 1 /\ level = Some 1)).
  { intros c. exists c, (SequenceGroup.promoted g). split; [| by left].
    by destruct g. }
  assert (Hkept : exists level promoted,
            (rng, g)
            = (rng, SequenceGroup.set_promoted promoted
                      (SequenceGroup.set_current_priority level g))
            /\ (promoted = SequenceGroup.promoted g \/ promoted = 1 /\ level = Some 1)).
  { exists (SequenceGroup.current_priority g), (SequenceGroup.promoted g).
    split; [| by left]. by destruct g. }
  simpl.
  unfold Policy.SkipJoinMLFQ_get_priority, Policy.assign_highest_priority,
    Policy.update_group, Policy.the_group, bind, lift, raise, ret, modify.
  simpl.
  destruct (Policy.prompt_length g); [| exact Hkept].
  destruct (SequenceGroup.current_priority g) as [cp |] eqn:Hcp.
  - destruct (cp =? 0).
    + destruct (Policy.get_highest_priority _ _); simpl; [apply Hsame | exact Hkept].
    + destruct (first_scheduled_time _); [| exact Hkept].
      destruct (_ && _); simpl; [apply Hsame |].
      destruct (_ >=? _); simpl.
      * exists (Some 1), 1. split; [reflexivity | by right].
      * rewrite Hcp. exact Hkept.
  - destruct (Policy.get_highest_priority _ _); simpl; [apply Hsame | exact Hkept].
Qed.

(** [TFITTradeoff.got_priority] assigns [priority_rate] (lines 180 and 222)
    and nothing else. *)
Lemma got_priority_writes_rate_only (avg_priorities pending_swapped_rate : number)
    (rng : RNG) (g : SequenceGroup.t) :
  exists rate,
    snd (got_priority Policy.TFITTradeoff avg_priorities pending_swapped_rate (rng, g))
    = (rng, SequenceGroup.set_priority_rate rate g).
Proof.
  assert (Hkept : exists rate, (rng, g) = (rng, SequenceGroup.set_priority_rate rate g)).
  { exists (SequenceGroup.priority_rate g). by destruct g. }
  simpl. unfold bind at 1.
  destruct (negb _).
  - unfold Policy._get_running_priority, Policy.update_group, Policy.the_group,
      bind, lift, raise, ret, modify. simpl.
    destruct (_ >? 0).
    + destruct (Num.div _ _) as [rate |]; [| exact Hkept]. simpl.
      destruct (Num.div _ _); simpl; [| by exists rate].
      destruct (Num.div _ _); simpl; by exists rate.
    + destruct (Num.div _ _); simpl; exact Hkept.
  - unfold Policy._get_waiting_priority, Policy.update_group, Policy.the_group,
      bind, lift, raise, ret, modify. simpl.
    destruct (Num.div _ _) as [priority_rate |]; [| exact Hkept]. simpl.
    destruct (Num.gt _ _).
    + destruct (Num.div _ _) as [rate |]; [| exact Hkept]. simpl.
      destruct (Num.div _ _); simpl; by exists rate.
    + destruct (Num.div _ _); simpl; exact Hkept.
Qed.

(** The [got_priority] of the base class (lines 19-25) returns [None] and
    assigns nothing. *)
Lemma base_got_priority_keeps_world (p : Policy.t) (a b : number) (w : Policy.world RNG) :
  p <> Policy.TFITTradeoff -> got_priority p a b w = (Returns None, w).
Proof. intros Hp. destruct p; try reflexivity. congruence. Qed.

(** C9, as amended.  A priority function of a policy class of the registry is
    evaluated on the group [g] at position [i] of the queue [q] of a
    scheduler: [get_priority], the key of [sort_by_priority], leaves the world
    [w1], and [got_priority], the key of [sorted_by_priority], the world [w2].
    - [get_priority] of every policy but [SkipJoinMLFQ] leaves the group as it
      was, and every policy but [Random] the random generator.
    - Whatever the policy, the group after [get_priority] is [g] with
      [current_priority] and [promoted] assigned, and [promoted] is either
      the one of [g] or 1 together with [current_priority = 1]: no other
      attribute of the group changes.
    - [got_priority] leaves the generator alone and the group after it is
      [g] with [priority_rate] assigned; for every policy but [TFITTradeoff]
      it returns [None] and changes nothing.
    - The scheduler after either function is the scheduler before with the
      group at position [i] of [q] replaced by the group the function
      leaves: the block manager and the other two queues are unchanged, and
      so is every other position of [q]. *)
Theorem priority_function_frame (p : Policy.t) (now : float)
    (avg_priorities pending_swapped_rate : number)
    (q : queue_name) (i : nat) (rng : RNG) (s : Scheduler.t) (g : SequenceGroup.t) :
  Scheduler.queue q s !! i = Some g ->
  let w1 := snd (get_priority p now (rng, g)) in
  let w2 := snd (got_priority p avg_priorities pending_swapped_rate (rng, g)) in
  let s1 := snd (snd (priority_of_queued exp fpow RNG random p now q i (rng, s))) in
  let s2 := snd (snd (got_priority_of_queued RNG p avg_priorities pending_swapped_rate
                        q i (rng, s))) in
  (Policy.reads_only p = true -> snd w1 = g)
  /\ (p <> Policy.Random -> fst w1 = rng)
  /\ (exists level promoted,
        snd w1 = SequenceGroup.set_promoted promoted
                   (SequenceGroup.set_current_priority level g)
        /\ (promoted = SequenceGroup.promoted g \/ promoted = 1 /\ level = Some 1))
  /\ fst w2 = rng
  /\ (exists rate, snd w2 = SequenceGroup.set_priority_rate rate g)
  /\ (p <> Policy.TFITTradeoff ->
      got_priority p avg_priorities pending_swapped_rate (rng, g) = (Returns None, (rng, g)))
  /\ s1 = Scheduler.set_queue q (<[i := snd w1]> (Scheduler.queue q s)) s
  /\ s2 = Scheduler.set_queue q (<[i := snd w2]> (Scheduler.queue q s)) s
  /\ Scheduler.block_manager s1 = Scheduler.block_manager s
  /\ Scheduler.block_manager s2 = Scheduler.block_manager s
  /\ (forall q', q' <> q ->
        Scheduler.queue q' s1 = Scheduler.queue q' s
        /\ Scheduler.queue q' s2 = Scheduler.queue q' s)
  /\ (forall j, j <> i ->
        Scheduler.queue q s1 !! j = Scheduler.queue q s !! j
        /\ Scheduler.queue q s2 !! j = Scheduler.queue q s !! j)
  /\ Scheduler.queue q s1 !! i = Some (snd w1)
  /\ Scheduler.queue q s2 !! i = Some (snd w2)
  /\ (Policy.reads_only p = true -> s1 = s)
  /\ (p <> Policy.TFITTradeoff -> s2 = s).
Proof.
  intros Hg w1 w2 s1 s2.
  assert (Hs1 : s1 = Scheduler.set_queue q (<[i := snd w1]> (Scheduler.queue q s)) s).
  { subst s1 w1. unfold priority_of_queued. rewrite Hg.
    by destruct (get_priority p now (rng, g)) as [o [rng' g']]. }
  assert (Hs2 : s2 = Scheduler.set_queue q (<[i := snd w2]> (Scheduler.queue q s)) s).
  { subst s2 w2. unfold got_priority_of_queued. rewrite Hg.
    by destruct (got_priority p avg_priorities pending_swapped_rate (rng, g))
      as [o [rng' g']]. }
  assert (Hq : forall l, Scheduler.queue q (Scheduler.set_queue q l s) = l)
    by (intros l; by destruct q).
  assert (Hself : Scheduler.set_queue q (<[i := g]> (Scheduler.queue q s)) s = s).
  { rewrite list_insert_id by exact Hg. by destruct s, q. }
  assert (Hlt : (i < length (Scheduler.queue q s))%nat)
    by (eapply lookup_lt_Some; exact Hg).
  assert (Hread : Policy.reads_only p = true -> snd w1 = g)
    by (intros Hp; exact (reading_policy_keeps_group p now (rng, g) Hp)).
  assert (Hbase : p <> Policy.TFITTradeoff ->
                  got_priority p avg_priorities pending_swapped_rate (rng, g)
                  = (Returns None, (rng, g)))
    by (intros Hp; by apply base_got_priority_keeps_world).
  assert (Hw2 : exists rate, w2 = (rng, SequenceGroup.set_priority_rate rate g)).
  { assert (Hdec : p = Policy.TFITTradeoff \/ p <> Policy.TFITTradeoff)
      by (destruct p; (by left) || (by right)).
    destruct Hdec as [-> | Hp].
    - apply got_priority_writes_rate_only.
    - subst w2. rewrite (Hbase Hp). simpl.
      exists (SequenceGroup.priority_rate g). by destruct g. }
  split; [exact Hread |].
  split.
  { intros Hp. subst w1. destruct (Policy.reads_only p) eqn:Hr.
    - by rewrite reading_policy_keeps_world.
    - destruct p; try discriminate.
      destruct (skip_join_writes_priority_only params now rng g) as (c & pr & -> & _).
      reflexivity. }
  split.
  { destruct (Policy.reads_only p) eqn:Hr.
    - exists (SequenceGroup.current_priority g), (SequenceGroup.promoted g).
      split; [| by left]. rewrite (Hread eq_refl). by destruct g.
    - destruct p; try discriminate. subst w1.
      destruct (skip_join_writes_priority_only params now rng g) as (c & pr & -> & Hpr).
      by exists c, pr. }
  split; [by destruct Hw2 as (rate & ->) |].
  split; [destruct Hw2 as (rate & ->); by exists rate |].
  split; [exact Hbase |].
  split; [exact Hs1 |]. split; [exact Hs2 |].
  split; [rewrite Hs1; by destruct q |].
  split; [rewrite Hs2; by destruct q |].
  split; [intros q' Hq'; rewrite Hs1, Hs2; by destruct q, q' |].
  split.
  { intros j Hj. rewrite Hs1, Hs2, !Hq.
    by rewrite !list_lookup_insert_ne. }
  split; [rewrite Hs1, Hq; by apply list_lookup_insert_eq |].
  split; [rewrite Hs2, Hq; by apply list_lookup_insert_eq |].
  split.
  - intros Hp. by rewrite Hs1, (Hread Hp).
  - intros Hp. rewrite Hs2. subst w2. by rewrite (Hbase Hp).
Qed.

End PolicyFacts.

(** C9, the claim as stated fails.  [SkipJoinMLFQ.get_priority] on a request
    that was just added assigns [current_priority] (level 2 for a prompt of 3
    tokens), and [TFITTradeoff._get_waiting_priority] assigns
    [priority_rate]: neither leaves the sequence group unchanged. *)
Lemma priority_functions_write_the_group :
  let g := prompt_group "r1" 0 3 16 in
  SequenceGroup.current_priority g = None
  /\ get_policy_priority "sjmlfq" g = Some (Returns (Int (-2)))
  /\ option_map SequenceGroup.current_priority (group_after_priority "sjmlfq" g)
     = Some (Some 2)
  /\ group_after_priority "sjmlfq" g <> Some g
  /\ group_after_waiting_priority g <> g.
Proof.
  intros g. split; [reflexivity |]. split; [vm_compute; reflexivity |].
  split; [vm_compute; reflexivity |]. split.
  - intros H. apply (f_equal (option_map SequenceGroup.current_priority)) in H.
    vm_compute in H. discriminate.
  - intros H. apply (f_equal SequenceGroup.priority_rate) in H.
    vm_compute in H. discriminate.
Qed.

(** The theorem at the policy registered as "sjmlfq" and the group at the
    head of a waiting queue: the group is assigned a priority level, and the
    block manager and the running queue are as they were. *)
Lemma priority_function_frame_witness :
  let g := prompt_group "r1" 0 3 16 in
  let s := Scheduler.mk (mkSchedulerConfig true "sjmlfq" 2048 256)
             (BlockSpaceManagerV1.new 16 8 4 0 0 None)
             [g] [] [] false ∅ [] 0 in
  let s1 := snd (snd (priority_of_queued (fun x => x) (fun x _ => x) unit
                        (fun r => (0%float, r))
                        (Policy.SkipJoinMLFQ (Policy.SkipJoinMLFQ_new 2)) 5%float
                        Waiting 0 (tt, s))) in
  Scheduler.queue Waiting s !! 0%nat = Some g
  /\ Scheduler.block_manager s1 = Scheduler.block_manager s
  /\ Scheduler.queue Running s1 = Scheduler.queue Running s
  /\ exists level promoted,
       Scheduler.queue Waiting s1 !! 0%nat
       = Some (SequenceGroup.set_promoted promoted
                 (SequenceGroup.set_current_priority level g)).
Proof.
  intros g s s1.
  pose proof (priority_function_frame (fun x => x) (fun x _ => x) unit
                (fun r => (0%float, r))
                (Policy.SkipJoinMLFQ (Policy.SkipJoinMLFQ_new 2)) 5%float
                (Int 0) (Int 0) Waiting 0%nat tt s g eq_refl) as H.
  cbv zeta in H.
  destruct H as (_ & _ & (level & promoted & Hg & _) & _ & _ & _ & _ & _
                 & Hbm & _ & Hother & _ & Hat & _).
  split; [reflexivity |]. split; [exact Hbm |].
  split; [exact (proj1 (Hother Running ltac:(discriminate))) |].
  exists level, promoted. subst s1. rewrite Hat. f_equal. exact Hg.
Defined.

(** ** Scheduler.abort_seq_group *)

Lemma find_aborted_none (ids : gset string) (q : list SequenceGroup.t) :
  Forall (fun g => SequenceGroup.request_id g ∉ ids) q ->
  Scheduler.find_aborted ids q = ([], ids).
Proof.
  intros H. induction H as [| g q Hg _ IH]; simpl; [done |].
  case_decide; [done |].
  rewrite decide_False by done. exact IH.
Qed.

Lemma find_aborted_no_ids (q : list SequenceGroup.t) :
  Scheduler.find_aborted ∅ q = ([], ∅).
Proof. destruct q; simpl; [done |]. by rewrite decide_True. Qed.

Lemma remove_first_middle (pre post : list SequenceGroup.t) (g : SequenceGroup.t) :
  Forall (fun g' => g' <> g) pre ->
  Scheduler.remove_first g (pre ++ g :: post) = pre ++ post.
Proof.
  intros H. induction H as [| g' pre Hne _ IH]; simpl.
  - by rewrite decide_True.
  - rewrite decide_False by done. by rewrite IH.
Qed.

(** The scan for one request id: nothing, or the first group that carries
    it. *)
Lemma find_aborted_one (x : string) (q : list SequenceGroup.t) :
  (Forall (fun g => SequenceGroup.request_id g <> x) q
   /\ Scheduler.find_aborted {[x]} q = ([], {[x]}))
  \/ (exists pre g post,
        q = pre ++ g :: post
        /\ Forall (fun g' => SequenceGroup.request_id g' <> x) pre
        /\ SequenceGroup.request_id g = x
        /\ Scheduler.find_aborted {[x]} q = ([g], ∅)).
Proof.
  induction q as [| g q IH].
  - left. by split.
  - simpl. rewrite decide_False by apply non_empty_singleton_L.
    destruct (decide (SequenceGroup.request_id g = x)) as [He | Hne].
    + right. exists [], g, q.
      rewrite decide_True by (by apply elem_of_singleton).
      rewrite He, difference_diag_L, find_aborted_no_ids. by repeat split.
    + rewrite decide_False by (by rewrite elem_of_singleton).
      destruct IH as [[Hall Hf] | (pre & g' & post & Hq & Hpre & Hid & Hf)].
      * left. split; [by constructor | exact Hf].
      * right. exists (g :: pre), g', post. subst q. repeat split; try done.
        by constructor.
Qed.

(** Freeing sequences touches the block manager only. *)
Lemma free_seq_frame seq s :
  snd (Scheduler.free_seq seq s)
  = Scheduler.set_block_manager (Scheduler.block_manager (snd (Scheduler.free_seq seq s))) s.
Proof.
  unfold Scheduler.free_seq, zoom.
  destruct (BlockSpaceManagerV1.free seq (Scheduler.block_manager s)). reflexivity.
Qed.

Lemma set_block_manager_twice m m' s :
  Scheduler.set_block_manager m (Scheduler.set_block_manager m' s)
  = Scheduler.set_block_manager m s.
Proof. reflexivity. Qed.

Lemma free_unfinished_frame (seqs : list Sequence.t) (s : Scheduler.t) :
  exists o m,
    for_each seqs
      (fun seq => if Sequence.is_finished seq then ret tt
                  else Scheduler.free_seq (Sequence.set_status FINISHED_ABORTED seq)) s
    = (o, Scheduler.set_block_manager m s).
Proof.
  revert s. induction seqs as [| seq seqs IH]; intros s.
  - exists (Returns tt), (Scheduler.block_manager s). by destruct s.
  - simpl. unfold bind.
    destruct (Sequence.is_finished seq).
    + unfold ret. apply IH.
    + pose proof (free_seq_frame (Sequence.set_status FINISHED_ABORTED seq) s) as Hf.
      destruct (Scheduler.free_seq (Sequence.set_status FINISHED_ABORTED seq) s) as [o s1].
      simpl in Hf. destruct o as [[] | e].
      * destruct (IH s1) as (o' & m' & Hrun). rewrite Hrun.
        exists o', m'. by rewrite Hf, set_block_manager_twice.
      * exists (Raises e), (Scheduler.block_manager s1). by rewrite <- Hf.
Qed.

Lemma abort_in_queue_absent (q : queue_name) (ids : gset string) (s : Scheduler.t) :
  Forall (fun g => SequenceGroup.request_id g ∉ ids) (Scheduler.queue q s) ->
  Scheduler.abort_in_queue q ids s = (Returns ids, s).
Proof.
  intros H. unfold Scheduler.abort_in_queue, bind, get.
  by rewrite (find_aborted_none _ _ H).
Qed.

(** Aborting the one group found: it leaves its queue, and the block manager
    is whatever the frees made of it. *)
Lemma abort_in_queue_found (q : queue_name) (x : string) (s : Scheduler.t)
    (pre post : list SequenceGroup.t) (g : SequenceGroup.t) :
  Scheduler.queue q s = pre ++ g :: post ->
  Forall (fun g' => SequenceGroup.request_id g' <> x) pre ->
  SequenceGroup.request_id g = x ->
  exists o m,
    Scheduler.abort_in_queue q {[x]} s
    = (o, Scheduler.set_block_manager m (Scheduler.set_queue q (pre ++ post) s))
    /\ (o = Returns ∅ \/ exists e, o = Raises e).
Proof.
  intros Hq Hpre Hid.
  unfold Scheduler.abort_in_queue. unfold bind at 1. unfold get.
  destruct (find_aborted_one x (Scheduler.queue q s))
    as [[Hall _] | (pre' & g' & post' & Hq' & Hpre' & Hid' & Hf)].
  { rewrite Hq in Hall. apply Forall_app in Hall as [_ Hall].
    apply Forall_cons in Hall as [Hg _]. done. }
  rewrite Hf.
  assert (Hsame : pre' = pre /\ g' = g /\ post' = post).
  { rewrite Hq in Hq'. clear Hf Hq.
    revert pre' Hq' Hpre'. induction Hpre as [| a pre Ha _ IH]; intros pre' Hq' Hpre'.
    - destruct pre' as [| b pre']; simpl in Hq'.
      + by inversion Hq'.
      + inversion Hq'; subst. apply Forall_cons in Hpre' as [Hb _]. done.
    - destruct pre' as [| b pre']; simpl in Hq'.
      + inversion Hq'; subst. done.
      + inversion Hq'; subst. apply Forall_cons in Hpre' as [_ Hpre'].
        destruct (IH pre' H1 Hpre') as (-> & -> & ->). done. }
  destruct Hsame as (-> & -> & ->).
  simpl for_each. unfold Scheduler.abort_group, bind, modify.
  rewrite Hq, remove_first_middle.
  2:{ eapply Forall_impl; [exact Hpre |]. intros a Ha ->. done. }
  destruct (free_unfinished_frame (SequenceGroup.get_seqs None g)
              (Scheduler.set_queue q (pre ++ post) s)) as (o & m & Hrun).
  rewrite Hrun.
  destruct o as [[] | e]; simpl.
  - exists (Returns ∅), m. split; [reflexivity | by left].
  - exists (Raises e), m. split; [reflexivity | right; by exists e].
Qed.

Lemma queue_set_block_manager q m s :
  Scheduler.queue q (Scheduler.set_block_manager m s) = Scheduler.queue q s.
Proof. by destruct q. Qed.

Lemma queue_set_queue_same q l s : Scheduler.queue q (Scheduler.set_queue q l s) = l.
Proof. by destruct q. Qed.

Lemma queue_set_queue_other q q' l s :
  q' <> q -> Scheduler.queue q' (Scheduler.set_queue q l s) = Scheduler.queue q' s.
Proof. by destruct q, q'. Qed.

(** With no queued group of that id, aborting changes nothing. *)
Lemma abort_absent_is_noop (x : string) (s : Scheduler.t) :
  (forall q, Forall (fun g => SequenceGroup.request_id g <> x) (Scheduler.queue q s)) ->
  Scheduler.abort_seq_group {[x]} s = (Returns tt, s).
Proof.
  intros H.
  assert (Habs : forall q, Scheduler.abort_in_queue q {[x]} s = (Returns {[x]}, s)).
  { intros q. apply abort_in_queue_absent.
    eapply Forall_impl; [apply (H q) |]. intros g Hg. by rewrite elem_of_singleton. }
  unfold Scheduler.abort_seq_group, bind. by rewrite !Habs.
Qed.

Lemma abort_in_queue_no_ids (q : queue_name) (s : Scheduler.t) :
  Scheduler.abort_in_queue q ∅ s = (Returns ∅, s).
Proof. apply abort_in_queue_absent. apply Forall_forall. intros g _. apply not_elem_of_empty. Qed.

Lemma queued_with_id_zero (x : string) (s : Scheduler.t) :
  queued_with_id x s = 0%nat ->
  forall q, Forall (fun g => SequenceGroup.request_id g <> x) (Scheduler.queue q s).
Proof.
  unfold queued_with_id. intros H q.
  apply length_zero_iff_nil in H.
  assert (Hall : Forall (fun g => SequenceGroup.request_id g <> x)
                   (Scheduler.waiting s ++ Scheduler.running s ++ Scheduler.swapped s)).
  { apply Forall_forall. intros g Hg Hid.
    assert (Hin : g ∈ filter (fun g => SequenceGroup.request_id g = x)
                    (Scheduler.waiting s ++ Scheduler.running s ++ Scheduler.swapped s))
      by (apply list_elem_of_filter; by split).
    rewrite H in Hin. by apply not_elem_of_nil in Hin. }
  apply Forall_app in Hall as [Hw Hall]. apply Forall_app in Hall as [Hr Hs].
  by destruct q.
Qed.

(** What one abort of [x] leaves behind when at most one queued group
    carries [x]: no group with that id. *)
Lemma abort_seq_group_clears (x : string) (s : Scheduler.t) :
  (queued_with_id x s <= 1)%nat ->
  exists o s',
    Scheduler.abort_seq_group {[x]} s = (o, s')
    /\ (forall q, Forall (fun g => SequenceGroup.request_id g <> x) (Scheduler.queue q s')).
Proof.
  intros Hcount. unfold queued_with_id in Hcount.
  rewrite !filter_app, !length_app in Hcount.
  assert (Hfound : forall (l : list SequenceGroup.t) pre g post,
             l = pre ++ g :: post ->
             Forall (fun g' => SequenceGroup.request_id g' <> x) pre ->
             SequenceGroup.request_id g = x ->
             (length (filter (fun g => SequenceGroup.request_id g = x) l) <= 1)%nat ->
             Forall (fun g' => SequenceGroup.request_id g' <> x) (pre ++ post)).
  { intros l pre g post -> Hpre Hid Hlen.
    apply Forall_app. split; [exact Hpre |].
    rewrite filter_app, length_app, filter_cons_True in Hlen by exact Hid.
    simpl in Hlen.
    apply Forall_forall. intros a Ha Hida.
    assert (Hin : a ∈ filter (fun g => SequenceGroup.request_id g = x) post)
      by (apply list_elem_of_filter; by split).
    destruct (filter (fun g => SequenceGroup.request_id g = x) post);
      [by apply not_elem_of_nil in Hin | simpl in Hlen; lia]. }
  assert (Hnone : forall (l : list SequenceGroup.t),
             (exists pre g post, l = pre ++ g :: post /\ SequenceGroup.request_id g = x) ->
             (1 <= length (filter (fun g => SequenceGroup.request_id g = x) l))%nat).
  { intros l (pre & g & post & -> & Hid).
    rewrite filter_app, length_app, filter_cons_True by exact Hid. simpl. lia. }
  assert (Hzero : forall (l : list SequenceGroup.t),
             length (filter (fun g => SequenceGroup.request_id g = x) l) = 0%nat ->
             Forall (fun g => SequenceGroup.request_id g <> x) l).
  { intros l Hl. apply length_zero_iff_nil in Hl.
    apply Forall_forall. intros a Ha Hida.
    assert (Hin : a ∈ filter (fun g => SequenceGroup.request_id g = x) l)
      by (apply list_elem_of_filter; by split).
    rewrite Hl in Hin. by apply not_elem_of_nil in Hin. }
  unfold Scheduler.abort_seq_group.
  destruct (find_aborted_one x (Scheduler.queue Waiting s))
    as [[Hw _] | (pre & g & post & Hq & Hpre & Hid & _)].
  - unfold bind at 1.
    rewrite (abort_in_queue_absent Waiting {[x]} s)
      by (eapply Forall_impl; [exact Hw |]; intros a Ha; by rewrite elem_of_singleton).
    destruct (find_aborted_one x (Scheduler.queue Running s))
      as [[Hr _] | (pre & g & post & Hq & Hpre & Hid & _)].
    + unfold bind at 1.
      rewrite (abort_in_queue_absent Running {[x]} s)
        by (eapply Forall_impl; [exact Hr |]; intros a Ha; by rewrite elem_of_singleton).
      destruct (find_aborted_one x (Scheduler.queue Swapped s))
        as [[Hs _] | (pre & g & post & Hq & Hpre & Hid & _)].
      * unfold bind.
        rewrite (abort_in_queue_absent Swapped {[x]} s)
          by (eapply Forall_impl; [exact Hs |]; intros a Ha; by rewrite elem_of_singleton).
        eexists. eexists. split; [reflexivity |]. by intros [].
      * destruct (abort_in_queue_found Swapped x s pre post g Hq Hpre Hid)
          as (o & m & Hrun & Ho).
        unfold bind. rewrite Hrun.
        assert (Hclear : forall q, Forall (fun g => SequenceGroup.request_id g <> x)
                  (Scheduler.queue q (Scheduler.set_block_manager m
                     (Scheduler.set_queue Swapped (pre ++ post) s)))).
        { intros q. rewrite queue_set_block_manager. destruct q; simpl; try done.
          simpl in Hq. eapply (Hfound _ _ _ _ Hq Hpre Hid). lia. }
        destruct Ho as [-> | [e ->]]; eexists; eexists; (split; [reflexivity | exact Hclear]).
    + destruct (abort_in_queue_found Running x s pre post g Hq Hpre Hid)
        as (o & m & Hrun & Ho).
      unfold bind at 1. rewrite Hrun.
      assert (Hclear : forall q, Forall (fun g => SequenceGroup.request_id g <> x)
                (Scheduler.queue q (Scheduler.set_block_manager m
                   (Scheduler.set_queue Running (pre ++ post) s)))).
      { intros q. rewrite queue_set_block_manager.
        simpl in Hq.
        assert (H1 : (1 <= length (filter (fun g => SequenceGroup.request_id g = x)
                                     (Scheduler.running s)))%nat)
          by (apply Hnone; by exists pre, g, post).
        destruct q; simpl; try done.
        - eapply (Hfound _ _ _ _ Hq Hpre Hid). lia.
        - apply Hzero. lia. }
      destruct Ho as [-> | [e ->]].
      * unfold bind. rewrite abort_in_queue_no_ids.
        eexists. eexists. split; [reflexivity | exact Hclear].
      * eexists. eexists. split; [reflexivity | exact Hclear].
  - destruct (abort_in_queue_found Waiting x s pre post g Hq Hpre Hid)
      as (o & m & Hrun & Ho).
    unfold bind at 1. rewrite Hrun.
    assert (Hclear : forall q, Forall (fun g => SequenceGroup.request_id g <> x)
              (Scheduler.queue q (Scheduler.set_block_manager m
                 (Scheduler.set_queue Waiting (pre ++ post) s)))).
    { intros q. rewrite queue_set_block_manager.
      simpl in Hq.
      assert (H1 : (1 <= length (filter (fun g => SequenceGroup.request_id g = x)
                                   (Scheduler.waiting s)))%nat)
        by (apply Hnone; by exists pre, g, post).
      destruct q; simpl.
      - eapply (Hfound _ _ _ _ Hq Hpre Hid). lia.
      - apply Hzero. lia.
      - apply Hzero. lia. }
    destruct Ho as [-> | [e ->]].
    + unfold bind at 1. rewrite abort_in_queue_no_ids.
      unfold bind. rewrite abort_in_queue_no_ids.
      eexists. eexists. split; [reflexivity | exact Hclear].
    + eexists. eexists. split; [reflexivity | exact Hclear].
Qed.

(** C6, as amended.  In a scheduler state where at most one queued group
    carries the request id [x], aborting [x] twice leaves the scheduler as
    aborting it once does (with the same outcome); and aborting an id that no
    queued group carries returns with the scheduler, its queues and block
    tables included, unchanged. *)
Theorem abort_seq_group_idempotent (x : string) (s : Scheduler.t) :
  (queued_with_id x s <= 1)%nat ->
  (do! Scheduler.abort_seq_group {[x]} in Scheduler.abort_seq_group {[x]}) s
  = Scheduler.abort_seq_group {[x]} s
  /\ (queued_with_id x s = 0%nat -> Scheduler.abort_seq_group {[x]} s = (Returns tt, s)).
Proof.
  intros Hcount. split.
  - destruct (abort_seq_group_clears x s Hcount) as (o & s' & Hrun & Hclear).
    unfold bind at 1. rewrite Hrun.
    destruct o as [[] | e]; [| reflexivity].
    by apply abort_absent_is_noop.
  - intros Hzero. apply abort_absent_is_noop. by apply queued_with_id_zero.
Qed.

(** C6, the claim as stated fails.  After two [add_request] calls with the
    request id "r1" the scheduler holds two groups of that id: one abort
    removes the first and leaves the second queued, a second abort removes
    that one too. *)
Lemma abort_twice_differs_with_duplicate_id :
  exists s s1 s2,
    LLMEngine.scheduler twice_added = [s]
    /\ Scheduler.abort_seq_group {["r1"]} s = (Returns tt, s1)
    /\ (do! Scheduler.abort_seq_group {["r1"]} in Scheduler.abort_seq_group {["r1"]}) s
       = (Returns tt, s2)
    /\ map SequenceGroup.request_id (Scheduler.waiting s1) = ["r1"]
    /\ Scheduler.waiting s2 = [].
Proof.
  eexists. eexists. eexists.
  split; [vm_compute; reflexivity |].
  split; [vm_compute; reflexivity |].
  split; [vm_compute; reflexivity |].
  split; vm_compute; reflexivity.
Qed.

(** The theorem at a scheduler with one waiting request "r1". *)
Lemma abort_seq_group_idempotent_witness :
  let s := Scheduler.set_queue Waiting [prompt_group "r1" 0 3 16] idle_scheduler in
  (do! Scheduler.abort_seq_group {["r1"]} in Scheduler.abort_seq_group {["r1"]}) s
  = Scheduler.abort_seq_group {["r1"]} s.
Proof.
  intros s.
  apply (abort_seq_group_idempotent "r1" s).
  vm_compute. lia.
Defined.

(** ** Swapping a group out and in again *)

(** C2, the failing run.  A manager with a sliding window of 32 tokens (two
    blocks) allocates a prompt of 64 tokens: the table names each of its two
    blocks twice, and their reference count is 1.  [can_swap_out] accepts the
    running group, and [swap_out] raises "Double free!" at the third entry of
    the table, where [_swap_block_table] frees a block it has freed already;
    the group is not swapped out, so no swap-in can return it to its state. *)
Lemma swap_out_of_windowed_table_raises :
  let m := allocated_manager 8 4 (Some 32) 64 in
  let g := admitted (prompt_group "r1" 0 64 16) in
  BlockSpaceManagerV1.block_tables m !! 0 = Some [(GPU, 7); (GPU, 6); (GPU, 7); (GPU, 6)]
  /\ ref_count (block_at (BlockSpaceManagerV1.heap m) (GPU, 7)) = 1
  /\ BlockSpaceManagerV1.can_swap_out g m = Returns true
  /\ fst (BlockSpaceManagerV1.swap_out (-1) (m, g)) = Raises (ValueError DoubleFree)
  /\ fst ((do! Scheduler._swap_out (-1) SWAPPED in Scheduler._swap_in) (m, g))
     = Raises (ValueError DoubleFree).
Proof. intros m g. repeat split; vm_compute; reflexivity. Qed.

(** ** BlockSpaceManagerV1._swap_block_table *)

Lemma free_blocks_of_with_same d l h m : free_blocks_of d (with_free_blocks d l h m) = l.
Proof. by destruct d. Qed.

Lemma free_blocks_of_with_other d d' l h m :
  d <> d' -> free_blocks_of d' (with_free_blocks d l h m) = free_blocks_of d' m.
Proof. by destruct d, d'. Qed.

Lemma ref_count_of_with d l h m b :
  ref_count_of (with_free_blocks d l h m) b = ref_count (block_at h b).
Proof. by destruct d. Qed.


Lemma with_free_blocks_twice d l l' h h' m :
  with_free_blocks d l' h' (with_free_blocks d l h m) = with_free_blocks d l' h' m.
Proof. by destruct d. Qed.

Lemma with_free_blocks_swap d d' l l' h h' m :
  d <> d' ->
  with_free_blocks d l h (with_free_blocks d' l' h' m)
  = with_free_blocks d' l' h (with_free_blocks d l h m).
Proof. by destruct d, d'. Qed.

Lemma with_free_blocks_same d m :
  with_free_blocks d (free_blocks_of d m) (BlockSpaceManagerV1.heap m) m = m.
Proof.
  destruct m as [? ? ? ? ? ? [] [] ? ? ? ? ?]. by destruct d.
Qed.

Lemma block_tables_with_free_blocks d l h m :
  BlockSpaceManagerV1.block_tables (with_free_blocks d l h m) = BlockSpaceManagerV1.block_tables m.
Proof. by destruct d. Qed.

(** One reference of [b] given up by [free]. *)
Lemma free_gives_up_one d b m :
  1 <= ref_count_of m b ->
  BlockSpaceManagerV1.on_allocator d (UncachedBlockAllocator.free b "normal") m
  = (Returns tt,
     with_free_blocks d
       (free_blocks_of d m ++ (if ref_count_of m b - 1 =? 0 then [b] else []))
       (write_ref_count b (ref_count_of m b - 1) (BlockSpaceManagerV1.heap m)) m).
Proof.
  intros Hrc. unfold BlockSpaceManagerV1.on_allocator, UncachedBlockAllocator.free.
  unfold ref_count_of in *.
  destruct (Z.eqb_spec (ref_count (block_at (BlockSpaceManagerV1.heap m) b)) 0); [lia |].
  destruct (Z.eqb_spec (ref_count (block_at (BlockSpaceManagerV1.heap m) b) - 1) 0); simpl.
  - reflexivity.
  - rewrite app_nil_r. unfold with_free_blocks, free_blocks_of.
    destruct m as [? ? ? ? ? ? [] [] ? ? ? ? ?]. by destruct d.
Qed.

(** A block taken from the tail of the free list by [allocate]. *)
Lemma allocate_takes_last d rest c m :
  free_blocks_of d m = rest ++ [c] ->
  BlockSpaceManagerV1.on_allocator d (UncachedBlockAllocator.allocate "normal") m
  = (Returns c, with_free_blocks d rest (write_ref_count c 1 (BlockSpaceManagerV1.heap m)) m).
Proof.
  intros Hfree. unfold BlockSpaceManagerV1.on_allocator, UncachedBlockAllocator.allocate.
  unfold free_blocks_of in Hfree. simpl. rewrite Hfree, pop_snoc. reflexivity.
Qed.

Lemma mapping_get_elem M b c : mapping_get M b = Some c -> (b, c) ∈ M.
Proof.
  induction M as [| [k v] M IH]; simpl; [done |].
  case_decide.
  - intros [= ->]. subst. left.
  - intros H'. right. by apply IH.
Qed.

Lemma mapping_get_none M b : mapping_get M b = None <-> b ∉ fst <$> M.
Proof.
  induction M as [| [k v] M IH]; simpl.
  - split; [intros _; apply not_elem_of_nil | done].
  - destruct (decide (k = b)) as [-> | Hne].
    + split; [done |]. intros H. exfalso. apply H. left.
    + rewrite IH. split.
      * intros H Hin. apply elem_of_cons in Hin as [-> | Hin]; [done | by apply H].
      * intros H Hin. apply H. by right.
Qed.

Lemma mapping_get_app_some M N b c :
  mapping_get M b = Some c -> mapping_get (M ++ N) b = Some c.
Proof.
  induction M as [| [k v] M IH]; simpl; [done |]. by case_decide.
Qed.

Lemma mapping_get_app_none M N b :
  mapping_get M b = None -> mapping_get (M ++ N) b = mapping_get N b.
Proof.
  induction M as [| [k v] M IH]; simpl; [done |]. by case_decide.
Qed.

Lemma occurrences_nil x : occurrences x [] = 0.
Proof. reflexivity. Qed.

Lemma occurrences_cons x b T :
  occurrences x (b :: T) = (if decide (b = x) then 1 else 0) + occurrences x T.
Proof.
  unfold occurrences. rewrite filter_cons. case_decide; simpl; lia.
Qed.

Lemma occurrences_app x T1 T2 :
  occurrences x (T1 ++ T2) = occurrences x T1 + occurrences x T2.
Proof. unfold occurrences. rewrite filter_app, length_app. lia. Qed.

Lemma occurrences_nonneg x T : 0 <= occurrences x T.
Proof. unfold occurrences. lia. Qed.

Lemma occurrences_elem x T : x ∈ T <-> 1 <= occurrences x T.
Proof.
  induction T as [| b T IH].
  - rewrite occurrences_nil. split; [by intros ?%elem_of_nil | lia].
  - rewrite occurrences_cons, elem_of_cons, IH. pose proof (occurrences_nonneg x T).
    destruct (decide (b = x)) as [-> | Hne].
    + split; [lia | by left].
    + split; [intros [-> | ?]; [done | lia] | intros ?; right; lia].
Qed.

Lemma released_ext r r' T :
  (forall x, x ∈ T -> r x = r' x) -> released r T = released r' T.
Proof.
  revert r r'. induction T as [| b T IH]; intros r r' H; simpl; [done |].
  rewrite (H b) by left. f_equal. apply IH. intros x Hx.
  case_decide; [done |]. apply H. by right.
Qed.

Section SwapBlockTable.

Variables src dst : Device.
Hypothesis tiers : src <> dst.

Lemma swap_mapped_block b c T M m T' M' m' :
  mapping_get M b = Some c -> b <> c -> 1 <= ref_count_of m b ->
  let h1 := write_ref_count b (ref_count_of m b - 1)
              (write_ref_count c (ref_count_of m c + 1) (BlockSpaceManagerV1.heap m)) in
  let m1 := with_free_blocks src
              (free_blocks_of src m ++ (if ref_count_of m b - 1 =? 0 then [b] else [])) h1 m in
  BlockSpaceManagerV1._swap_block_table T src dst M m1 = (Returns (T', M'), m') ->
  BlockSpaceManagerV1._swap_block_table (b :: T) src dst M m = (Returns (c :: T', M'), m').
Proof.
  intros Hget Hne Hrc h1 m1 Hrest. simpl. rewrite Hget.
  unfold bind at 1. unfold bind at 1. unfold modify, ret.
  set (m0 := BlockSpaceManagerV1.set_heap _ m).
  assert (Hrc0 : ref_count_of m0 b = ref_count_of m b).
  { unfold m0, ref_count_of. simpl. by rewrite ref_count_write_other. }
  erewrite bind_returns; [| apply free_gives_up_one; lia].
  rewrite Hrc0.
  replace (with_free_blocks src _ _ m0) with m1.
  - by rewrite (bind_returns _ _ _ _ _ Hrest).
  - unfold m1, h1, m0, ref_count_of. clear. destruct m as [? ? ? ? ? ? [] [] ? ? ? ? ?]. by destruct src.
Qed.

Lemma swap_fresh_block b c rest T M m T' M' m' :
  mapping_get M b = None -> free_blocks_of dst m = rest ++ [c] ->
  b <> c -> 1 <= ref_count_of m b ->
  let h1 := write_ref_count b (ref_count_of m b - 1)
              (write_ref_count c 1 (BlockSpaceManagerV1.heap m)) in
  let m1 := with_free_blocks src
              (free_blocks_of src m ++ (if ref_count_of m b - 1 =? 0 then [b] else [])) h1
              (with_free_blocks dst rest h1 m) in
  BlockSpaceManagerV1._swap_block_table T src dst (M ++ [(b, c)]) m1 = (Returns (T', M'), m') ->
  BlockSpaceManagerV1._swap_block_table (b :: T) src dst M m = (Returns (c :: T', M'), m').
Proof.
  intros Hget Hfree Hne Hrc h1 m1 Hrest. simpl. rewrite Hget.
  unfold bind at 1. unfold bind at 1.
  rewrite (allocate_takes_last _ _ _ _ Hfree). unfold ret.
  set (m0 := with_free_blocks dst rest _ m).
  assert (Hrc0 : ref_count_of m0 b = ref_count_of m b).
  { unfold m0. rewrite ref_count_of_with. by rewrite ref_count_write_other. }
  erewrite bind_returns; [| apply free_gives_up_one; lia].
  rewrite Hrc0.
  replace (with_free_blocks src _ _ m0) with m1.
  - by rewrite (bind_returns _ _ _ _ _ Hrest).
  - unfold m1, h1, m0, ref_count_of, free_blocks_of. clear - tiers.
    destruct m as [? ? ? ? ? ? [] [] ? ? ? ? ?]. by destruct src, dst.
Qed.

End SwapBlockTable.

Lemma ref_count_two_writes b n c v h x :
  ref_count (block_at (write_ref_count b n (write_ref_count c v h)) x)
  = if decide (x = b) then n
    else if decide (x = c) then v else ref_count (block_at h x).
Proof.
  destruct (decide (x = b)) as [-> | Hb].
  - by rewrite ref_count_write_same.
  - rewrite ref_count_write_other by done.
    destruct (decide (x = c)) as [-> | Hc].
    + by rewrite ref_count_write_same.
    + by rewrite ref_count_write_other.
Qed.

Lemma with_free_blocks_absorb src dst A B l1 l2 h' h1 h2 m :
  with_free_blocks src A h' (with_free_blocks dst B h'
    (with_free_blocks src l1 h1 (with_free_blocks dst l2 h2 m)))
  = with_free_blocks src A h' (with_free_blocks dst B h' m).
Proof. by destruct src, dst. Qed.

Lemma with_free_blocks_absorb_src src dst A B l1 h' h1 m :
  with_free_blocks src A h' (with_free_blocks dst B h' (with_free_blocks src l1 h1 m))
  = with_free_blocks src A h' (with_free_blocks dst B h' m).
Proof. by destruct src, dst. Qed.

Section SwapBlockTableSpec.

Variables src dst : Device.
Hypothesis tiers : src <> dst.

(** What [_swap_block_table] does to a table of blocks of the source tier
    whose reference counts cover their occurrences, given enough free blocks
    on the destination tier: the table is renamed through the extended
    mapping, the new keys are the table's unmapped blocks in order of first
    occurrence, their blocks come off the tail of the destination free list,
    each entry moves one reference from its block to the block's image, and
    the blocks that lose their last reference join the source free list. *)
Lemma swap_block_table_spec (T : list block_id) :
  forall (M : list (block_id * block_id)) (m : BlockSpaceManagerV1.t),
    Forall (fun b => block_device b = src) T ->
    Forall (fun c => block_device c = dst) (snd <$> M) ->
    NoDup (free_blocks_of dst m) ->
    Forall (fun c => block_device c = dst) (free_blocks_of dst m) ->
    (forall c, c ∈ free_blocks_of dst m -> c ∉ snd <$> M) ->
    (forall b, b ∈ T -> occurrences b T <= ref_count_of m b) ->
    (length (fresh (fst <$> M) T) <= length (free_blocks_of dst m))%nat ->
    exists N kept h',
      BlockSpaceManagerV1._swap_block_table T src dst M m
      = (Returns (rename (M ++ N) <$> T, M ++ N),
         with_free_blocks src (free_blocks_of src m ++ released (ref_count_of m) T) h'
           (with_free_blocks dst kept h' m))
      /\ fst <$> N = fresh (fst <$> M) T
      /\ free_blocks_of dst m = kept ++ reverse (snd <$> N)
      /\ (forall x, block_device x = src ->
            ref_count (block_at h' x) = ref_count_of m x - occurrences x T)
      /\ (forall x, block_device x = dst ->
            ref_count (block_at h' x)
            = (if decide (x ∈ snd <$> N) then 0 else ref_count_of m x)
              + occurrences x (rename (M ++ N) <$> T)).
Proof.
  induction T as [| b T IH]; intros M m HT HM Hnodup Hfree Hdisj Hrc Hroom.
  - exists [], (free_blocks_of dst m), (BlockSpaceManagerV1.heap m).
    simpl. rewrite !app_nil_r, !with_free_blocks_same.
    repeat split; try done.
    + intros x _. rewrite occurrences_nil. unfold ref_count_of. lia.
    + intros x _. rewrite occurrences_nil. unfold ref_count_of. lia.
  - apply Forall_cons in HT as [Hb HT].
    assert (Hrcb : 1 <= ref_count_of m b).
    { specialize (Hrc b ltac:(left)). rewrite occurrences_cons, decide_True in Hrc by done.
      pose proof (occurrences_nonneg b T). lia. }
    assert (Hsrc : forall x, x ∈ T -> block_device x = src).
    { by apply Forall_forall. }
    destruct (mapping_get M b) as [c |] eqn:Hget.
    + (* the block has an image already *)
      pose proof (mapping_get_elem _ _ _ Hget) as Hin.
      assert (Hc : c ∈ snd <$> M).
      { apply list_elem_of_fmap. by exists (b, c). }
      assert (Hcdst : block_device c = dst).
      { by apply (proj1 (Forall_forall _ _) HM). }
      assert (Hbc : b <> c) by (intros ->; congruence).
      set (h1 := write_ref_count b (ref_count_of m b - 1)
                   (write_ref_count c (ref_count_of m c + 1) (BlockSpaceManagerV1.heap m))).
      set (m1 := with_free_blocks src
                   (free_blocks_of src m ++ (if ref_count_of m b - 1 =? 0 then [b] else []))
                   h1 m).
      assert (Hrc1 : forall x, ref_count_of m1 x
                = if decide (x = b) then ref_count_of m b - 1
                  else if decide (x = c) then ref_count_of m c + 1 else ref_count_of m x).
      { intros x. unfold m1. rewrite ref_count_of_with. apply ref_count_two_writes. }
      assert (Hfd1 : free_blocks_of dst m1 = free_blocks_of dst m).
      { unfold m1. by rewrite free_blocks_of_with_other. }
      destruct (IH M m1) as (N & kept & h' & Hrun & Hkeys & Hkept & Hsrcs & Hdsts).
      { done. } { done. } { by rewrite Hfd1. } { by rewrite Hfd1. } { by rewrite Hfd1. }
      { intros x Hx. rewrite Hrc1. specialize (Hrc x ltac:(by right)).
        rewrite occurrences_cons in Hrc.
        destruct (decide (x = b)) as [-> | Hxb].
        - rewrite decide_True in Hrc by done. lia.
        - rewrite decide_False in Hrc by done.
          rewrite decide_False; [lia |]. intros ->. specialize (Hsrc c Hx). congruence. }
      { rewrite Hfd1. simpl in Hroom. rewrite decide_True in Hroom; [done |].
        apply list_elem_of_fmap. by exists (b, c). }
      rewrite Hfd1 in Hkept.
      exists N, kept, h'. split; [| split; [| split; [| split]]].
      * rewrite fmap_cons.
        replace (rename (M ++ N) b) with c.
        2:{ unfold rename. by rewrite (mapping_get_app_some _ _ _ _ Hget). }
        apply swap_mapped_block; [done | done | done |].
        fold h1. fold m1. rewrite Hrun. f_equal.
        unfold m1 at 3. rewrite with_free_blocks_absorb_src.
        f_equal. unfold m1 at 1. rewrite free_blocks_of_with_same.
        simpl released. rewrite <- app_assoc. do 2 f_equal.
        apply released_ext. intros x Hx. rewrite Hrc1.
        case_decide; [done |]. rewrite decide_False; [done |].
        intros ->. specialize (Hsrc c Hx). congruence.
      * simpl. rewrite decide_True; [done |]. apply list_elem_of_fmap. by exists (b, c).
      * done.
      * intros x Hx. rewrite Hsrcs, Hrc1 by done. rewrite occurrences_cons.
        destruct (decide (x = b)) as [-> | Hxb].
        -- rewrite decide_True by done. lia.
        -- rewrite (decide_False (P := b = x)) by done.
           rewrite decide_False; [lia |]. intros ->. congruence.
      * intros x Hx. rewrite Hdsts, Hrc1 by done. rewrite fmap_cons.
        replace (rename (M ++ N) b) with c.
        2:{ unfold rename. by rewrite (mapping_get_app_some _ _ _ _ Hget). }
        rewrite occurrences_cons.
        rewrite (decide_False (P := x = b)) by (intros ->; congruence).
        destruct (decide (x = c)) as [-> | Hxc].
        -- assert (HcN : c ∉ snd <$> N).
           { intros HcN. apply (Hdisj c); [| done].
             rewrite Hkept. apply elem_of_app. right. by apply elem_of_reverse. }
           rewrite (decide_True (P := c = c)) by done.
           rewrite !(decide_False (P := c ∈ snd <$> N)) by done. lia.
        -- rewrite (decide_False (P := c = x)) by done. reflexivity.
    + (* a new block is taken from the destination tier *)
      pose proof (proj1 (mapping_get_none _ _) Hget) as Hnotkey.
      simpl in Hroom. rewrite decide_False in Hroom by done. simpl in Hroom.
      destruct (free_blocks_of dst m) as [| c0 rest0] eqn:Hfd using rev_ind;
        [simpl in Hroom; lia |].
      clear IHrest0. rename c0 into c. rename rest0 into rest.
      rewrite length_app in Hroom. simpl in Hroom.
      apply NoDup_app in Hnodup as (Hnodup & Hrestc & _).
      apply Forall_app in Hfree as [Hfree Hcdst]. rewrite Forall_singleton in Hcdst.
      assert (Hbc : b <> c) by (intros ->; congruence).
      set (h1 := write_ref_count b (ref_count_of m b - 1)
                   (write_ref_count c 1 (BlockSpaceManagerV1.heap m))).
      set (m1 := with_free_blocks src
                   (free_blocks_of src m ++ (if ref_count_of m b - 1 =? 0 then [b] else []))
                   h1 (with_free_blocks dst rest h1 m)).
      assert (Hrc1 : forall x, ref_count_of m1 x
                = if decide (x = b) then ref_count_of m b - 1
                  else if decide (x = c) then 1 else ref_count_of m x).
      { intros x. unfold m1. rewrite ref_count_of_with. apply ref_count_two_writes. }
      assert (Hfd1 : free_blocks_of dst m1 = rest).
      { unfold m1. rewrite free_blocks_of_with_other by done.
        by rewrite free_blocks_of_with_same. }
      destruct (IH (M ++ [(b, c)]) m1) as (N & kept & h' & Hrun & Hkeys & Hkept & Hsrcs & Hdsts).
      { done. }
      { rewrite fmap_app. apply Forall_app. split; [done |]. by apply Forall_singleton. }
      { by rewrite Hfd1. } { by rewrite Hfd1. }
      { rewrite Hfd1. intros x Hx. rewrite fmap_app. rewrite not_elem_of_app. split.
        - apply Hdisj. apply elem_of_app. by left.
        - simpl. rewrite list_elem_of_singleton. intros ->.
          apply (Hrestc c Hx). apply list_elem_of_singleton. done. }
      { intros x Hx. rewrite Hrc1. specialize (Hrc x ltac:(by right)).
        rewrite occurrences_cons in Hrc.
        destruct (decide (x = b)) as [-> | Hxb].
        - rewrite decide_True in Hrc by done. lia.
        - rewrite decide_False in Hrc by done.
          rewrite decide_False; [lia |]. intros ->. specialize (Hsrc c Hx). congruence. }
      { rewrite Hfd1, fmap_app. simpl. lia. }
      rewrite Hfd1 in Hkept.
      assert (HcN : c ∉ snd <$> N).
      { intros HcN. apply (Hrestc c); [| apply list_elem_of_singleton; done].
        rewrite Hkept. apply elem_of_app. right. by apply elem_of_reverse. }
      assert (Hren : rename (M ++ (b, c) :: N) b = c).
      { unfold rename. rewrite mapping_get_app_none by done. simpl.
        by rewrite decide_True. }
      exists ((b, c) :: N), kept, h'. split; [| split; [| split; [| split]]].
      * rewrite fmap_cons, Hren.
        eapply swap_fresh_block; [done | exact Hget | exact Hfd | done | done |].
        fold h1. fold m1. rewrite Hrun. rewrite <- app_assoc. simpl. f_equal.
        unfold m1 at 3. rewrite with_free_blocks_absorb.
        f_equal. unfold m1 at 1. rewrite free_blocks_of_with_same.
        rewrite <- app_assoc. do 2 f_equal.
        apply released_ext. intros x Hx. rewrite Hrc1.
        case_decide; [done |]. rewrite decide_False; [done |].
        intros ->. specialize (Hsrc c Hx). congruence.
      * rewrite fmap_cons. cbn [fresh fst]. rewrite decide_False by done.
        rewrite fmap_app in Hkeys. by rewrite Hkeys.
      * rewrite fmap_cons, reverse_cons, Hkept. simpl. by rewrite app_assoc.
      * intros x Hx. rewrite Hsrcs, Hrc1 by done. rewrite occurrences_cons.
        destruct (decide (x = b)) as [-> | Hxb].
        -- rewrite decide_True by done. lia.
        -- rewrite (decide_False (P := b = x)) by done.
           rewrite decide_False; [lia |]. intros ->. congruence.
      * intros x Hx. rewrite Hdsts, Hrc1 by done.
        rewrite <- app_assoc. cbn [app]. rewrite !fmap_cons. cbn [snd].
        rewrite Hren, occurrences_cons.
        rewrite (decide_False (P := x = b)) by (intros ->; congruence).
        destruct (decide (x = c)) as [-> | Hxc].
        -- rewrite (decide_True (P := c = c)) by done.
           rewrite !(decide_False (P := c ∈ snd <$> N)) by done.
           rewrite decide_True by left. lia.
        -- rewrite (decide_False (P := c = x)) by done.
           destruct (decide (x ∈ snd <$> N)) as [HxN | HxN].
           ++ rewrite decide_True by (by right). reflexivity.
           ++ rewrite decide_False; [reflexivity |].
              intros [-> | ?]%elem_of_cons; done.
Qed.

End SwapBlockTableSpec.

(** ** The loops of swap_out and swap_in *)

Lemma apart_ret {A} (a : A) : apart_from_tables (ret a).
Proof. intros bt m. reflexivity. Qed.

Lemma apart_bind {A B} (c : Py BlockSpaceManagerV1.t A) (k : A -> Py BlockSpaceManagerV1.t B) :
  apart_from_tables c -> (forall a, apart_from_tables (k a)) -> apart_from_tables (bind c k).
Proof.
  intros Hc Hk bt m. unfold bind. rewrite Hc.
  destruct (c m) as [[a | e] m1]; simpl; [apply Hk | reflexivity].
Qed.

Lemma apart_on_allocator {A} (d : Device) (f : Py (UncachedBlockAllocator.t * Heap) A) :
  apart_from_tables (BlockSpaceManagerV1.on_allocator d f).
Proof.
  intros bt m. unfold BlockSpaceManagerV1.on_allocator.
  destruct d; simpl; destruct (f _) as [o [a h]]; reflexivity.
Qed.

Lemma apart_swap_block_table T src dst :
  forall M, apart_from_tables (BlockSpaceManagerV1._swap_block_table T src dst M).
Proof.
  induction T as [| b T IH]; intros M; [apply apart_ret |].
  cbn [BlockSpaceManagerV1._swap_block_table].
  apply apart_bind.
  - destruct (mapping_get M b) as [c |].
    + apply apart_bind; [| intros; apply apart_ret]. intros bt m. reflexivity.
    + apply apart_bind; [apply apart_on_allocator | intros; apply apart_ret].
  - intros [c M1]. apply apart_bind; [apply apart_on_allocator |].
    intros _. apply apart_bind; [apply IH |]. intros [X M2]. apply apart_ret.
Qed.

Lemma bind_assoc {S A B C} (c : Py S A) (k : A -> Py S B) (k' : B -> Py S C) s :
  bind (bind c k) k' s = bind c (fun a => bind (k a) k') s.
Proof. unfold bind. destruct (c s) as [[a | e] s1]; reflexivity. Qed.

Lemma bind_ext {S A B} (c : Py S A) (k k' : A -> Py S B) s :
  (forall a s1, k a s1 = k' a s1) -> bind c k s = bind c k' s.
Proof. intros H. unfold bind. destruct (c s) as [[a | e] s1]; [apply H | reflexivity]. Qed.

Lemma bind_returns_inv {S A B} (c : Py S A) (k : A -> Py S B) s b s' :
  bind c k s = (Returns b, s') ->
  exists a s1, c s = (Returns a, s1) /\ k a s1 = (Returns b, s').
Proof.
  unfold bind. destruct (c s) as [[a | e] s1]; [| done]. intros H. by exists a, s1.
Qed.

(** The table is swapped entry by entry: a table in two parts is swapped part
    after part, the second with the mapping the first leaves. *)
Lemma swap_block_table_app T1 T2 src dst :
  forall M m,
    BlockSpaceManagerV1._swap_block_table (T1 ++ T2) src dst M m
    = (let! (X1, M1) := BlockSpaceManagerV1._swap_block_table T1 src dst M in
       let! (X2, M2) := BlockSpaceManagerV1._swap_block_table T2 src dst M1 in
       ret (X1 ++ X2, M2)) m.
Proof.
  induction T1 as [| b T1 IH]; intros M m.
  - cbn [app BlockSpaceManagerV1._swap_block_table]. unfold bind, ret.
    destruct (BlockSpaceManagerV1._swap_block_table T2 src dst M m) as [[[X M'] | e] m'];
      reflexivity.
  - cbn [app BlockSpaceManagerV1._swap_block_table].
    rewrite bind_assoc. apply bind_ext. intros [c M1] m0.
    rewrite bind_assoc. apply bind_ext. intros _ m1.
    rewrite bind_assoc.
    unfold bind at 1. rewrite IH. unfold bind, ret.
    destruct (BlockSpaceManagerV1._swap_block_table T1 src dst M1 m1) as [[[X1 M2] | e] m2];
      [| reflexivity].
    destruct (BlockSpaceManagerV1._swap_block_table T2 src dst M2 m2) as [[[X2 M3] | e] m3];
      reflexivity.
Qed.

Lemma swap_block_table_length T src dst :
  forall M m X M' m',
    BlockSpaceManagerV1._swap_block_table T src dst M m = (Returns (X, M'), m') ->
    length X = length T.
Proof.
  induction T as [| b T IH]; intros M m X M' m'.
  - intros [= <- _ _]. reflexivity.
  - cbn [BlockSpaceManagerV1._swap_block_table]. intros H.
    apply bind_returns_inv in H as ([c M1] & m0 & _ & H).
    apply bind_returns_inv in H as ([] & m1 & _ & H).
    apply bind_returns_inv in H as ([X1 M2] & m2 & Hrest & H).
    injection H as <- _ _. simpl. f_equal. by eapply IH.
Qed.

Lemma swap_block_table_app_inv T1 T2 src dst M m X M' m' :
  BlockSpaceManagerV1._swap_block_table (T1 ++ T2) src dst M m = (Returns (X, M'), m') ->
  exists X1 M1 m1 X2,
    BlockSpaceManagerV1._swap_block_table T1 src dst M m = (Returns (X1, M1), m1)
    /\ BlockSpaceManagerV1._swap_block_table T2 src dst M1 m1 = (Returns (X2, M'), m')
    /\ X = X1 ++ X2 /\ length X1 = length T1.
Proof.
  rewrite swap_block_table_app. unfold bind at 1.
  destruct (BlockSpaceManagerV1._swap_block_table T1 src dst M m) as [[[X1 M1] | e] m1] eqn:H1;
    [| done].
  unfold bind at 1.
  destruct (BlockSpaceManagerV1._swap_block_table T2 src dst M1 m1) as [[[X2 M2] | e] m2] eqn:H2;
    [| done].
  intros [= <- <- <-]. exists X1, M1, m1, X2. repeat split; try done.
  by eapply swap_block_table_length.
Qed.

Lemma block_tables_apart {A} (c : Py BlockSpaceManagerV1.t A) m :
  apart_from_tables c ->
  BlockSpaceManagerV1.block_tables (snd (c m)) = BlockSpaceManagerV1.block_tables m.
Proof.
  intros Hc. specialize (Hc (BlockSpaceManagerV1.block_tables m) m).
  replace (BlockSpaceManagerV1.set_block_tables (BlockSpaceManagerV1.block_tables m) m)
    with m in Hc by (by destruct m).
  destruct (c m) as [o m1]. simpl in *. injection Hc as ->. reflexivity.
Qed.

Lemma swap_block_table_keeps_tables T src dst M m o m' :
  BlockSpaceManagerV1._swap_block_table T src dst M m = (o, m') ->
  BlockSpaceManagerV1.block_tables m' = BlockSpaceManagerV1.block_tables m.
Proof.
  intros H. pose proof (block_tables_apart _ m (apart_swap_block_table T src dst M)) as Ht.
  by rewrite H in Ht.
Qed.

(** One iteration of the loop of [swap_out]. *)
Lemma swap_out_seq_step n seq M m g T X M' m' :
  BlockSpaceManagerV1.block_tables m !! Sequence.seq_id seq = Some T ->
  BlockSpaceManagerV1._swap_block_table (swapping (swap_out_step n) seq T) GPU CPU M m
  = (Returns (X, M'), m') ->
  BlockSpaceManagerV1.swap_out_seq n seq M (m, g)
  = (Returns M',
     (BlockSpaceManagerV1.set_block_tables
        (<[Sequence.seq_id seq := stored (swap_out_step n) seq T X]>
           (BlockSpaceManagerV1.block_tables m')) m',
      SequenceGroup.update_seq (Sequence.seq_id seq) (marked (swap_out_step n) seq T) g)).
Proof.
  intros Htable Hrun. unfold BlockSpaceManagerV1.swap_out_seq.
  unfold bind at 1. unfold BlockSpaceManagerV1.on_manager at 1.
  unfold BlockSpaceManagerV1.read_table. cbn [BlockSpaceManagerV1.tables_of].
  rewrite Htable. cbn [swap_out_step swapping stored marked] in *.
  destruct (n >? 0).
  - unfold bind at 1. unfold BlockSpaceManagerV1.on_seq at 1. unfold modify at 1.
    unfold bind at 1. unfold BlockSpaceManagerV1.on_manager at 1. rewrite Hrun.
    reflexivity.
  - unfold bind at 1. unfold BlockSpaceManagerV1.on_seq at 1. unfold modify at 1.
    unfold bind at 1. unfold BlockSpaceManagerV1.on_manager at 1. rewrite Hrun.
    reflexivity.
Qed.

(** One iteration of the loop of [swap_in]. *)
Lemma swap_in_seq_step seq M m g T X M' m' :
  BlockSpaceManagerV1.block_tables m !! Sequence.seq_id seq = Some T ->
  BlockSpaceManagerV1._swap_block_table (swapping swap_in_step seq T) CPU GPU M m
  = (Returns (X, M'), m') ->
  BlockSpaceManagerV1.swap_in_seq seq M (m, g)
  = (Returns M',
     (BlockSpaceManagerV1.set_block_tables
        (<[Sequence.seq_id seq := stored swap_in_step seq T X]>
           (BlockSpaceManagerV1.block_tables m')) m',
      SequenceGroup.update_seq (Sequence.seq_id seq) (marked swap_in_step seq T) g)).
Proof.
  intros Htable Hrun. unfold BlockSpaceManagerV1.swap_in_seq.
  unfold bind at 1. unfold BlockSpaceManagerV1.on_seq at 1. unfold modify at 1.
  unfold bind at 1. unfold BlockSpaceManagerV1.on_manager at 1.
  unfold BlockSpaceManagerV1.read_table. cbn [BlockSpaceManagerV1.tables_of].
  rewrite Htable. cbn [swap_in_step swapping stored marked] in *.
  unfold bind at 1. unfold BlockSpaceManagerV1.on_manager at 1. rewrite Hrun.
  reflexivity.
Qed.

Lemma table_of_lookup m seq T :
  BlockSpaceManagerV1.block_tables m !! Sequence.seq_id seq = Some T -> table_of m seq = T.
Proof. intros H. unfold table_of. by rewrite H. Qed.

Lemma swapping_blocks_ext step m1 m2 seqs :
  (forall seq, seq ∈ seqs -> table_of m1 seq = table_of m2 seq) ->
  swapping_blocks step m1 seqs = swapping_blocks step m2 seqs.
Proof.
  unfold swapping_blocks. induction seqs as [| seq seqs IH]; intros H; [done |].
  cbn [mbind list_bind]. rewrite (H seq) by left. f_equal.
  apply IH. intros s Hs. apply H. by right.
Qed.

Lemma stored_tables_ext step m1 m2 image seqs :
  (forall seq, seq ∈ seqs -> table_of m1 seq = table_of m2 seq) ->
  forall bt, stored_tables step m1 image seqs bt = stored_tables step m2 image seqs bt.
Proof.
  unfold stored_tables. induction seqs as [| seq seqs IH]; intros H bt; [done |].
  cbn [foldl]. rewrite (H seq) by left. apply IH. intros s Hs. apply H. by right.
Qed.

Lemma marked_group_ext step m1 m2 seqs :
  (forall seq, seq ∈ seqs -> table_of m1 seq = table_of m2 seq) ->
  forall g, marked_group step m1 seqs g = marked_group step m2 seqs g.
Proof.
  unfold marked_group. induction seqs as [| seq seqs IH]; intros H g; [done |].
  cbn [foldl]. rewrite (H seq) by left. apply IH. intros s Hs. apply H. by right.
Qed.

Section SwapLoop.

Variables src dst : Device.
Variable step : swap_step.
Variable body : Sequence.t -> list (block_id * block_id) ->
                Py (BlockSpaceManagerV1.t * SequenceGroup.t) (list (block_id * block_id)).

Hypothesis body_step : forall seq M m g T X M' m',
  BlockSpaceManagerV1.block_tables m !! Sequence.seq_id seq = Some T ->
  BlockSpaceManagerV1._swap_block_table (swapping step seq T) src dst M m
  = (Returns (X, M'), m') ->
  body seq M (m, g)
  = (Returns M',
     (BlockSpaceManagerV1.set_block_tables
        (<[Sequence.seq_id seq := stored step seq T X]>
           (BlockSpaceManagerV1.block_tables m')) m',
      SequenceGroup.update_seq (Sequence.seq_id seq) (marked step seq T) g)).

(** The loop over the sequences does to the allocators what one call of
    [_swap_block_table] on the blocks of all iterations does, and stores each
    sequence's table. *)
Lemma for_seqs_swaps (image : block_id -> block_id) (seqs : list Sequence.t) :
  forall M m g M' m',
    NoDup (Sequence.seq_id <$> seqs) ->
    (forall seq, seq ∈ seqs ->
       is_Some (BlockSpaceManagerV1.block_tables m !! Sequence.seq_id seq)) ->
    BlockSpaceManagerV1._swap_block_table (swapping_blocks step m seqs) src dst M m
    = (Returns (image <$> swapping_blocks step m seqs, M'), m') ->
    BlockSpaceManagerV1.for_seqs body seqs M (m, g)
    = (Returns M',
       (BlockSpaceManagerV1.set_block_tables
          (stored_tables step m image seqs (BlockSpaceManagerV1.block_tables m)) m',
        marked_group step m seqs g)).
Proof.
  induction seqs as [| seq seqs IH]; intros M m g M' m' Hids Htables Hrun.
  - cbn in Hrun. injection Hrun as <- <-. cbn. unfold ret. by destruct m.
  - rewrite fmap_cons in Hids. apply NoDup_cons in Hids as [Hid Hids].
    destruct (Htables seq ltac:(left)) as [T HT].
    pose proof (table_of_lookup _ _ _ HT) as HTof.
    unfold swapping_blocks in Hrun. cbn [mbind list_bind] in Hrun.
    fold (swapping_blocks step m seqs) in Hrun. rewrite HTof, fmap_app in Hrun.
    apply swap_block_table_app_inv in Hrun as (X1 & M1 & m1 & X2 & Hrun1 & Hrun2 & HX & Hlen).
    apply app_inj_1 in HX as [<- <-]; [| by rewrite length_fmap].
    cbn [BlockSpaceManagerV1.for_seqs].
    rewrite (bind_returns _ _ _ _ _ (body_step seq M m g T _ M1 m1 HT Hrun1)).
    pose proof (swap_block_table_keeps_tables _ _ _ _ _ _ _ Hrun1) as Hkeep1.
    set (bt1 := <[Sequence.seq_id seq := stored step seq T (image <$> swapping step seq T)]>
                  (BlockSpaceManagerV1.block_tables m1)).
    assert (Hsame : forall s, s ∈ seqs ->
              table_of (BlockSpaceManagerV1.set_block_tables bt1 m1) s = table_of m s).
    { intros s Hs. unfold table_of. cbn. unfold bt1.
      rewrite lookup_insert_ne, Hkeep1; [done |].
      intros Heq. apply Hid. rewrite Heq. by apply list_elem_of_fmap_2. }
    rewrite (IH M1 (BlockSpaceManagerV1.set_block_tables bt1 m1) _ M'
               (BlockSpaceManagerV1.set_block_tables bt1 m')).
    + f_equal. f_equal.
      * rewrite (stored_tables_ext _ _ m _ _ Hsame).
        unfold stored_tables at 2. cbn [foldl]. rewrite HTof.
        fold (stored_tables step m image seqs). unfold bt1. rewrite Hkeep1.
        by destruct m'.
      * rewrite (marked_group_ext _ _ m _ Hsame).
        unfold marked_group at 2. cbn [foldl]. by rewrite HTof.
    + done.
    + intros s Hs. cbn. unfold bt1. rewrite lookup_insert_ne.
      * rewrite Hkeep1. apply Htables. by right.
      * intros Heq. apply Hid. rewrite Heq. by apply list_elem_of_fmap_2.
    + rewrite (swapping_blocks_ext _ _ m _ Hsame).
      rewrite (apart_swap_block_table _ _ _ _ bt1 m1). by rewrite Hrun2.
Qed.

End SwapLoop.

Lemma stored_tables_lookup_other step m image seqs :
  forall bt (i : Z),
    i ∉ Sequence.seq_id <$> seqs -> stored_tables step m image seqs bt !! i = bt !! i.
Proof.
  unfold stored_tables. induction seqs as [| seq seqs IH]; intros bt i Hi; [done |].
  rewrite fmap_cons in Hi. apply not_elem_of_cons in Hi as [Hne Hi].
  cbn [foldl]. rewrite IH by done. by rewrite lookup_insert_ne.
Qed.

Lemma stored_tables_cons step m image q seqs bt :
  stored_tables step m image (q :: seqs) bt
  = stored_tables step m image seqs
      (<[Sequence.seq_id q :=
           stored step q (table_of m q) (image <$> swapping step q (table_of m q))]> bt).
Proof. reflexivity. Qed.

Lemma marked_group_cons step m q seqs g :
  marked_group step m (q :: seqs) g
  = marked_group step m seqs
      (SequenceGroup.update_seq (Sequence.seq_id q) (marked step q (table_of m q)) g).
Proof. reflexivity. Qed.

Lemma stored_tables_lookup step m image seqs :
  forall bt seq,
    NoDup (Sequence.seq_id <$> seqs) -> seq ∈ seqs ->
    stored_tables step m image seqs bt !! Sequence.seq_id seq
    = Some (stored step seq (table_of m seq) (image <$> swapping step seq (table_of m seq))).
Proof.
  induction seqs as [| q seqs IH]; intros bt seq Hids Hin; [by apply elem_of_nil in Hin |].
  rewrite fmap_cons in Hids. apply NoDup_cons in Hids as [Hq Hids].
  rewrite stored_tables_cons.
  destruct (decide (seq ∈ seqs)) as [Hseq | Hseq].
  - by apply IH.
  - apply elem_of_cons in Hin as [-> | Hin]; [| done].
    rewrite stored_tables_lookup_other by done. by rewrite lookup_insert_eq.
Qed.

Lemma set_seqs_twice l l' g :
  SequenceGroup.set_seqs l (SequenceGroup.set_seqs l' g) = SequenceGroup.set_seqs l g.
Proof. reflexivity. Qed.

Lemma set_seqs_same g : SequenceGroup.set_seqs (SequenceGroup.seqs_dict g) g = g.
Proof. by destruct g. Qed.

(** The loop marks the sequences it visits: where the mark does not depend on
    the sequence object, the group is updated at the visited ids. *)
Lemma marked_group_by_id step m seqs :
  (forall q q' T, marked step q T = marked step q' T) ->
  (forall q T s, Sequence.seq_id (marked step q T s) = Sequence.seq_id s) ->
  NoDup (Sequence.seq_id <$> seqs) ->
  forall g,
    marked_group step m seqs g
    = SequenceGroup.set_seqs
        ((fun s => if decide (Sequence.seq_id s ∈ Sequence.seq_id <$> seqs)
                   then marked step s (table_of m s) s else s)
           <$> SequenceGroup.seqs_dict g) g.
Proof.
  intros Hany Hid. induction seqs as [| q seqs IH]; intros Hids g.
  - cbn. rewrite <- (set_seqs_same g) at 1. f_equal.
    rewrite <- (list_fmap_id (SequenceGroup.seqs_dict g)) at 1.
    apply list_fmap_ext. intros i s _. reflexivity.
  - rewrite fmap_cons in Hids. apply NoDup_cons in Hids as [Hq Hids].
    rewrite marked_group_cons, IH by done.
    unfold SequenceGroup.update_seq, SequenceGroup.update_seqs.
    rewrite set_seqs_twice. f_equal. cbn [SequenceGroup.seqs_dict SequenceGroup.set_seqs].
    change (map ?f ?l) with (f <$> l).
    rewrite <- list_fmap_compose. apply list_fmap_ext. intros i s _. unfold compose.
    rewrite fmap_cons.
    destruct (Z.eqb_spec (Sequence.seq_id s) (Sequence.seq_id q)) as [Heq | Hne].
    + rewrite Hid. rewrite decide_False by (by rewrite Heq).
      rewrite decide_True by (rewrite Heq; left).
      rewrite (Hany q s). unfold table_of. by rewrite Heq.
    + destruct (decide (Sequence.seq_id s ∈ Sequence.seq_id <$> seqs)) as [Hin | Hin].
      * rewrite decide_True by (by right). reflexivity.
      * rewrite decide_False; [reflexivity |].
        intros [? | ?]%elem_of_cons; done.
Qed.

Lemma NoDup_fmap_same_id (l : list Sequence.t) (s q : Sequence.t) :
  NoDup (Sequence.seq_id <$> l) -> s ∈ l -> q ∈ l ->
  Sequence.seq_id s = Sequence.seq_id q -> s = q.
Proof.
  induction l as [| x l IH]; intros Hids Hs Hq Heq; [by apply elem_of_nil in Hs |].
  rewrite fmap_cons in Hids. apply NoDup_cons in Hids as [Hx Hids].
  apply elem_of_cons in Hs as [-> | Hs]; apply elem_of_cons in Hq as [-> | Hq].
  - done.
  - exfalso. apply Hx. rewrite Heq. by apply list_elem_of_fmap_2.
  - exfalso. apply Hx. rewrite <- Heq. by apply list_elem_of_fmap_2.
  - by apply IH.
Qed.

Lemma id_in_filter (P : Sequence.t -> Prop) `{!forall s, Decision (P s)}
    (l : list Sequence.t) (s : Sequence.t) :
  NoDup (Sequence.seq_id <$> l) -> s ∈ l ->
  Sequence.seq_id s ∈ Sequence.seq_id <$> filter P l <-> P s.
Proof.
  intros Hids Hs. split.
  - intros (q & Heq & Hq)%list_elem_of_fmap. apply list_elem_of_filter in Hq as [HP Hq].
    by rewrite (NoDup_fmap_same_id l s q Hids Hs Hq Heq).
  - intros HP. apply list_elem_of_fmap_2. by apply list_elem_of_filter.
Qed.

Lemma NoDup_ids_filter (P : Sequence.t -> Prop) `{!forall s, Decision (P s)}
    (l : list Sequence.t) :
  NoDup (Sequence.seq_id <$> l) -> NoDup (Sequence.seq_id <$> filter P l).
Proof.
  intros Hids. eapply sublist_NoDup; [exact Hids |].
  apply fmap_sublist. apply sublist_filter.
Qed.

(** The sequences [swap_out] visits carry distinct ids. *)
Lemma NoDup_ids_of_statuses (st1 st2 : SequenceStatus) (g : SequenceGroup.t) :
  st1 <> st2 ->
  NoDup (Sequence.seq_id <$> SequenceGroup.seqs_dict g) ->
  NoDup (Sequence.seq_id <$>
           SequenceGroup.get_seqs (Some st1) g ++ SequenceGroup.get_seqs (Some st2) g).
Proof.
  intros Hne Hids. cbn [SequenceGroup.get_seqs]. rewrite fmap_app. apply NoDup_app.
  split; [by apply NoDup_ids_filter |]. split; [| by apply NoDup_ids_filter].
  intros i (s & -> & Hs)%list_elem_of_fmap (q & Heq & Hq)%list_elem_of_fmap.
  apply list_elem_of_filter in Hs as [Hst1 Hs]. apply list_elem_of_filter in Hq as [Hst2 Hq].
  rewrite (NoDup_fmap_same_id _ s q Hids Hs Hq Heq) in Hst1. congruence.
Qed.

(** ** The blocks a table names *)

Lemma fresh_elem T : forall K x, x ∈ fresh K T <-> x ∈ T /\ x ∉ K.
Proof.
  induction T as [| b T IH]; intros K x; cbn [fresh].
  - split; [by intros ?%elem_of_nil | by intros [?%elem_of_nil _]].
  - destruct (decide (b ∈ K)) as [HbK | HbK].
    + rewrite IH, elem_of_cons. split; [intros [? ?]; by auto |].
      intros [[-> | ?] ?]; [done | by split].
    + rewrite elem_of_cons, IH, not_elem_of_app, list_elem_of_singleton, elem_of_cons.
      split.
      * intros [-> | (? & ? & ?)]; [by auto | by auto].
      * intros [[-> | ?] ?]; [by left |].
        destruct (decide (x = b)) as [-> | ?]; [by left | right; by auto].
Qed.

Lemma fresh_NoDup T : forall K, NoDup (fresh K T).
Proof.
  induction T as [| b T IH]; intros K; cbn [fresh]; [by apply NoDup_nil |].
  destruct (decide (b ∈ K)); [apply IH |].
  apply NoDup_cons. split; [| apply IH].
  rewrite fresh_elem, not_elem_of_app, list_elem_of_singleton. by intros (_ & _ & ?).
Qed.

Lemma fresh_length T : length (fresh [] T) = length (remove_dups T).
Proof.
  apply Permutation_length. apply NoDup_Permutation.
  - apply fresh_NoDup.
  - apply NoDup_remove_dups.
  - intros x. rewrite fresh_elem, elem_of_remove_dups.
    split; [by intros [? _] | intros ?; split; [done | apply not_elem_of_nil]].
Qed.

(** ** BlockSpaceManagerV1.swap_out *)



Lemma rename_in_values N b : b ∈ fst <$> N -> rename N b ∈ snd <$> N.
Proof.
  intros Hb. unfold rename.
  destruct (mapping_get N b) as [c |] eqn:Hget.
  - apply mapping_get_elem in Hget. apply list_elem_of_fmap. by exists (b, c).
  - by apply mapping_get_none in Hget.
Qed.


(** What the loop of [swap_out] and the call of [_swap_block_table] on all
    the blocks it hands over come to, for a decoder-only group. *)
Lemma swap_out_runs (n : Z) (m : BlockSpaceManagerV1.t) (g : SequenceGroup.t) :
  let S := swapping_blocks (swap_out_step n) m (swap_out_seqs g) in
  SequenceGroup.is_encoder_decoder g = false ->
  NoDup (Sequence.seq_id <$> SequenceGroup.seqs_dict g) ->
  Forall (fun seq => is_Some (BlockSpaceManagerV1.block_tables m !! Sequence.seq_id seq))
         (swap_out_seqs g) ->
  Forall (fun b => block_device b = GPU /\ occurrences b S <= ref_count_of m b) S ->
  NoDup (free_blocks_of CPU m) ->
  Forall (fun c => block_device c = CPU) (free_blocks_of CPU m) ->
  (length (remove_dups S) <= length (free_blocks_of CPU m))%nat ->
  exists N kept h',
    BlockSpaceManagerV1.swap_out n (m, g)
    = (Returns (BlockSpaceManagerV1.block_number_pairs N),
       (BlockSpaceManagerV1.set_block_tables
          (stored_tables (swap_out_step n) m (rename N) (swap_out_seqs g)
             (BlockSpaceManagerV1.block_tables m))
          (with_free_blocks GPU (free_blocks_of GPU m ++ released (ref_count_of m) S) h'
             (with_free_blocks CPU kept h' m)),
        marked_group (swap_out_step n) m (swap_out_seqs g) g))
    /\ fst <$> N = fresh [] S
    /\ free_blocks_of CPU m = kept ++ reverse (snd <$> N)
    /\ (forall x, block_device x = GPU ->
          ref_count (block_at h' x) = ref_count_of m x - occurrences x S)
    /\ (forall x, block_device x = CPU ->
          ref_count (block_at h' x)
          = (if decide (x ∈ snd <$> N) then 0 else ref_count_of m x)
            + occurrences x (rename N <$> S)).
Proof.
  intros S Henc Hids Htables HS Hnodup Hcpu Hroom.
  destruct (swap_block_table_spec GPU CPU ltac:(done) S [] m)
    as (N & kept & h' & Hrun & Hkeys & Hkept & Hsrc & Hdst).
  { eapply Forall_impl; [exact HS |]. by intros b [? _]. }
  { by apply Forall_nil. }
  { done. } { done. }
  { intros c _. apply not_elem_of_nil. }
  { intros b Hb. by apply (proj1 (Forall_forall _ _) HS b Hb). }
  { cbn [fmap list_fmap]. by rewrite fresh_length. }
  cbn [app] in *.
  exists N, kept, h'. split; [| done].
  unfold BlockSpaceManagerV1.swap_out. unfold bind at 1. unfold get at 1.
  fold (swap_out_seqs g).
  erewrite bind_returns.
  2:{ apply (for_seqs_swaps GPU CPU (swap_out_step n) (BlockSpaceManagerV1.swap_out_seq n)
               (swap_out_seq_step n) (rename N)).
      - by apply NoDup_ids_of_statuses.
      - intros seq Hseq. by apply (proj1 (Forall_forall _ _) Htables).
      - exact Hrun. }
  unfold BlockSpaceManagerV1.swap_cross_table. rewrite Henc. reflexivity.
Qed.



(** A decidable proposition settled by evaluation. *)
Ltac by_evaluation :=
  match goal with |- ?P => apply (bool_decide_unpack P); vm_compute; exact I end.


(** ** A group swapped out and in again *)

Lemma released_elem T :
  forall r x,
    (forall b, b ∈ T -> occurrences b T <= r b) ->
    x ∈ released r T <-> x ∈ T /\ r x = occurrences x T.
Proof.
  induction T as [| a T IH]; intros r x Hr; cbn [released].
  - split; [by intros ?%elem_of_nil | by intros [?%elem_of_nil _]].
  - pose proof (Hr a ltac:(left)) as Ha. rewrite occurrences_cons, decide_True in Ha by done.
    pose proof (occurrences_nonneg a T) as Hnn.
    rewrite elem_of_app, IH.
    2:{ intros b Hb. specialize (Hr b ltac:(by right)). rewrite occurrences_cons in Hr.
        destruct (decide (b = a)) as [-> | Hne].
        - rewrite decide_True in Hr by done. lia.
        - rewrite decide_False in Hr by done. lia. }
    rewrite occurrences_cons, elem_of_cons.
    destruct (decide (x = a)) as [-> | Hne].
    + rewrite (decide_True (P := a = a)) by done.
      destruct (Z.eqb_spec (r a - 1) 0) as [H1 | H1].
      * split; [intros _; split; [by left | lia] | intros _; left; left].
      * split.
        -- intros [?%elem_of_nil | [? ?]]; [done | split; [by left | lia]].
        -- intros [_ Heq]. right. split; [| lia].
           apply occurrences_elem. lia.
    + rewrite (decide_False (P := a = x)) by done.
      split.
      * intros [Hin | [? ?]]; [| split; [by right | lia]].
        destruct (r a - 1 =? 0); [| by apply elem_of_nil in Hin].
        apply list_elem_of_singleton in Hin. done.
      * intros [[? | ?] ?]; [done |]. right. split; [done | lia].
Qed.

Lemma released_NoDup T :
  forall r, (forall b, b ∈ T -> occurrences b T <= r b) -> NoDup (released r T).
Proof.
  induction T as [| a T IH]; intros r Hr; cbn [released]; [apply NoDup_nil; done |].
  pose proof (Hr a ltac:(left)) as Ha. rewrite occurrences_cons, decide_True in Ha by done.
  assert (Hr' : forall b, b ∈ T ->
            occurrences b T <= (if decide (b = a) then r a - 1 else r b)).
  { intros b Hb. specialize (Hr b ltac:(by right)). rewrite occurrences_cons in Hr.
    destruct (decide (b = a)) as [-> | Hne].
    - rewrite decide_True in Hr by done. lia.
    - rewrite decide_False in Hr by done. lia. }
  apply NoDup_app. split; [| split; [| by apply IH]].
  - destruct (r a - 1 =? 0); [apply NoDup_singleton | by apply NoDup_nil].
  - intros x Hx. destruct (Z.eqb_spec (r a - 1) 0) as [H1 | H1]; [| by apply elem_of_nil in Hx].
    apply list_elem_of_singleton in Hx as ->.
    rewrite released_elem by done. intros [Hin _].
    apply occurrences_elem in Hin. lia.
Qed.

(** Where the counts are the occurrences, every block of the table is
    released, once. *)
Lemma released_length r T :
  (forall b, b ∈ T -> r b = occurrences b T) ->
  length (released r T) = length (remove_dups T).
Proof.
  intros Hr.
  assert (Hle : forall b, b ∈ T -> occurrences b T <= r b).
  { intros b Hb. rewrite (Hr b Hb). lia. }
  apply Permutation_length. apply NoDup_Permutation.
  - by apply released_NoDup.
  - apply NoDup_remove_dups.
  - intros x. rewrite released_elem, elem_of_remove_dups by done.
    split; [by intros [? _] | intros ?; split; [done | by apply Hr]].
Qed.

Lemma NoDup_values_same_key (N : list (block_id * block_id)) b b' c :
  NoDup (snd <$> N) -> (b, c) ∈ N -> (b', c) ∈ N -> b = b'.
Proof.
  induction N as [| [k v] N IH]; intros Hnd Hb Hb'; [by apply elem_of_nil in Hb |].
  rewrite fmap_cons in Hnd. apply NoDup_cons in Hnd as [Hv Hnd]. cbn [snd] in Hv.
  apply elem_of_cons in Hb as [Hb | Hb]; apply elem_of_cons in Hb' as [Hb' | Hb'].
  - congruence.
  - exfalso. apply Hv. apply list_elem_of_fmap. exists (b', c). split; [| done].
    cbn. congruence.
  - exfalso. apply Hv. apply list_elem_of_fmap. exists (b, c). split; [| done].
    cbn. congruence.
  - by apply IH.
Qed.

Lemma rename_elem N b : b ∈ fst <$> N -> (b, rename N b) ∈ N.
Proof.
  intros Hb. unfold rename.
  destruct (mapping_get N b) as [c |] eqn:Hget.
  - by apply mapping_get_elem.
  - by apply mapping_get_none in Hget.
Qed.

(** A mapping with distinct values renames its keys one to one. *)
Lemma rename_inj N b b' :
  NoDup (snd <$> N) -> b ∈ fst <$> N -> b' ∈ fst <$> N ->
  rename N b = rename N b' -> b = b'.
Proof.
  intros Hnd Hb Hb' Heq. apply rename_elem in Hb, Hb'. rewrite Heq in Hb.
  by eapply NoDup_values_same_key.
Qed.

Lemma remove_dups_fmap_length (f : block_id -> block_id) T :
  (forall x y, x ∈ T -> y ∈ T -> f x = f y -> x = y) ->
  length (remove_dups (f <$> T)) = length (remove_dups T).
Proof.
  intros Hinj. rewrite <- (length_fmap f (remove_dups T)).
  apply Permutation_length. apply NoDup_Permutation.
  - apply NoDup_remove_dups.
  - apply NoDup_fmap_2_strong; [| apply NoDup_remove_dups].
    intros x y Hx Hy. apply Hinj; by apply elem_of_remove_dups.
  - intros x. rewrite elem_of_remove_dups, !list_elem_of_fmap.
    split; intros (y & -> & Hy); exists y; split; try done; by apply elem_of_remove_dups.
Qed.

Lemma remove_dups_fmap_le (f : block_id -> block_id) T :
  (length (remove_dups (f <$> T)) <= length (remove_dups T))%nat.
Proof.
  rewrite <- (length_fmap f (remove_dups T)).
  apply submseteq_length. apply NoDup_submseteq; [apply NoDup_remove_dups |].
  intros x. rewrite elem_of_remove_dups, !list_elem_of_fmap.
  intros (y & -> & Hy). exists y. split; [done | by apply elem_of_remove_dups].
Qed.

Lemma occurrences_fmap_inj (f : block_id -> block_id) T b :
  (forall a, a ∈ T -> f a = f b -> a = b) ->
  occurrences (f b) (f <$> T) = occurrences b T.
Proof.
  induction T as [| a T IH]; intros Hinj; [done |].
  rewrite fmap_cons, !occurrences_cons, IH.
  2:{ intros a' Ha'. apply Hinj. by right. }
  destruct (decide (a = b)) as [-> | Hne].
  - by rewrite decide_True.
  - rewrite decide_False; [done |]. intros Heq. apply Hne, Hinj; [left | done].
Qed.

Lemma cpu_indices_all T :
  forall i, Forall (fun b => block_device b = CPU) T ->
            BlockSpaceManagerV1.cpu_indices T i = seq i (length T).
Proof.
  induction T as [| a T IH]; intros i HT; [done |].
  apply Forall_cons in HT as [Ha HT]. cbn [BlockSpaceManagerV1.cpu_indices length seq].
  rewrite decide_True by done. by rewrite IH.
Qed.

Lemma write_back_all T :
  forall pre X, length X = length T ->
    BlockSpaceManagerV1.write_back (pre ++ T) (seq (length pre) (length T)) X = pre ++ X.
Proof.
  induction T as [| a T IH]; intros pre X HX.
  - destruct X; [| done]. reflexivity.
  - destruct X as [| b X]; [done |]. injection HX as HX.
    cbn [length seq BlockSpaceManagerV1.write_back].
    rewrite insert_app_r_alt by lia. rewrite Nat.sub_diag. cbn [insert list_insert].
    rewrite (cons_middle b pre X), (cons_middle b pre T), !app_assoc.
    replace (S (length pre)) with (length (pre ++ [b])) by (rewrite length_app; simpl; lia).
    by apply IH.
Qed.

Lemma filter_all (T : list block_id) :
  Forall (fun b => block_device b = CPU) T -> filter (fun b => block_device b = CPU) T = T.
Proof.
  induction 1 as [| a T Ha _ IH]; [done |].
  rewrite filter_cons, decide_True by done. by rewrite IH.
Qed.

(** A table of host blocks is handed to [_swap_block_table] whole and
    replaced by what comes back. *)
Lemma swap_in_swapping_all (s : Sequence.t) T :
  Forall (fun b => block_device b = CPU) T -> swapping swap_in_step s T = T.
Proof.
  intros HT. cbn [swap_in_step swapping]. rewrite filter_all by done.
  by destruct (BlockSpaceManagerV1.cpu_indices T 0).
Qed.

Lemma swap_in_stored_all (s : Sequence.t) T X :
  Forall (fun b => block_device b = CPU) T -> length X = length T ->
  stored swap_in_step s T X = X.
Proof.
  intros HT HX. cbn [swap_in_step stored]. rewrite cpu_indices_all by done.
  destruct T as [| a T]; [done |].
  cbn [length seq]. exact (write_back_all (a :: T) [] X HX).
Qed.

(** What the loop of [swap_in] comes to, for a decoder-only group. *)
Lemma swap_in_runs (m : BlockSpaceManagerV1.t) (g : SequenceGroup.t) :
  let S := swapping_blocks swap_in_step m (swap_in_seqs g) in
  SequenceGroup.is_encoder_decoder g = false ->
  NoDup (Sequence.seq_id <$> SequenceGroup.seqs_dict g) ->
  Forall (fun seq => is_Some (BlockSpaceManagerV1.block_tables m !! Sequence.seq_id seq))
         (swap_in_seqs g) ->
  Forall (fun b => block_device b = CPU /\ occurrences b S <= ref_count_of m b) S ->
  NoDup (free_blocks_of GPU m) ->
  Forall (fun c => block_device c = GPU) (free_blocks_of GPU m) ->
  (length (remove_dups S) <= length (free_blocks_of GPU m))%nat ->
  exists N kept h',
    BlockSpaceManagerV1.swap_in (m, g)
    = (Returns (BlockSpaceManagerV1.block_number_pairs N),
       (BlockSpaceManagerV1.set_block_tables
          (stored_tables swap_in_step m (rename N) (swap_in_seqs g)
             (BlockSpaceManagerV1.block_tables m))
          (with_free_blocks CPU (free_blocks_of CPU m ++ released (ref_count_of m) S) h'
             (with_free_blocks GPU kept h' m)),
        marked_group swap_in_step m (swap_in_seqs g) g))
    /\ fst <$> N = fresh [] S
    /\ free_blocks_of GPU m = kept ++ reverse (snd <$> N)
    /\ (forall x, block_device x = CPU ->
          ref_count (block_at h' x) = ref_count_of m x - occurrences x S)
    /\ (forall x, block_device x = GPU ->
          ref_count (block_at h' x)
          = (if decide (x ∈ snd <$> N) then 0 else ref_count_of m x)
            + occurrences x (rename N <$> S)).
Proof.
  intros S Henc Hids Htables HS Hnodup Hgpu Hroom.
  destruct (swap_block_table_spec CPU GPU ltac:(done) S [] m)
    as (N & kept & h' & Hrun & Hkeys & Hkept & Hsrc & Hdst).
  { eapply Forall_impl; [exact HS |]. by intros b [? _]. }
  { by apply Forall_nil. }
  { done. } { done. }
  { intros c _. apply not_elem_of_nil. }
  { intros b Hb. by apply (proj1 (Forall_forall _ _) HS b Hb). }
  { cbn [fmap list_fmap]. by rewrite fresh_length. }
  cbn [app] in *.
  exists N, kept, h'. split; [| done].
  unfold BlockSpaceManagerV1.swap_in. unfold bind at 1. unfold get at 1.
  fold (swap_in_seqs g).
  erewrite bind_returns.
  2:{ apply (for_seqs_swaps CPU GPU swap_in_step BlockSpaceManagerV1.swap_in_seq
               swap_in_seq_step (rename N)).
      - by apply NoDup_ids_of_statuses.
      - intros seq Hseq. by apply (proj1 (Forall_forall _ _) Htables).
      - exact Hrun. }
  unfold BlockSpaceManagerV1.swap_cross_table. rewrite Henc. reflexivity.
Qed.

(** The blocks [can_swap_out] counts, for a group whose unfinished sequences
    are running and have tables. *)
Lemma tables_of_unfinished_running m (l : list Sequence.t) :
  Forall (fun s => (Sequence.status s = RUNNING
                    /\ is_Some (BlockSpaceManagerV1.block_tables m !! Sequence.seq_id s))
                   \/ (Sequence.is_finished s = true /\ Sequence.status s <> RUNNING)) l ->
  BlockSpaceManagerV1.tables_of_unfinished m l
  = Returns (filter (fun s => Sequence.status s = RUNNING) l ≫= table_of m).
Proof.
  induction 1 as [| s l Hs _ IH]; [done |].
  cbn [BlockSpaceManagerV1.tables_of_unfinished]. rewrite filter_cons.
  destruct Hs as [[Hrun [T HT]] | [Hfin Hnot]].
  - rewrite decide_True by done.
    replace (Sequence.is_finished s) with false
      by (unfold Sequence.is_finished; by rewrite Hrun).
    rewrite HT, IH. cbn [mbind list_bind]. by rewrite (table_of_lookup _ _ _ HT).
  - rewrite decide_False by done. by rewrite Hfin.
Qed.

Lemma filter_none {A} (P : A -> Prop) `{!forall x, Decision (P x)} (l : list A) :
  Forall (fun x => ~ P x) l -> filter P l = [].
Proof.
  induction 1 as [| x l Hx _ IH]; [done |]. by rewrite filter_cons, decide_False.
Qed.

Lemma finished_status s :
  Sequence.is_finished s = true ->
  Sequence.status s <> RUNNING /\ Sequence.status s <> SWAPPED /\ Sequence.status s <> WAITING.
Proof.
  unfold Sequence.is_finished. destruct (Sequence.status s); cbn; intros H; try done.
Qed.

Lemma bind_fmap_table {A} (G : A -> A) (f k : A -> list block_id)
    (h : block_id -> block_id) (l : list A) :
  (forall s, s ∈ l -> f (G s) = h <$> k s) -> (G <$> l) ≫= f = h <$> (l ≫= k).
Proof.
  induction l as [| s l IH]; intros H; [done |].
  rewrite fmap_cons. cbn [mbind list_bind]. rewrite fmap_app, (H s) by left.
  f_equal. apply IH. intros q Hq. apply H. by right.
Qed.

Lemma elem_of_bind_table m (l : list Sequence.t) (s : Sequence.t) b :
  s ∈ l -> b ∈ table_of m s -> b ∈ l ≫= table_of m.
Proof. intros Hs Hb. apply list_elem_of_bind. by exists s. Qed.

Section RoundTrip.

Variable m : BlockSpaceManagerV1.t.
Variable g : SequenceGroup.t.

Local Abbreviation seqs := (SequenceGroup.get_seqs (Some RUNNING) g).
Local Abbreviation T := (SequenceGroup.get_seqs (Some RUNNING) g ≫= table_of m).

Hypothesis decoder_only : SequenceGroup.is_encoder_decoder g = false.
Hypothesis distinct_ids : NoDup (Sequence.seq_id <$> SequenceGroup.seqs_dict g).
Hypothesis running : Forall (runs_or_finished m) (SequenceGroup.seqs_dict g).
Hypothesis owned :
  Forall (fun b => block_device b = GPU
                   /\ ref_count_of m b = occurrences b T
                   /\ b ∉ free_blocks_of GPU m) T.
Hypothesis gpu_free_distinct : NoDup (free_blocks_of GPU m).
Hypothesis gpu_free_on_gpu : Forall (fun c => block_device c = GPU) (free_blocks_of GPU m).
Hypothesis cpu_free_distinct : NoDup (free_blocks_of CPU m).
Hypothesis cpu_free_on_cpu : Forall (fun c => block_device c = CPU) (free_blocks_of CPU m).
Hypothesis room : BlockSpaceManagerV1.can_swap_out g m = Returns true.

Lemma none_partially_swapped : SequenceGroup.get_seqs (Some PARTIAL_SWAPPED) g = [].
Proof.
  cbn [SequenceGroup.get_seqs]. apply filter_none.
  eapply Forall_impl; [exact running |].
  intros s [(Hrun & _) | (_ & Hnot)]; [congruence | done].
Qed.

Lemma swap_out_seqs_running : swap_out_seqs g = seqs.
Proof. unfold swap_out_seqs. by rewrite none_partially_swapped, app_nil_r. Qed.

Lemma running_has_table s :
  s ∈ seqs -> is_Some (BlockSpaceManagerV1.block_tables m !! Sequence.seq_id s).
Proof.
  cbn [SequenceGroup.get_seqs]. intros [Hst Hs]%list_elem_of_filter.
  destruct (proj1 (Forall_forall _ _) running s Hs) as [(_ & _ & ?) | (Hfin & _)]; [done |].
  apply finished_status in Hfin. tauto.
Qed.

Lemma physical_blocks : BlockSpaceManagerV1._get_physical_blocks g m = Returns (remove_dups T).
Proof.
  unfold BlockSpaceManagerV1._get_physical_blocks. cbn [SequenceGroup.get_seqs].
  rewrite tables_of_unfinished_running, decoder_only; [done |].
  eapply Forall_impl; [exact running |].
  intros s [(? & _ & ?) | (Hfin & _)]; [by left | right].
  split; [done |]. by apply finished_status in Hfin as (? & _).
Qed.

Lemma host_has_room : (length (remove_dups T) <= length (free_blocks_of CPU m))%nat.
Proof.
  pose proof room as H. unfold BlockSpaceManagerV1.can_swap_out in H.
  rewrite physical_blocks in H. injection H as H.
  unfold BlockSpaceManagerV1.get_num_free_cpu_blocks in H.
  apply Z.leb_le in H. unfold free_blocks_of, BlockSpaceManagerV1.allocator.
  cbn [SequenceGroup.get_seqs]. lia.
Qed.

Lemma swapping_out_all : swapping_blocks (swap_out_step (-1)) m (swap_out_seqs g) = T.
Proof. by rewrite swap_out_seqs_running. Qed.

(** The group after the swap-out. *)
Lemma marked_out :
  SequenceGroup.update_seqs
    (fun s => bool_decide (Sequence.status s = RUNNING))
    (Sequence.set_status SWAPPED)
    (marked_group (swap_out_step (-1)) m (swap_out_seqs g) g)
  = SequenceGroup.set_seqs (after_swap_out m <$> SequenceGroup.seqs_dict g) g.
Proof.
  rewrite marked_group_by_id.
  2:{ reflexivity. } 2:{ intros q T0 s. reflexivity. }
  2:{ by apply NoDup_ids_of_statuses. }
  unfold SequenceGroup.update_seqs. rewrite set_seqs_twice. f_equal.
  cbn [SequenceGroup.seqs_dict SequenceGroup.set_seqs].
  change (map ?h ?l) with (h <$> l). rewrite <- list_fmap_compose.
  apply list_fmap_ext. intros i s Hs. apply list_elem_of_lookup_2 in Hs.
  unfold compose, after_swap_out. rewrite swap_out_seqs_running.
  cbn [swap_out_step marked SequenceGroup.get_seqs].
  destruct (decide (Sequence.status s = RUNNING)) as [Hrun | Hrun].
  - rewrite decide_True by (by apply id_in_filter).
    rewrite bool_decide_eq_true_2 by done. reflexivity.
  - rewrite decide_False by (by rewrite id_in_filter).
    by rewrite bool_decide_eq_false_2.
Qed.

(** The swap-out of the scheduler: the blocks of the running sequences get
    host blocks of their own, and the device blocks return to the device
    free list. *)
Lemma swap_out_phase :
  exists N kept h',
    Scheduler._swap_out (-1) SWAPPED (m, g)
    = (Returns (BlockSpaceManagerV1.block_number_pairs N),
       (BlockSpaceManagerV1.set_block_tables
          (stored_tables (swap_out_step (-1)) m (rename N) seqs
             (BlockSpaceManagerV1.block_tables m))
          (with_free_blocks GPU (free_blocks_of GPU m ++ released (ref_count_of m) T) h'
             (with_free_blocks CPU kept h' m)),
        SequenceGroup.set_seqs (after_swap_out m <$> SequenceGroup.seqs_dict g) g))
    /\ fst <$> N = fresh [] T
    /\ free_blocks_of CPU m = kept ++ reverse (snd <$> N)
    /\ (forall x, block_device x = CPU ->
          ref_count (block_at h' x)
          = (if decide (x ∈ snd <$> N) then 0 else ref_count_of m x)
            + occurrences x (rename N <$> T)).
Proof.
  destruct (swap_out_runs (-1) m g) as (N & kept & h' & Hrun & Hkeys & Hkept & _ & Hdst).
  - exact decoder_only.
  - exact distinct_ids.
  - rewrite swap_out_seqs_running. apply Forall_forall. apply running_has_table.
  - rewrite swapping_out_all. eapply Forall_impl; [exact owned |].
    intros b (? & -> & _). split; [done | lia].
  - exact cpu_free_distinct.
  - exact cpu_free_on_cpu.
  - rewrite swapping_out_all. exact host_has_room.
  - rewrite swapping_out_all in *. rewrite swap_out_seqs_running in Hrun at 1.
    exists N, kept, h'. split; [| done].
    unfold Scheduler._swap_out. unfold bind at 1. unfold get at 1.
    unfold bind at 1. unfold lift at 1. rewrite room. cbn [negb].
    rewrite (bind_returns _ _ _ _ _ Hrun).
    unfold bind, modify, ret. by rewrite marked_out.
Qed.

Lemma swapped_out_id s : Sequence.seq_id (after_swap_out m s) = Sequence.seq_id s.
Proof. unfold after_swap_out. by case_decide. Qed.

Lemma swapped_out_ids (l : list Sequence.t) :
  Sequence.seq_id <$> (after_swap_out m <$> l) = Sequence.seq_id <$> l.
Proof.
  rewrite <- list_fmap_compose. apply list_fmap_ext. intros i s _. apply swapped_out_id.
Qed.

Lemma swapped_out_running s :
  Sequence.status s = RUNNING -> Sequence.status (after_swap_out m s) = SWAPPED.
Proof. intros H. unfold after_swap_out. by rewrite decide_True. Qed.

Lemma swapped_out_other s : Sequence.status s <> RUNNING -> after_swap_out m s = s.
Proof. intros H. unfold after_swap_out. by rewrite decide_False. Qed.

Lemma filter_swapped_out (l : list Sequence.t) :
  Forall (runs_or_finished m) l ->
  filter (fun s => Sequence.status s = SWAPPED) (after_swap_out m <$> l)
  = after_swap_out m <$> filter (fun s => Sequence.status s = RUNNING) l
  /\ filter (fun s => Sequence.status s = PARTIAL_SWAPPED) (after_swap_out m <$> l) = [].
Proof.
  induction 1 as [| s l Hs _ [IH1 IH2]]; [done |].
  rewrite fmap_cons, !filter_cons.
  destruct Hs as [(Hrun & _) | (Hfin & Hnot)].
  - pose proof (swapped_out_running s Hrun) as Hst.
    rewrite (decide_True (P := Sequence.status (after_swap_out m s) = SWAPPED)) by done.
    rewrite (decide_True (P := Sequence.status s = RUNNING)) by done.
    rewrite (decide_False (P := Sequence.status (after_swap_out m s) = PARTIAL_SWAPPED))
      by congruence.
    rewrite fmap_cons, IH1. done.
  - apply finished_status in Hfin as (Hr & Hsw & _).
    rewrite (swapped_out_other s Hr).
    rewrite (decide_False (P := Sequence.status s = SWAPPED)) by done.
    rewrite (decide_False (P := Sequence.status s = RUNNING)) by done.
    rewrite (decide_False (P := Sequence.status s = PARTIAL_SWAPPED)) by done.
    done.
Qed.

(** The sequences [swap_in] visits after the swap-out are the sequences that
    were running, in the same order. *)
Lemma swap_in_seqs_swapped_out :
  swap_in_seqs (SequenceGroup.set_seqs (after_swap_out m <$> SequenceGroup.seqs_dict g) g)
  = after_swap_out m <$> seqs.
Proof.
  unfold swap_in_seqs. cbn [SequenceGroup.get_seqs SequenceGroup.seqs_dict SequenceGroup.set_seqs].
  destruct (filter_swapped_out _ running) as [-> ->]. by rewrite app_nil_r.
Qed.

Lemma free_blocks_of_set_block_tables d bt m0 :
  free_blocks_of d (BlockSpaceManagerV1.set_block_tables bt m0) = free_blocks_of d m0.
Proof. by destruct d. Qed.

Lemma ref_count_of_set_block_tables bt m0 b :
  ref_count_of (BlockSpaceManagerV1.set_block_tables bt m0) b = ref_count_of m0 b.
Proof. reflexivity. Qed.

Section AfterSwapOut.

Variable N1 : list (block_id * block_id).
Variable kept1 : list block_id.
Variable h1 : Heap.

Local Abbreviation m1 :=
  (BlockSpaceManagerV1.set_block_tables
     (stored_tables (swap_out_step (-1)) m (rename N1) seqs
        (BlockSpaceManagerV1.block_tables m))
     (with_free_blocks GPU (free_blocks_of GPU m ++ released (ref_count_of m) T) h1
        (with_free_blocks CPU kept1 h1 m))).
Local Abbreviation g1 :=
  (SequenceGroup.set_seqs (after_swap_out m <$> SequenceGroup.seqs_dict g) g).

Hypothesis keys1 : fst <$> N1 = fresh [] T.
Hypothesis kept1_rest : free_blocks_of CPU m = kept1 ++ reverse (snd <$> N1).
Hypothesis counts1 : forall x, block_device x = CPU ->
  ref_count (block_at h1 x)
  = (if decide (x ∈ snd <$> N1) then 0 else ref_count_of m x)
    + occurrences x (rename N1 <$> T).

Lemma key1 b : b ∈ fst <$> N1 <-> b ∈ T.
Proof.
  rewrite keys1, fresh_elem. split; [by intros [? _] |].
  intros ?; split; [done | apply not_elem_of_nil].
Qed.

Lemma values1_free c : c ∈ snd <$> N1 -> c ∈ free_blocks_of CPU m.
Proof. intros Hc. rewrite kept1_rest. apply elem_of_app. right. by apply elem_of_reverse. Qed.

Lemma values1_distinct : NoDup (snd <$> N1).
Proof.
  pose proof cpu_free_distinct as H. rewrite kept1_rest in H.
  apply NoDup_app in H as (_ & _ & H). by rewrite reverse_Permutation in H.
Qed.

Lemma image1 b : b ∈ T -> rename N1 b ∈ snd <$> N1.
Proof. intros Hb. apply rename_in_values. by apply key1. Qed.

Lemma image1_on_cpu b : b ∈ T -> block_device (rename N1 b) = CPU.
Proof.
  intros Hb. apply (proj1 (Forall_forall _ _) cpu_free_on_cpu).
  by apply values1_free, image1.
Qed.

Lemma rename1_inj b b' : b ∈ T -> b' ∈ T -> rename N1 b = rename N1 b' -> b = b'.
Proof.
  intros Hb Hb'. apply rename_inj; [apply values1_distinct | by apply key1 | by apply key1].
Qed.

Lemma running_distinct_ids : NoDup (Sequence.seq_id <$> seqs).
Proof. cbn [SequenceGroup.get_seqs]. by apply NoDup_ids_filter. Qed.

Lemma table1 s :
  s ∈ seqs ->
  BlockSpaceManagerV1.block_tables m1 !! Sequence.seq_id s
  = Some (rename N1 <$> table_of m s).
Proof.
  intros Hs. cbn [BlockSpaceManagerV1.block_tables BlockSpaceManagerV1.set_block_tables].
  rewrite stored_tables_lookup; [done | apply running_distinct_ids | done].
Qed.

Lemma table1_of s : s ∈ seqs -> table_of m1 (after_swap_out m s) = rename N1 <$> table_of m s.
Proof.
  intros Hs. apply table_of_lookup. rewrite swapped_out_id. by apply table1.
Qed.

Lemma table1_on_cpu s :
  s ∈ seqs -> Forall (fun b => block_device b = CPU) (rename N1 <$> table_of m s).
Proof.
  intros Hs. apply Forall_fmap, Forall_forall. intros b Hb. cbn.
  apply image1_on_cpu. by eapply elem_of_bind_table.
Qed.

Lemma swapping_in_all :
  swapping_blocks swap_in_step m1 (after_swap_out m <$> seqs) = rename N1 <$> T.
Proof.
  unfold swapping_blocks. apply bind_fmap_table. intros s Hs.
  rewrite table1_of by done. apply swap_in_swapping_all. by apply table1_on_cpu.
Qed.

Lemma counts1_exact c :
  c ∈ rename N1 <$> T -> ref_count_of m1 c = occurrences c (rename N1 <$> T).
Proof.
  intros (b & -> & Hb)%list_elem_of_fmap.
  rewrite ref_count_of_set_block_tables, ref_count_of_with.
  rewrite counts1 by (by apply image1_on_cpu).
  rewrite decide_True by (by apply image1). lia.
Qed.

Lemma gpu_free1 :
  free_blocks_of GPU m1 = free_blocks_of GPU m ++ released (ref_count_of m) T.
Proof. by rewrite free_blocks_of_set_block_tables, free_blocks_of_with_same. Qed.

Lemma cpu_free1 : free_blocks_of CPU m1 = kept1.
Proof.
  rewrite free_blocks_of_set_block_tables, free_blocks_of_with_other by done.
  by rewrite free_blocks_of_with_same.
Qed.

Lemma owned_count b : b ∈ T -> ref_count_of m b = occurrences b T.
Proof. intros Hb. by apply (proj1 (Forall_forall _ _) owned b Hb). Qed.

Lemma released_all : length (released (ref_count_of m) T) = length (remove_dups T).
Proof. apply released_length. apply owned_count. Qed.

Lemma released_in_table b : b ∈ released (ref_count_of m) T -> b ∈ T.
Proof.
  rewrite released_elem; [by intros [? _] |].
  intros x Hx. rewrite owned_count by done. lia.
Qed.

Lemma gpu_free1_distinct : NoDup (free_blocks_of GPU m1).
Proof.
  rewrite gpu_free1. apply NoDup_app. split; [exact gpu_free_distinct |]. split.
  - intros b Hb Hrel. apply released_in_table in Hrel.
    by apply (proj1 (Forall_forall _ _) owned b Hrel).
  - apply released_NoDup. intros x Hx. rewrite owned_count by done. lia.
Qed.

Lemma gpu_free1_on_gpu : Forall (fun c => block_device c = GPU) (free_blocks_of GPU m1).
Proof.
  rewrite gpu_free1. apply Forall_app. split; [exact gpu_free_on_gpu |].
  apply Forall_forall. intros b Hb. apply released_in_table in Hb.
  by apply (proj1 (Forall_forall _ _) owned b Hb).
Qed.

Lemma device_has_room :
  (length (remove_dups (rename N1 <$> T)) <= length (free_blocks_of GPU m1))%nat.
Proof.
  rewrite gpu_free1, length_app, released_all.
  pose proof (remove_dups_fmap_le (rename N1) T). lia.
Qed.

Lemma swapped_out_distinct_ids : NoDup (Sequence.seq_id <$> (after_swap_out m <$> seqs)).
Proof. rewrite swapped_out_ids. apply running_distinct_ids. Qed.

(** The group after the swap-in is the group before the swap-out. *)
Lemma marked_in :
  SequenceGroup.update_seqs
    (fun s => bool_decide (Sequence.status s = SWAPPED)
              || bool_decide (Sequence.status s = PARTIAL_SWAPPED))
    (Sequence.set_status RUNNING)
    (marked_group swap_in_step m1 (swap_in_seqs g1) g1)
  = g.
Proof.
  rewrite marked_group_by_id.
  2:{ reflexivity. } 2:{ intros q T0 s. reflexivity. }
  2:{ rewrite swap_in_seqs_swapped_out. apply swapped_out_distinct_ids. }
  rewrite swap_in_seqs_swapped_out, swapped_out_ids.
  unfold SequenceGroup.update_seqs. rewrite !set_seqs_twice.
  transitivity (SequenceGroup.set_seqs (SequenceGroup.seqs_dict g) g);
    [| apply set_seqs_same].
  f_equal. cbn [SequenceGroup.seqs_dict SequenceGroup.set_seqs].
  change (map ?h ?l) with (h <$> l). rewrite <- !list_fmap_compose.
  transitivity (id <$> SequenceGroup.seqs_dict g); [| apply list_fmap_id].
  apply list_fmap_ext. intros i s Hs. apply list_elem_of_lookup_2 in Hs.
  unfold compose. cbn [swap_in_step marked SequenceGroup.get_seqs]. rewrite swapped_out_id.
  destruct (proj1 (Forall_forall _ _) running s Hs) as [(Hrun & Hzero & _) | (Hfin & Hnot)].
  - rewrite decide_True by (by apply id_in_filter).
    unfold after_swap_out. rewrite decide_True by done.
    destruct s. cbn in *. subst. reflexivity.
  - apply finished_status in Hfin as (Hr & Hsw & _).
    rewrite decide_False by (by rewrite id_in_filter).
    rewrite swapped_out_other by done.
    by rewrite !bool_decide_eq_false_2.
Qed.

(** The swap-in of the scheduler after the swap-out. *)
Lemma swap_in_phase :
  exists N kept h',
    Scheduler._swap_in (m1, g1)
    = (Returns (BlockSpaceManagerV1.block_number_pairs N),
       (BlockSpaceManagerV1.set_block_tables
          (stored_tables swap_in_step m1 (rename N) (after_swap_out m <$> seqs)
             (BlockSpaceManagerV1.block_tables m1))
          (with_free_blocks CPU
             (free_blocks_of CPU m1 ++ released (ref_count_of m1) (rename N1 <$> T)) h'
             (with_free_blocks GPU kept h' m1)),
        g))
    /\ fst <$> N = fresh [] (rename N1 <$> T)
    /\ free_blocks_of GPU m1 = kept ++ reverse (snd <$> N)
    /\ (forall x, block_device x = GPU ->
          ref_count (block_at h' x)
          = (if decide (x ∈ snd <$> N) then 0 else ref_count_of m1 x)
            + occurrences x (rename N <$> (rename N1 <$> T))).
Proof.
  destruct (swap_in_runs m1 g1) as (N & kept & h' & Hrun & Hkeys & Hkept & _ & Hdst).
  - exact decoder_only.
  - cbn [SequenceGroup.seqs_dict SequenceGroup.set_seqs]. rewrite swapped_out_ids.
    exact distinct_ids.
  - rewrite swap_in_seqs_swapped_out. apply Forall_fmap, Forall_forall. intros s Hs. cbn.
    rewrite swapped_out_id, table1 by done. by eexists.
  - rewrite swap_in_seqs_swapped_out, swapping_in_all. apply Forall_forall. intros c Hc.
    split.
    + apply list_elem_of_fmap in Hc as (b & -> & Hb). by apply image1_on_cpu.
    + rewrite counts1_exact by done. lia.
  - exact gpu_free1_distinct.
  - exact gpu_free1_on_gpu.
  - rewrite swap_in_seqs_swapped_out, swapping_in_all. exact device_has_room.
  - rewrite swap_in_seqs_swapped_out, swapping_in_all in *.
    exists N, kept, h'. split; [| done].
    unfold Scheduler._swap_in. rewrite (bind_returns _ _ _ _ _ Hrun).
    unfold bind, modify, ret. rewrite <- swap_in_seqs_swapped_out. by rewrite marked_in.
Qed.

(** The swap-in gives every block of the running sequences a device block of
    its own again, with the reference count the block had, and returns the
    free lists to their sizes. *)
Lemma swap_in_restores :
  exists N2 m2,
    Scheduler._swap_in (m1, g1)
    = (Returns (BlockSpaceManagerV1.block_number_pairs N2), (m2, g))
    /\ (forall s, s ∈ seqs ->
          BlockSpaceManagerV1.block_tables m2 !! Sequence.seq_id s
          = Some ((fun b => rename N2 (rename N1 b)) <$> table_of m s))
    /\ (forall i : Z, i ∉ Sequence.seq_id <$> seqs ->
          BlockSpaceManagerV1.block_tables m2 !! i = BlockSpaceManagerV1.block_tables m !! i)
    /\ (forall b, b ∈ T ->
          block_device (rename N2 (rename N1 b)) = GPU
          /\ ref_count_of m2 (rename N2 (rename N1 b)) = ref_count_of m b)
    /\ (forall b b', b ∈ T -> b' ∈ T ->
          rename N2 (rename N1 b) = rename N2 (rename N1 b') -> b = b')
    /\ free_blocks_of GPU m2 = free_blocks_of GPU m
    /\ length (free_blocks_of CPU m2) = length (free_blocks_of CPU m).
Proof.
  destruct swap_in_phase as (N2 & kept2 & h2 & Hrun & Hkeys & Hkept & Hdst).
  assert (Hkey2 : forall c, c ∈ fst <$> N2 <-> c ∈ rename N1 <$> T).
  { intros c. rewrite Hkeys, fresh_elem. split; [by intros [? _] |].
    intros ?; split; [done | apply not_elem_of_nil]. }
  assert (Hvals2 : forall c, c ∈ snd <$> N2 -> c ∈ free_blocks_of GPU m1).
  { intros c Hc. rewrite Hkept. apply elem_of_app. right. by apply elem_of_reverse. }
  assert (Hnd2 : NoDup (snd <$> N2)).
  { pose proof gpu_free1_distinct as H. rewrite Hkept in H.
    apply NoDup_app in H as (_ & _ & H). by rewrite reverse_Permutation in H. }
  assert (Himage : forall b, b ∈ T -> rename N2 (rename N1 b) ∈ snd <$> N2).
  { intros b Hb. apply rename_in_values, Hkey2. by apply list_elem_of_fmap_2. }
  assert (Hinj2 : forall c c', c ∈ rename N1 <$> T -> c' ∈ rename N1 <$> T ->
            rename N2 c = rename N2 c' -> c = c').
  { intros c c' Hc Hc'. apply rename_inj; [done | by apply Hkey2 | by apply Hkey2]. }
  assert (Hdistinct : length (remove_dups (rename N1 <$> T)) = length (remove_dups T)).
  { apply remove_dups_fmap_length. apply rename1_inj. }
  eexists N2, _. split; [exact Hrun |].
  split.
  { intros s Hs. cbn [BlockSpaceManagerV1.block_tables BlockSpaceManagerV1.set_block_tables].
    rewrite <- (swapped_out_id s).
    rewrite (stored_tables_lookup swap_in_step _ (rename N2) (after_swap_out m <$> seqs));
      [| apply swapped_out_distinct_ids | by apply list_elem_of_fmap_2].
    rewrite table1_of by done.
    rewrite swap_in_swapping_all by (by apply table1_on_cpu).
    rewrite swap_in_stored_all; [| by apply table1_on_cpu | by rewrite length_fmap].
    by rewrite <- list_fmap_compose. }
  split.
  { intros i Hi. cbn [BlockSpaceManagerV1.block_tables BlockSpaceManagerV1.set_block_tables].
    rewrite stored_tables_lookup_other by (by rewrite swapped_out_ids).
    by rewrite stored_tables_lookup_other. }
  split.
  { intros b Hb. split.
    - apply (proj1 (Forall_forall _ _) gpu_free1_on_gpu). by apply Hvals2, Himage.
    - rewrite ref_count_of_set_block_tables, ref_count_of_with.
      rewrite Hdst.
      2:{ apply (proj1 (Forall_forall _ _) gpu_free1_on_gpu). by apply Hvals2, Himage. }
      rewrite decide_True by (by apply Himage).
      rewrite (occurrences_fmap_inj (rename N2) (rename N1 <$> T) (rename N1 b)).
      2:{ intros a Ha. apply Hinj2; [done | by apply list_elem_of_fmap_2]. }
      rewrite (occurrences_fmap_inj (rename N1) T b).
      2:{ intros a Ha. by apply rename1_inj. }
      rewrite owned_count by done. lia. }
  split.
  { intros b b' Hb Hb' Heq. apply rename1_inj; [done | done |].
    apply Hinj2; [by apply list_elem_of_fmap_2 | by apply list_elem_of_fmap_2 | done]. }
  assert (Hlen2 : length (snd <$> N2) = length (remove_dups T)).
  { rewrite (length_fmap snd N2), <- (length_fmap fst N2), Hkeys, fresh_length.
    exact Hdistinct. }
  split.
  { rewrite free_blocks_of_set_block_tables.
    rewrite free_blocks_of_with_other by done. rewrite free_blocks_of_with_same.
    rewrite gpu_free1 in Hkept.
    apply app_inj_2 in Hkept as [Heq _]; [done |].
    by rewrite length_reverse, Hlen2, released_all. }
  rewrite free_blocks_of_set_block_tables, free_blocks_of_with_same.
  rewrite cpu_free1, length_app.
  rewrite (released_length (ref_count_of m1) (rename N1 <$> T)) by apply counts1_exact.
  rewrite Hdistinct, kept1_rest, length_app, length_reverse.
  rewrite (length_fmap snd N1), <- (length_fmap fst N1), keys1, fresh_length. reflexivity.
Qed.

End AfterSwapOut.

(** X1.  The round trip of a swap-out and a swap-in, where no table names a
    block more often than its reference count says.  For a
    decoder-only group whose sequences have distinct ids and are running with
    nothing swapped out, or finished; where the tables of the running
    sequences hold device blocks that are not free and whose reference counts
    are their occurrences in these tables; with well-formed free lists and a
    host that [can_swap_out] accepts: [_swap_out] followed by [_swap_in]
    returns, leaves the group as it was (status, tokens, computed-token
    counts and swap counters of every sequence), renames the blocks of the
    tables one to one onto device blocks with the same reference counts,
    leaves the tables of all other sequences alone, and restores the device
    free list and the number of free host blocks. *)
Theorem swap_out_swap_in_round_trip :
  exists out back m' (image : block_id -> block_id),
    (let! out := Scheduler._swap_out (-1) SWAPPED in
     let! back := Scheduler._swap_in in
     ret (out, back)) (m, g)
    = (Returns (out, back), (m', g))
    /\ (forall s, s ∈ seqs ->
          BlockSpaceManagerV1.block_tables m' !! Sequence.seq_id s
          = Some (image <$> table_of m s))
    /\ (forall i : Z, i ∉ Sequence.seq_id <$> seqs ->
          BlockSpaceManagerV1.block_tables m' !! i = BlockSpaceManagerV1.block_tables m !! i)
    /\ (forall b, b ∈ T ->
          block_device (image b) = GPU /\ ref_count_of m' (image b) = ref_count_of m b)
    /\ (forall b b', b ∈ T -> b' ∈ T -> image b = image b' -> b = b')
    /\ free_blocks_of GPU m' = free_blocks_of GPU m
    /\ BlockSpaceManagerV1.get_num_free_cpu_blocks m'
       = BlockSpaceManagerV1.get_num_free_cpu_blocks m.
Proof.
  destruct swap_out_phase as (N1 & kept1 & h1 & Hout & Hkeys1 & Hkept1 & Hcounts1).
  destruct (swap_in_restores N1 kept1 h1 Hkeys1 Hkept1 Hcounts1)
    as (N2 & m2 & Hin & Htables & Hothers & Himage & Hinj & Hgpu & Hcpu).
  exists (BlockSpaceManagerV1.block_number_pairs N1),
         (BlockSpaceManagerV1.block_number_pairs N2), m2,
         (fun b => rename N2 (rename N1 b)).
  split.
  { rewrite (bind_returns _ _ _ _ _ Hout). by rewrite (bind_returns _ _ _ _ _ Hin). }
  repeat (split; [done |]).
  unfold BlockSpaceManagerV1.get_num_free_cpu_blocks.
  change (UncachedBlockAllocator.free_blocks (BlockSpaceManagerV1.cpu_allocator ?x))
    with (free_blocks_of CPU x).
  by rewrite Hcpu.
Qed.

End RoundTrip.

(** The theorem at a group of two running sequences that share the three
    blocks of their prompt (each block has reference count 2), with 8 device
    and 4 host blocks. *)
Lemma swap_out_swap_in_round_trip_witness :
  let m := snd (BlockSpaceManagerV1.allocate no_check (pair_group "r1" 40 16) false
                  (BlockSpaceManagerV1.new 16 8 4 0 0 None)) in
  let g := admitted (pair_group "r1" 40 16) in
  exists out back m',
    (let! out := Scheduler._swap_out (-1) SWAPPED in
     let! back := Scheduler._swap_in in
     ret (out, back)) (m, g)
    = (Returns (out, back), (m', g))
    /\ free_blocks_of GPU m' = free_blocks_of GPU m
    /\ BlockSpaceManagerV1.get_num_free_cpu_blocks m' = 4.
Proof.
  intros m g.
  destruct (swap_out_swap_in_round_trip m g)
    as (out & back & m' & image & Hrun & _ & _ & _ & _ & Hgpu & Hcpu).
  - reflexivity.
  - by_evaluation.
  - by_evaluation.
  - by_evaluation.
  - by_evaluation.
  - by_evaluation.
  - by_evaluation.
  - by_evaluation.
  - vm_compute. reflexivity.
  - exists out, back, m'. split; [exact Hrun |]. split; [exact Hgpu |].
    rewrite Hcpu. vm_compute. reflexivity.
Defined.

(** * Further properties of the code *)

(** ** SchedulingBudget *)

(** X2.  A request's tokens and sequences are taken off the budget again by
    the subtract methods: for a request id the budget has not counted yet,
    adding and then subtracting the same amount gives the budget back, and
    subtracting for an id that was never added changes nothing. *)
Theorem budget_add_then_subtract (req_id : string) (n : Z) (b : SchedulingBudget.t) :
  req_id ∉ SchedulingBudget._requeset_ids_num_batched_tokens b ->
  req_id ∉ SchedulingBudget._requeset_ids_num_curr_seqs b ->
  SchedulingBudget.subtract_num_batched_tokens req_id n
    (SchedulingBudget.add_num_batched_tokens req_id n b) = b
  /\ SchedulingBudget.subtract_num_seqs req_id n (SchedulingBudget.add_num_seqs req_id n b) = b
  /\ SchedulingBudget.subtract_num_batched_tokens req_id n b = b
  /\ SchedulingBudget.subtract_num_seqs req_id n b = b.
Proof.
  intros Ht Hs.
  unfold SchedulingBudget.subtract_num_batched_tokens, SchedulingBudget.subtract_num_seqs,
    SchedulingBudget.add_num_batched_tokens, SchedulingBudget.add_num_seqs.
  rewrite !(decide_False (P := req_id ∈ SchedulingBudget._requeset_ids_num_batched_tokens b))
    by done.
  rewrite !(decide_False (P := req_id ∈ SchedulingBudget._requeset_ids_num_curr_seqs b))
    by done.
  cbn [SchedulingBudget._requeset_ids_num_batched_tokens
       SchedulingBudget._requeset_ids_num_curr_seqs].
  rewrite !decide_True by (apply elem_of_union_l, elem_of_singleton; reflexivity).
  destruct b as [tb ms Xt Xs nt ns]. cbn in *.
  repeat split; f_equal; try lia.
  - apply set_eq. intros x. rewrite elem_of_difference, elem_of_union, !elem_of_singleton.
    split; [intros [[-> | ?] ?]; done |]. intros Hx. split; [by right | by intros ->].
  - apply set_eq. intros x. rewrite elem_of_difference, elem_of_union, !elem_of_singleton.
    split; [intros [[-> | ?] ?]; done |]. intros Hx. split; [by right | by intros ->].
Qed.

Lemma budget_add_then_subtract_witness :
  let b := SchedulingBudget.add_num_batched_tokens "r0" 7 (SchedulingBudget.new 2048 256) in
  SchedulingBudget.subtract_num_batched_tokens "r1" 16
    (SchedulingBudget.add_num_batched_tokens "r1" 16 b) = b.
Proof.
  intros b. apply (budget_add_then_subtract "r1" 16 b); by_evaluation.
Defined.

(** X3.  [can_schedule_infer] reports no exhaustion exactly when both sums
    stay strictly below their limits, and then [can_schedule] accepts; a
    request that fills the token budget exactly is accepted by
    [can_schedule] and reported as exhausting by [can_schedule_infer]. *)
Theorem can_schedule_infer_none (b : SchedulingBudget.t) (num_new_tokens num_new_seqs : Z) :
  (SchedulingBudget.can_schedule_infer b num_new_tokens num_new_seqs = NONE
   <-> SchedulingBudget.num_batched_tokens b + num_new_tokens < SchedulingBudget.token_budget b
       /\ SchedulingBudget.num_curr_seqs b + num_new_seqs < SchedulingBudget.max_num_seqs b)
  /\ (SchedulingBudget.can_schedule_infer b num_new_tokens num_new_seqs = NONE ->
      SchedulingBudget.can_schedule b num_new_tokens num_new_seqs = true)
  /\ (SchedulingBudget.num_batched_tokens b + num_new_tokens = SchedulingBudget.token_budget b ->
      SchedulingBudget.num_curr_seqs b + num_new_seqs <= SchedulingBudget.max_num_seqs b ->
      SchedulingBudget.can_schedule b num_new_tokens num_new_seqs = true
      /\ SchedulingBudget.can_schedule_infer b num_new_tokens num_new_seqs <> NONE).
Proof.
  unfold SchedulingBudget.can_schedule_infer, SchedulingBudget.can_schedule.
  set (tk := SchedulingBudget.num_batched_tokens b + num_new_tokens).
  set (sq := SchedulingBudget.num_curr_seqs b + num_new_seqs).
  destruct (Z.geb_spec tk (SchedulingBudget.token_budget b));
    destruct (Z.geb_spec sq (SchedulingBudget.max_num_seqs b));
    destruct (Z.ltb_spec sq (SchedulingBudget.max_num_seqs b));
    destruct (Z.leb_spec tk (SchedulingBudget.token_budget b));
    destruct (Z.leb_spec sq (SchedulingBudget.max_num_seqs b));
    cbn; repeat split; intros; try done; try lia.
Qed.

(** ** UncachedBlockAllocator *)

(** X4.  The free list is a stack: a block that is allocated and freed at once
    is the last block of the free list, and the allocator is as before; its
    reference count is 0 afterwards.  With an empty free list [allocate]
    raises "Out of memory" and changes nothing. *)
Theorem allocate_then_free (a : UncachedBlockAllocator.t) (h : Heap) :
  (forall rest b,
     UncachedBlockAllocator.free_blocks a = rest ++ [b] ->
     exists h',
       (let! block := UncachedBlockAllocator.allocate "normal" in
        do! UncachedBlockAllocator.free block "normal" in
        ret block) (a, h)
       = (Returns b, (a, h'))
       /\ ref_count (block_at h' b) = 0
       /\ (forall x, x <> b -> block_at h' x = block_at h x))
  /\ (UncachedBlockAllocator.free_blocks a = [] ->
      UncachedBlockAllocator.allocate "normal" (a, h)
      = (Raises (ValueError OutOfMemory), (a, h))).
Proof.
  split.
  - intros rest b Hfree.
    exists (write_ref_count b 0 (write_ref_count b 1 h)). split; [| split].
    + unfold bind, UncachedBlockAllocator.allocate, UncachedBlockAllocator.free, ret.
      cbn [String.eqb Ascii.eqb Bool.eqb]. cbn.
      rewrite Hfree, pop_snoc. rewrite ref_count_write_same. cbn.
      rewrite <- Hfree. by destruct a.
    + by rewrite ref_count_write_same.
    + intros x Hx. by rewrite !block_at_write_other.
  - intros Hfree. unfold UncachedBlockAllocator.allocate. cbn. by rewrite Hfree.
Qed.

Lemma allocate_then_free_witness :
  let a := UncachedBlockAllocator.new GPU 16 4 0 in
  exists h',
    (let! block := UncachedBlockAllocator.allocate "normal" in
     do! UncachedBlockAllocator.free block "normal" in
     ret block) (a, ∅)
    = (Returns (GPU, 3), (a, h')).
Proof.
  intros a.
  destruct (proj1 (allocate_then_free a ∅) [(GPU, 0); (GPU, 1); (GPU, 2)] (GPU, 3))
    as (h' & Hrun & _).
  - reflexivity.
  - by exists h'.
Defined.

(** ** Sequence statuses and lengths *)

(** X5.  A status that has a finish reason is finished, but [is_finished]
    holds of more statuses than the four that have one: it holds of every
    status except [WAITING], [RUNNING] and [SWAPPED], so a partially swapped
    sequence counts as finished. *)
Theorem finished_reason_implies_finished (st : SequenceStatus) :
  (get_finished_reason st <> None -> status_is_finished st = true)
  /\ (status_is_finished st = true <-> st <> WAITING /\ st <> RUNNING /\ st <> SWAPPED)
  /\ (status_is_finished PARTIAL_SWAPPED = true /\ get_finished_reason PARTIAL_SWAPPED = None).
Proof.
  destruct st; cbn; repeat split; try done; intros; try done;
    try (destruct_and?; done).
Qed.

(** X6.  [n_blocks] is the least number of blocks that hold the tokens of the
    sequence: for a positive block size, [n_blocks] blocks hold them and
    [n_blocks - 1] do not. *)
Theorem n_blocks_is_least (s : Sequence.t) :
  0 < Sequence.block_size s ->
  Sequence.get_len s <= Sequence.n_blocks s * Sequence.block_size s
  /\ (Sequence.n_blocks s - 1) * Sequence.block_size s < Sequence.get_len s.
Proof.
  intros Hbs. unfold Sequence.n_blocks.
  pose proof (Z.div_mod (- Sequence.get_len s) (Sequence.block_size s) ltac:(lia)) as Hdm.
  pose proof (Z.mod_pos_bound (- Sequence.get_len s) (Sequence.block_size s) Hbs) as Hmod.
  nia.
Qed.

Lemma n_blocks_is_least_witness :
  let s := Sequence.new 0 (repeat 0 33%nat) 16 in
  Sequence.n_blocks s = 3
  /\ Sequence.get_len s <= Sequence.n_blocks s * Sequence.block_size s
  /\ (Sequence.n_blocks s - 1) * Sequence.block_size s < Sequence.get_len s.
Proof.
  intros s. split; [reflexivity |]. apply (n_blocks_is_least s). reflexivity.
Defined.

(** X7.  Without beam search, [get_max_num_running_seqs] is at least the
    number of unfinished sequences of the group. *)
Theorem max_num_running_seqs_covers_unfinished (g : SequenceGroup.t) :
  (forall p, SequenceGroup.sampling_params g = Some p -> use_beam_search p = false) ->
  SequenceGroup.num_unfinished_seqs g <= SequenceGroup.get_max_num_running_seqs g.
Proof.
  intros Hbeam. unfold SequenceGroup.get_max_num_running_seqs.
  destruct (SequenceGroup.sampling_params g) as [p |]; [| lia].
  rewrite (Hbeam p eq_refl).
  destruct (Z.gtb_spec (best_of p) (SequenceGroup.num_seqs None g)) as [Hgt | Hle]; [| lia].
  assert (SequenceGroup.num_unfinished_seqs g <= SequenceGroup.num_seqs None g); [| lia].
  unfold SequenceGroup.num_unfinished_seqs, SequenceGroup.num_seqs,
    SequenceGroup.get_unfinished_seqs, SequenceGroup.get_seqs.
  apply inj_le. apply length_filter.
Qed.

Lemma max_num_running_seqs_covers_unfinished_witness :
  let g := SequenceGroup.new "r1" [Sequence.new 0 [1; 2] 16] 0%float
             (Some (mkSamplingParams 2 false 16 None None)) in
  SequenceGroup.get_max_num_running_seqs g = 2
  /\ SequenceGroup.num_unfinished_seqs g <= SequenceGroup.get_max_num_running_seqs g.
Proof.
  intros g. split; [reflexivity |].
  apply (max_num_running_seqs_covers_unfinished g). intros p [= <-]. reflexivity.
Defined.

(** ** UncachedBlockAllocator.split_tables and merge_tables *)

Lemma list_remove_middle (skipped rest : list block_id) (x : block_id) :
  x ∉ skipped ->
  UncachedBlockAllocator.list_remove x (skipped ++ x :: rest) = skipped ++ rest.
Proof.
  induction skipped as [| y skipped IH]; intros Hx; cbn.
  - by rewrite decide_True.
  - apply not_elem_of_cons in Hx as [Hne Hx].
    rewrite decide_False by done. by rewrite IH.
Qed.

Lemma taken_blocks_nil j : taken_blocks j [] = [].
Proof. by destruct j. Qed.

Lemma left_blocks_nil j : left_blocks j [] = [].
Proof. by destruct j. Qed.

Lemma taken_blocks_length j :
  forall l, length (taken_blocks j l) = Nat.min j ((length l + 1) / 2).
Proof.
  induction j as [| j IH]; intros l; [done |].
  destruct l as [| x [| y l]]; [cbn; lia | cbn; lia |].
  cbn [taken_blocks length]. rewrite IH.
  replace (S (S (length l)) + 1)%nat with ((length l + 1) + 1 * 2)%nat by lia.
  rewrite Nat.div_add by done. lia.
Qed.

Lemma left_taken_blocks j : forall l, left_blocks j l ++ taken_blocks j l ≡ₚ l.
Proof.
  induction j as [| j IH]; intros l; [by rewrite app_nil_r |].
  destruct l as [| x [| y l]]; [done | done |].
  cbn [taken_blocks left_blocks].
  rewrite <- (IH l) at 3.
  rewrite <- app_comm_cons. rewrite <- Permutation_middle. apply perm_swap.
Qed.

(** The loop with the iterator at the position [length skipped]: the blocks
    before it stay, and of the blocks from it on every other one is taken. *)
Lemma split_loop_takes_every_other (n : Z) (turns : nat) :
  forall (skipped rest : list block_id) (a : UncachedBlockAllocator.t),
    UncachedBlockAllocator.free_blocks a = skipped ++ rest ->
    NoDup (skipped ++ rest) ->
    (length rest <= turns)%nat ->
    let j := Z.to_nat (n - UncachedBlockAllocator.num_shared_blocks a) in
    UncachedBlockAllocator.split_loop turns (length skipped) n a
    = UncachedBlockAllocator.mk
        (UncachedBlockAllocator.device a) (UncachedBlockAllocator.block_size a)
        (UncachedBlockAllocator.num_blocks a)
        (UncachedBlockAllocator.num_shared_blocks a + Z.of_nat (length (taken_blocks j rest)))
        (UncachedBlockAllocator.free_shared_blocks a ++ taken_blocks j rest)
        (skipped ++ left_blocks j rest).
Proof.
  induction turns as [| turns IH]; intros skipped rest a Hfree Hnd Hlen j.
  - destruct rest; [| cbn in Hlen; lia].
    rewrite taken_blocks_nil, left_blocks_nil. cbn.
    destruct a. cbn in *. subst. f_equal; try lia; by rewrite ?app_nil_r.
  - cbn [UncachedBlockAllocator.split_loop]. rewrite Hfree.
    destruct rest as [| x rest].
    + rewrite app_nil_r, lookup_ge_None_2 by done.
      rewrite taken_blocks_nil, left_blocks_nil.
      destruct a. cbn in *. subst. f_equal; try lia; by rewrite ?app_nil_r.
    + rewrite list_lookup_middle by done.
      destruct (Z.geb_spec (UncachedBlockAllocator.num_shared_blocks a) n) as [Hge | Hlt].
      * replace j with 0%nat by lia. cbn.
        destruct a. cbn in *. subst. f_equal; try lia; by rewrite ?app_nil_r.
      * assert (Hx : x ∉ skipped).
        { apply NoDup_app in Hnd as (_ & Hdisj & _). intros Hin.
          apply (Hdisj x Hin). left. }
        rewrite list_remove_middle by done.
        destruct (Z.to_nat (n - UncachedBlockAllocator.num_shared_blocks a)) as [| j'] eqn:Hj;
          [lia |].
        subst j.
        destruct rest as [| y rest].
        -- cbn [taken_blocks left_blocks length].
           assert (Hstop : forall t a',
                     UncachedBlockAllocator.free_blocks a' = skipped ++ [] ->
                     UncachedBlockAllocator.split_loop t (S (length skipped)) n a' = a').
           { intros t a' Ha'. destruct t; [done |]. cbn.
             by rewrite Ha', app_nil_r, lookup_ge_None_2 by lia. }
           rewrite Hstop by done. by rewrite app_nil_r.
        -- cbn [taken_blocks left_blocks length].
           replace (S (length skipped)) with (length (skipped ++ [y]))
             by (rewrite length_app; cbn; lia).
           rewrite (IH (skipped ++ [y]) rest).
           ++ cbn. replace (Z.to_nat (n - (UncachedBlockAllocator.num_shared_blocks a + 1)))
                with j' by lia.
              f_equal; [lia | by rewrite <- app_assoc | by rewrite <- app_assoc].
           ++ cbn. by rewrite <- app_assoc.
           ++ rewrite <- app_assoc. cbn.
              apply NoDup_app in Hnd as (Hs & Hdisj & Hr).
              apply NoDup_cons in Hr as [_ Hr].
              apply NoDup_app. split; [done |]. split; [| done].
              intros z Hz Hin. apply (Hdisj z Hz). by right.
           ++ cbn in Hlen. lia.
Qed.

(** [split_tables] in closed form, for a free list without repetition. *)
Lemma split_tables_eq (n : Z) (a : UncachedBlockAllocator.t) :
  NoDup (UncachedBlockAllocator.free_blocks a) ->
  let free := UncachedBlockAllocator.free_blocks a in
  let j := Z.to_nat (n - UncachedBlockAllocator.num_shared_blocks a) in
  UncachedBlockAllocator.split_tables n a
  = (Z.of_nat (length (UncachedBlockAllocator.free_shared_blocks a ++ taken_blocks j free)),
     UncachedBlockAllocator.mk
       (UncachedBlockAllocator.device a) (UncachedBlockAllocator.block_size a)
       (UncachedBlockAllocator.num_blocks a)
       (UncachedBlockAllocator.num_shared_blocks a + Z.of_nat (length (taken_blocks j free)))
       (UncachedBlockAllocator.free_shared_blocks a ++ taken_blocks j free)
       (left_blocks j free)).
Proof.
  intros Hnd free j.
  pose proof (split_loop_takes_every_other n (length free) [] free a eq_refl Hnd (le_n _))
    as Hloop.
  cbn [length app] in Hloop. fold j in Hloop.
  unfold UncachedBlockAllocator.split_tables. fold free. by rewrite Hloop.
Qed.

(** X8.  [split_tables] walks the free list while it removes from it, so it
    takes every other block: from a free list of [k] distinct blocks it moves
    the first, third, fifth, ... block to the shared list, at most
    [n - num_shared_blocks] of them and at most [(k + 1) / 2]; the blocks it
    leaves and the blocks it takes are the blocks of the free list, and it
    returns the length of the shared list. *)
Theorem split_tables_takes_every_other (n : Z) (a : UncachedBlockAllocator.t) :
  NoDup (UncachedBlockAllocator.free_blocks a) ->
  let free := UncachedBlockAllocator.free_blocks a in
  let j := Z.to_nat (n - UncachedBlockAllocator.num_shared_blocks a) in
  let moved := Nat.min j ((length free + 1) / 2) in
  let a' := snd (UncachedBlockAllocator.split_tables n a) in
  UncachedBlockAllocator.free_shared_blocks a'
  = UncachedBlockAllocator.free_shared_blocks a ++ taken_blocks j free
  /\ UncachedBlockAllocator.free_blocks a' = left_blocks j free
  /\ length (taken_blocks j free) = moved
  /\ UncachedBlockAllocator.free_blocks a' ++ taken_blocks j free ≡ₚ free
  /\ UncachedBlockAllocator.num_shared_blocks a'
     = UncachedBlockAllocator.num_shared_blocks a + Z.of_nat moved
  /\ fst (UncachedBlockAllocator.split_tables n a)
     = Z.of_nat (length (UncachedBlockAllocator.free_shared_blocks a)) + Z.of_nat moved.
Proof.
  intros Hnd free j moved a'.
  pose proof (taken_blocks_length j free) as Hlen. fold moved in Hlen.
  unfold a'. rewrite (split_tables_eq n a Hnd). fold free. fold j.
  cbn [fst snd UncachedBlockAllocator.free_shared_blocks UncachedBlockAllocator.free_blocks
       UncachedBlockAllocator.num_shared_blocks].
  rewrite length_app, Hlen.
  split; [done |]. split; [done |]. split; [done |].
  split; [apply left_taken_blocks |]. split; [done | lia].
Qed.

Lemma split_tables_takes_every_other_witness :
  let a := UncachedBlockAllocator.new GPU 16 5 0 in
  UncachedBlockAllocator.split_tables 4 a
  = (3, UncachedBlockAllocator.mk GPU 16 5 3
          [(GPU, 0); (GPU, 2); (GPU, 4)] [(GPU, 1); (GPU, 3)])
  /\ length (taken_blocks 4 (UncachedBlockAllocator.free_blocks a))
     = Nat.min 4 ((5 + 1) / 2).
Proof.
  intros a. split; [vm_compute; reflexivity |].
  apply (split_tables_takes_every_other 4 a). by_evaluation.
Defined.

(** X9.  [merge_tables] after [split_tables] returns every block to the free
    list: the shared list is empty, the free list holds the blocks of the two
    lists the allocator had (in another order), and [num_shared_blocks] is
    what it was less the length of the shared list it had. *)
Theorem merge_after_split (n : Z) (a : UncachedBlockAllocator.t) :
  NoDup (UncachedBlockAllocator.free_blocks a) ->
  let a' := UncachedBlockAllocator.merge_tables (snd (UncachedBlockAllocator.split_tables n a)) in
  UncachedBlockAllocator.free_shared_blocks a' = []
  /\ UncachedBlockAllocator.free_blocks a'
     ≡ₚ UncachedBlockAllocator.free_blocks a ++ UncachedBlockAllocator.free_shared_blocks a
  /\ UncachedBlockAllocator.num_shared_blocks a'
     = UncachedBlockAllocator.num_shared_blocks a
       - Z.of_nat (length (UncachedBlockAllocator.free_shared_blocks a)).
Proof.
  intros Hnd a'.
  unfold a', UncachedBlockAllocator.merge_tables. rewrite (split_tables_eq n a Hnd).
  cbn [snd UncachedBlockAllocator.free_shared_blocks UncachedBlockAllocator.free_blocks
       UncachedBlockAllocator.num_shared_blocks].
  rewrite length_app.
  split; [done |]. split; [| lia].
  rewrite (Permutation_app_comm (UncachedBlockAllocator.free_shared_blocks a)).
  by rewrite app_assoc, left_taken_blocks.
Qed.

Lemma merge_after_split_witness :
  let a := UncachedBlockAllocator.new GPU 16 5 0 in
  let a' := UncachedBlockAllocator.merge_tables (snd (UncachedBlockAllocator.split_tables 4 a)) in
  UncachedBlockAllocator.free_blocks a'
  = [(GPU, 1); (GPU, 3); (GPU, 0); (GPU, 2); (GPU, 4)]
  /\ UncachedBlockAllocator.free_blocks a'
     ≡ₚ UncachedBlockAllocator.free_blocks a ++ UncachedBlockAllocator.free_shared_blocks a.
Proof.
  intros a a'. split; [vm_compute; reflexivity |].
  apply (merge_after_split 4 a). by_evaluation.
Defined.

(** X10.  [add_shared_blocks(n)] on a manager whose device allocator has [k]
    distinct free blocks and no shared blocks: for [n = 0] it returns [None]
    and changes nothing; with no free block it returns 0; otherwise it
    returns [min n ((k + 1) / 2)], the number of blocks [split_tables] moved,
    which is less than [n] whenever [n] exceeds half the free list. *)
Theorem add_shared_blocks_returns (n : Z) (m : BlockSpaceManagerV1.t) :
  let a := BlockSpaceManagerV1.gpu_allocator m in
  let k := length (UncachedBlockAllocator.free_blocks a) in
  NoDup (UncachedBlockAllocator.free_blocks a) ->
  UncachedBlockAllocator.free_shared_blocks a = [] ->
  UncachedBlockAllocator.num_shared_blocks a = 0 ->
  (n = 0 -> BlockSpaceManagerV1.add_shared_blocks n m = (Returns None, m))
  /\ (0 < n -> k = 0%nat -> BlockSpaceManagerV1.add_shared_blocks n m = (Returns (Some 0), m))
  /\ (0 < n -> (0 < k)%nat ->
      exists m',
        BlockSpaceManagerV1.add_shared_blocks n m
        = (Returns (Some (Z.min n (Z.of_nat ((k + 1) / 2)))), m')
        /\ Z.of_nat (length (UncachedBlockAllocator.free_shared_blocks
                               (BlockSpaceManagerV1.gpu_allocator m')))
           = Z.min n (Z.of_nat ((k + 1) / 2))
        /\ Z.of_nat (length (UncachedBlockAllocator.free_blocks
                               (BlockSpaceManagerV1.gpu_allocator m')))
           = Z.of_nat k - Z.min n (Z.of_nat ((k + 1) / 2))).
Proof.
  intros a k Hnd Hshared Hnum.
  assert (Hrun : forall n', n' <> 0 ->
            BlockSpaceManagerV1.add_shared_blocks n' m
            = if Z.min n' (Z.of_nat k) =? 0 then (Returns (Some 0), m)
              else
                let '(r, a') := UncachedBlockAllocator.split_tables (Z.min n' (Z.of_nat k)) a in
                (Returns (Some r),
                 BlockSpaceManagerV1.set_allocator_heap GPU a' (BlockSpaceManagerV1.heap m) m)).
  { intros n' Hn'. unfold BlockSpaceManagerV1.add_shared_blocks.
    destruct (Z.eqb_spec n' 0); [done |].
    unfold bind at 1, get at 1. cbv beta iota.
    unfold BlockSpaceManagerV1.get_num_free_gpu_blocks. fold a. fold k.
    destruct (Z.min n' (Z.of_nat k) =? 0); [done |].
    by destruct (UncachedBlockAllocator.split_tables (Z.min n' (Z.of_nat k)) a). }
  split; [| split].
  - intros ->. reflexivity.
  - intros Hn Hk. rewrite Hrun by lia.
    destruct (Z.eqb_spec (Z.min n (Z.of_nat k)) 0); [reflexivity | lia].
  - intros Hn Hk. rewrite Hrun by lia.
    destruct (Z.eqb_spec (Z.min n (Z.of_nat k)) 0); [lia |].
    rewrite (split_tables_eq (Z.min n (Z.of_nat k)) a Hnd).
    rewrite Hshared, Hnum. cbn [app].
    pose proof (taken_blocks_length (Z.to_nat (Z.min n (Z.of_nat k) - 0))
                  (UncachedBlockAllocator.free_blocks a)) as Hlen.
    pose proof (left_taken_blocks (Z.to_nat (Z.min n (Z.of_nat k) - 0))
                  (UncachedBlockAllocator.free_blocks a)) as Hperm.
    apply Permutation_length in Hperm. rewrite length_app in Hperm.
    fold k in Hlen, Hperm.
    assert (Hhalf : ((k + 1) / 2 <= k)%nat).
    { apply Nat.Div0.div_le_upper_bound. lia. }
    eexists. split; [do 3 f_equal; lia |].
    cbn [BlockSpaceManagerV1.gpu_allocator BlockSpaceManagerV1.set_allocator_heap
         UncachedBlockAllocator.free_shared_blocks UncachedBlockAllocator.free_blocks].
    split; lia.
Qed.

Lemma add_shared_blocks_returns_witness :
  let m := BlockSpaceManagerV1.new 16 8 4 0 0 None in
  exists m',
    BlockSpaceManagerV1.add_shared_blocks 6 m = (Returns (Some 4), m')
    /\ BlockSpaceManagerV1.get_num_free_gpu_blocks m' = 4.
Proof.
  intros m.
  destruct (add_shared_blocks_returns 6 m) as (_ & _ & H).
  - by_evaluation.
  - reflexivity.
  - reflexivity.
  - destruct H as (m' & Hrun & _ & Hfree); [lia | vm_compute; lia |].
    exists m'. split; [exact Hrun |].
    unfold BlockSpaceManagerV1.get_num_free_gpu_blocks. rewrite Hfree. reflexivity.
Defined.

(** ** BlockSpaceManagerV1.fork and free *)

Lemma with_free_blocks_set_heap d h m :
  with_free_blocks d (free_blocks_of d m) h m = BlockSpaceManagerV1.set_heap h m.
Proof. destruct m as [? ? ? ? ? ? [] [] ? ? ? ? ?]. by destruct d. Qed.

Lemma set_heap_twice h h' m :
  BlockSpaceManagerV1.set_heap h' (BlockSpaceManagerV1.set_heap h m)
  = BlockSpaceManagerV1.set_heap h' m.
Proof. done. Qed.

(** The loop of [fork]: one more reference to each block of the list. *)
Lemma fork_loop (l : list block_id) :
  forall m : BlockSpaceManagerV1.t,
    NoDup l ->
    exists h',
      for_each l
        (fun block =>
           modify (fun m => BlockSpaceManagerV1.set_heap
                              (write_ref_count block
                                 (ref_count (block_at (BlockSpaceManagerV1.heap m) block) + 1)
                                 (BlockSpaceManagerV1.heap m)) m)) m
      = (Returns tt, BlockSpaceManagerV1.set_heap h' m)
      /\ forall b, ref_count (block_at h' b)
                   = ref_count_of m b + (if decide (b ∈ l) then 1 else 0).
Proof.
  induction l as [| x l IH]; intros m Hnd.
  - exists (BlockSpaceManagerV1.heap m). split; [by destruct m |].
    intros b. rewrite decide_False by apply not_elem_of_nil. unfold ref_count_of. lia.
  - apply NoDup_cons in Hnd as [Hx Hnd].
    cbn [for_each]. unfold bind at 1, modify at 1.
    destruct (IH (BlockSpaceManagerV1.set_heap
                    (write_ref_count x (ref_count_of m x + 1) (BlockSpaceManagerV1.heap m)) m)
                Hnd) as (h' & Hrun & Hcount).
    exists h'. split; [exact Hrun |].
    intros b. rewrite Hcount. unfold ref_count_of. cbn [BlockSpaceManagerV1.heap BlockSpaceManagerV1.set_heap].
    destruct (decide (b = x)) as [-> | Hne].
    + rewrite ref_count_write_same.
      rewrite (decide_False (P := x ∈ l)) by done.
      rewrite (decide_True (P := x ∈ x :: l)) by left. lia.
    + rewrite ref_count_write_other by done.
      destruct (decide (b ∈ l)) as [Hin | Hout].
      * rewrite (decide_True (P := b ∈ x :: l)) by (by right). lia.
      * rewrite (decide_False (P := b ∈ x :: l)); [lia |].
        by intros [? | ?]%elem_of_cons.
Qed.

(** The loop of [_free_block_table] over blocks that other tables hold too:
    each gives up one reference and none returns to a free list. *)
Lemma free_loop_shared (l : list block_id) :
  forall m : BlockSpaceManagerV1.t,
    NoDup l ->
    (forall b, b ∈ l -> 2 <= ref_count_of m b) ->
    exists h',
      for_each l
        (fun block =>
           if decide (block_device block = GPU)
           then BlockSpaceManagerV1.on_allocator GPU (UncachedBlockAllocator.free block "normal")
           else BlockSpaceManagerV1.on_allocator CPU (UncachedBlockAllocator.free block "normal")) m
      = (Returns tt, BlockSpaceManagerV1.set_heap h' m)
      /\ forall b, ref_count (block_at h' b)
                   = ref_count_of m b - (if decide (b ∈ l) then 1 else 0).
Proof.
  induction l as [| x l IH]; intros m Hnd Hrc.
  - exists (BlockSpaceManagerV1.heap m). split; [by destruct m |].
    intros b. rewrite decide_False by apply not_elem_of_nil. unfold ref_count_of. lia.
  - apply NoDup_cons in Hnd as [Hx Hnd].
    assert (Hx2 : 2 <= ref_count_of m x) by (apply Hrc; left).
    set (m1 := BlockSpaceManagerV1.set_heap
                 (write_ref_count x (ref_count_of m x - 1) (BlockSpaceManagerV1.heap m)) m).
    assert (Hstep : forall d,
               BlockSpaceManagerV1.on_allocator d (UncachedBlockAllocator.free x "normal") m
               = (Returns tt, m1)).
    { intros d. rewrite free_gives_up_one by lia.
      destruct (Z.eqb_spec (ref_count_of m x - 1) 0); [lia |].
      by rewrite app_nil_r, with_free_blocks_set_heap. }
    assert (Hcount1 : forall b, ref_count_of m1 b
                                = ref_count_of m b - (if decide (b = x) then 1 else 0)).
    { intros b. unfold m1, ref_count_of. cbn [BlockSpaceManagerV1.heap BlockSpaceManagerV1.set_heap].
      destruct (decide (b = x)) as [-> | Hne].
      - by rewrite ref_count_write_same.
      - rewrite ref_count_write_other by done. lia. }
    destruct (IH m1 Hnd) as (h' & Hrun & Hcount).
    { intros b Hb. rewrite Hcount1. rewrite decide_False; [| by intros ->].
      assert (2 <= ref_count_of m b) by (apply Hrc; by right). lia. }
    exists h'. split.
    + cbn [for_each]. unfold bind at 1.
      destruct (decide (block_device x = GPU)); rewrite Hstep; exact Hrun.
    + intros b. rewrite Hcount, Hcount1.
      destruct (decide (b = x)) as [-> | Hne].
      * rewrite (decide_False (P := x ∈ l)) by done.
        rewrite (decide_True (P := x ∈ x :: l)) by left. lia.
      * destruct (decide (b ∈ l)) as [Hin | Hout].
        -- rewrite (decide_True (P := b ∈ x :: l)) by (by right). lia.
        -- rewrite (decide_False (P := b ∈ x :: l)); [lia |].
           by intros [? | ?]%elem_of_cons.
Qed.

(** X11.  Without a sliding window, [fork] gives the child the parent's table
    and one more reference to each of its blocks; [free] of the child then
    takes them back: the reference counts and both allocators are as before
    the fork, and the child has no table. *)
Theorem fork_then_free (parent_seq child_seq : Sequence.t) (m : BlockSpaceManagerV1.t)
    (src_block_table : list block_id) :
  BlockSpaceManagerV1.block_sliding_window m = None ->
  Sequence.get_seq_type child_seq = NORMAL ->
  BlockSpaceManagerV1.block_tables m !! Sequence.seq_id parent_seq = Some src_block_table ->
  (forall b, b ∈ src_block_table -> 1 <= ref_count_of m b) ->
  exists m1 m2,
    BlockSpaceManagerV1.fork parent_seq child_seq m = (Returns tt, m1)
    /\ BlockSpaceManagerV1.block_tables m1 !! Sequence.seq_id child_seq = Some src_block_table
    /\ (forall b, ref_count_of m1 b
                  = ref_count_of m b + (if decide (b ∈ src_block_table) then 1 else 0))
    /\ BlockSpaceManagerV1.free child_seq m1 = (Returns tt, m2)
    /\ BlockSpaceManagerV1.block_tables m2
       = delete (Sequence.seq_id child_seq) (BlockSpaceManagerV1.block_tables m)
    /\ (forall b, ref_count_of m2 b = ref_count_of m b)
    /\ (forall d, BlockSpaceManagerV1.allocator d m2 = BlockSpaceManagerV1.allocator d m).
Proof.
  intros Hwindow Htype Hparent Hrc.
  set (bt1 := <[Sequence.seq_id child_seq := src_block_table]>
                (BlockSpaceManagerV1.block_tables m)).
  destruct (fork_loop (remove_dups src_block_table)
              (BlockSpaceManagerV1.set_block_tables bt1 m) (NoDup_remove_dups _))
    as (h1 & Hfork & Hcount1).
  set (m1 := BlockSpaceManagerV1.set_heap h1 (BlockSpaceManagerV1.set_block_tables bt1 m)).
  assert (Hcount1' : forall b, ref_count_of m1 b
                       = ref_count_of m b + (if decide (b ∈ src_block_table) then 1 else 0)).
  { intros b. unfold ref_count_of at 1. cbn [m1 BlockSpaceManagerV1.heap BlockSpaceManagerV1.set_heap].
    rewrite Hcount1.
    destruct (decide (b ∈ src_block_table)) as [Hin | Hout];
      [rewrite (decide_True (P := b ∈ remove_dups src_block_table))
         by (by rewrite elem_of_remove_dups)
      | rewrite (decide_False (P := b ∈ remove_dups src_block_table))
         by (by rewrite elem_of_remove_dups)];
      reflexivity. }
  destruct (free_loop_shared (remove_dups src_block_table) m1 (NoDup_remove_dups _))
    as (h2 & Hfree & Hcount2).
  { intros b Hb. rewrite Hcount1'. rewrite elem_of_remove_dups in Hb.
    rewrite decide_True by done. specialize (Hrc b Hb). lia. }
  exists m1, (BlockSpaceManagerV1.set_block_tables
                (delete (Sequence.seq_id child_seq) bt1)
                (BlockSpaceManagerV1.set_heap h2 m1)).
  split; [| split; [| split; [| split; [| split; [| split]]]]].
  - unfold BlockSpaceManagerV1.fork. unfold bind at 1, get at 1. rewrite Hparent.
    unfold bind at 1, modify at 1. exact Hfork.
  - apply lookup_insert_eq.
  - exact Hcount1'.
  - unfold BlockSpaceManagerV1.free. rewrite Htype. unfold bind at 1, get at 1.
    cbn [BlockSpaceManagerV1.tables_of BlockSpaceManagerV1.block_type_of].
    change (BlockSpaceManagerV1.block_tables m1) with bt1.
    unfold bt1 at 1. rewrite lookup_insert_eq.
    unfold BlockSpaceManagerV1._free_block_table.
    unfold bind at 1. unfold bind at 1, get at 1.
    change (BlockSpaceManagerV1.block_sliding_window m1)
      with (BlockSpaceManagerV1.block_sliding_window m).
    rewrite Hwindow, Hfree. reflexivity.
  - cbn. unfold bt1. apply delete_insert_eq.
  - intros b. unfold ref_count_of at 1.
    cbn [BlockSpaceManagerV1.heap BlockSpaceManagerV1.set_heap BlockSpaceManagerV1.set_block_tables].
    rewrite Hcount2, Hcount1'.
    destruct (decide (b ∈ src_block_table)) as [Hin | Hout];
      [rewrite (decide_True (P := b ∈ remove_dups src_block_table))
         by (by rewrite elem_of_remove_dups)
      | rewrite (decide_False (P := b ∈ remove_dups src_block_table))
         by (by rewrite elem_of_remove_dups)]; lia.
  - by intros [].
Qed.

Lemma fork_then_free_witness :
  let m := allocated_manager 4 4 None 20 in
  let parent_seq := Sequence.new 0 (repeat 7 20) 16 in
  let child_seq := Sequence.new 1 (repeat 7 20) 16 in
  exists m1 m2,
    BlockSpaceManagerV1.fork parent_seq child_seq m = (Returns tt, m1)
    /\ BlockSpaceManagerV1.free child_seq m1 = (Returns tt, m2)
    /\ BlockSpaceManagerV1.block_tables m2 = BlockSpaceManagerV1.block_tables m
    /\ ref_count_of m1 (GPU, 3) = 2
    /\ ref_count_of m2 (GPU, 3) = 1.
Proof.
  intros m parent_seq child_seq.
  destruct (fork_then_free parent_seq child_seq m [(GPU, 3); (GPU, 2)])
    as (m1 & m2 & Hfork & _ & Hc1 & Hfree & Htables & Hc2 & _).
  - reflexivity.
  - reflexivity.
  - by_evaluation.
  - intros b Hb. unfold ref_count_of.
    apply elem_of_cons in Hb as [-> | Hb]; [vm_compute; discriminate |].
    apply list_elem_of_singleton in Hb as ->. vm_compute; discriminate.
  - exists m1, m2. split; [exact Hfork |]. split; [exact Hfree |].
    split; [| split].
    + rewrite Htables. by_evaluation.
    + rewrite Hc1. vm_compute. reflexivity.
    + rewrite Hc2. vm_compute. reflexivity.
Defined.

(** A loop keeps what each run of its body keeps. *)
Lemma for_each_keeps {S A B} (field : S -> B) (body : A -> Py S unit) :
  (forall x s, field (snd (body x s)) = field s) ->
  forall l s, field (snd (for_each l body s)) = field s.
Proof.
  intros Hbody. induction l as [| x l IH]; intros s; [done |].
  cbn [for_each]. unfold bind. specialize (Hbody x s).
  destruct (body x s) as [[[] | e] s1]; cbn [snd] in *; [| done].
  by rewrite IH.
Qed.

(** The loop of [_free_block_table] writes the allocators and the heap only. *)
Lemma free_loop_frame (block_type : string) (l : list block_id) (m : BlockSpaceManagerV1.t) :
  let m' := snd (for_each l
                   (fun block =>
                      if decide (block_device block = GPU)
                      then BlockSpaceManagerV1.on_allocator GPU
                             (UncachedBlockAllocator.free block block_type)
                      else BlockSpaceManagerV1.on_allocator CPU
                             (UncachedBlockAllocator.free block "normal")) m) in
  BlockSpaceManagerV1.block_tables m' = BlockSpaceManagerV1.block_tables m
  /\ BlockSpaceManagerV1.shared_block_tables m' = BlockSpaceManagerV1.shared_block_tables m
  /\ BlockSpaceManagerV1.cross_block_tables m' = BlockSpaceManagerV1.cross_block_tables m.
Proof.
  cbv zeta. split; [| split].
  all: apply (for_each_keeps (S := BlockSpaceManagerV1.t)); intros x s;
    unfold BlockSpaceManagerV1.on_allocator;
    destruct (decide (block_device x = GPU));
    destruct (UncachedBlockAllocator.free _ _ _) as [o [a h]]; done.
Qed.

Lemma free_block_table_frame (block_table : list block_id) (block_type : string)
    (m : BlockSpaceManagerV1.t) :
  let m' := snd (BlockSpaceManagerV1._free_block_table block_table block_type m) in
  BlockSpaceManagerV1.block_tables m' = BlockSpaceManagerV1.block_tables m
  /\ BlockSpaceManagerV1.shared_block_tables m' = BlockSpaceManagerV1.shared_block_tables m
  /\ BlockSpaceManagerV1.cross_block_tables m' = BlockSpaceManagerV1.cross_block_tables m.
Proof. apply free_loop_frame. Qed.

(** X12.  A sequence that [free] has freed has no table, so a second [free]
    returns at once and changes nothing; so does [free] of a sequence that
    has no table. *)
Theorem free_twice (seq : Sequence.t) (m : BlockSpaceManagerV1.t) :
  let ty := Sequence.get_seq_type seq in
  (BlockSpaceManagerV1.tables_of ty m !! Sequence.seq_id seq = None ->
   BlockSpaceManagerV1.free seq m = (Returns tt, m))
  /\ (forall m',
        BlockSpaceManagerV1.free seq m = (Returns tt, m') ->
        BlockSpaceManagerV1.tables_of ty m' !! Sequence.seq_id seq = None
        /\ BlockSpaceManagerV1.free seq m' = (Returns tt, m')
        /\ (forall other, other <> Sequence.seq_id seq ->
              BlockSpaceManagerV1.tables_of ty m' !! other
              = BlockSpaceManagerV1.tables_of ty m !! other)).
Proof.
  intros ty.
  assert (Hnone : forall m0, BlockSpaceManagerV1.tables_of ty m0 !! Sequence.seq_id seq = None ->
                             BlockSpaceManagerV1.free seq m0 = (Returns tt, m0)).
  { intros m0 H0. unfold BlockSpaceManagerV1.free. unfold bind, get. fold ty. by rewrite H0. }
  split; [apply Hnone |].
  intros m' Hfree.
  assert (Hgone : BlockSpaceManagerV1.tables_of ty m' !! Sequence.seq_id seq = None
                  /\ forall other, other <> Sequence.seq_id seq ->
                       BlockSpaceManagerV1.tables_of ty m' !! other
                       = BlockSpaceManagerV1.tables_of ty m !! other).
  { revert Hfree. unfold BlockSpaceManagerV1.free. unfold bind at 1, get at 1. fold ty.
    destruct (BlockSpaceManagerV1.tables_of ty m !! Sequence.seq_id seq) as [T |] eqn:HT.
    - unfold bind at 1.
      pose proof (free_block_table_frame T (BlockSpaceManagerV1.block_type_of ty) m) as Hframe.
      destruct (BlockSpaceManagerV1._free_block_table T _ m) as [[[] | e] m1];
        cbn [snd] in Hframe; [| discriminate].
      unfold modify. intros [= <-].
      destruct Hframe as (H1 & H2 & _).
      destruct ty; cbn; rewrite ?H1, ?H2.
      + split; [apply lookup_delete_eq |]. intros other Hne. by apply lookup_delete_ne.
      + split; [apply lookup_delete_eq |]. intros other Hne. by apply lookup_delete_ne.
    - intros [= <-]. by split. }
  destruct Hgone as [Hgone Hothers].
  split; [exact Hgone |]. split; [by apply Hnone | exact Hothers].
Qed.

Lemma free_twice_witness :
  let m := allocated_manager 4 4 None 20 in
  let seq := Sequence.new 0 (repeat 7 20) 16 in
  let m' := snd (BlockSpaceManagerV1.free seq m) in
  BlockSpaceManagerV1.get_num_free_gpu_blocks m = 2
  /\ BlockSpaceManagerV1.get_num_free_gpu_blocks m' = 4
  /\ BlockSpaceManagerV1.free seq m' = (Returns tt, m').
Proof.
  intros m seq m'. split; [reflexivity |]. split; [reflexivity |].
  apply (proj2 (free_twice seq m) m').
  assert (Hreturns : fst (BlockSpaceManagerV1.free seq m) = Returns tt) by (vm_compute; reflexivity).
  unfold m'. destruct (BlockSpaceManagerV1.free seq m) as [o s]. cbn in *. by subst.
Defined.

(** ** SkipJoinMLFQ.get_highest_priority *)

Lemma highest_priority_loop_exits (ratio t : Z) (fuel : nat) :
  2 <= ratio ->
  forall level quantum : Z,
    1 <= quantum ->
    (0 < fuel)%nat ->
    t - quantum + 1 < Z.of_nat fuel ->
    exists j : nat,
      Policy.highest_priority_loop fuel level quantum t ratio = Some (level + Z.of_nat j)
      /\ t < quantum * ratio ^ Z.of_nat j
      /\ ((0 < j)%nat -> quantum * ratio ^ (Z.of_nat j - 1) <= t).
Proof.
  intros Hratio. induction fuel as [| fuel IH]; intros level quantum Hq Hfuel Hroom; [lia |].
  cbn [Policy.highest_priority_loop].
  destruct (Z.leb_spec quantum t) as [Hle | Hgt].
  - destruct (IH (level + 1) (quantum * ratio)) as (j & Hrun & Hup & Hlow); [nia | lia | nia |].
    exists (S j). split; [rewrite Hrun; f_equal; lia |]. split.
    + rewrite Nat2Z.inj_succ, Z.pow_succ_r by lia. lia.
    + intros _. replace (Z.of_nat (S j) - 1) with (Z.of_nat j) by lia.
      destruct j as [| j]; [rewrite Z.pow_0_r; lia |].
      specialize (Hlow ltac:(lia)).
      replace (Z.of_nat (S j)) with (Z.succ (Z.of_nat (S j) - 1)) by lia.
      rewrite Z.pow_succ_r by lia. lia.
  - exists 0%nat. split; [f_equal; lia |]. split; [rewrite Z.pow_0_r; lia | lia].
Qed.

(** X13.  For a quantum ratio of 2 or more and a positive first quantum,
    [get_highest_priority] returns: the loop exits, with the first level [k]
    (from 1) whose quantum [min_quantum * ratio ^ (k - 1)] exceeds the time
    given.  More turns than the model allows change nothing. *)
Theorem get_highest_priority_returns (p : Policy.SkipJoinMLFQ_params) (t : Z) :
  2 <= Policy.quantum_ratio p ->
  1 <= Policy.min_quantum p ->
  exists k : Z,
    Policy.get_highest_priority p t = Some k
    /\ 1 <= k
    /\ t < Policy.min_quantum p * Policy.quantum_ratio p ^ (k - 1)
    /\ (1 < k -> Policy.min_quantum p * Policy.quantum_ratio p ^ (k - 2) <= t)
    /\ (forall more : nat,
          Policy.highest_priority_loop (S (Z.to_nat t) + more) 1 (Policy.min_quantum p) t
            (Policy.quantum_ratio p) = Some k).
Proof.
  intros Hratio Hq.
  destruct (highest_priority_loop_exits (Policy.quantum_ratio p) t (S (Z.to_nat t)) Hratio
              1 (Policy.min_quantum p)) as (j & Hrun & Hup & Hlow); [lia | lia | lia |].
  exists (1 + Z.of_nat j). split; [exact Hrun |]. split; [lia |].
  replace (1 + Z.of_nat j - 1) with (Z.of_nat j) by lia.
  replace (1 + Z.of_nat j - 2) with (Z.of_nat j - 1) by lia.
  split; [exact Hup |]. split; [intros Hk; apply Hlow; lia |].
  intros more.
  destruct (highest_priority_loop_exits (Policy.quantum_ratio p) t (S (Z.to_nat t) + more) Hratio
              1 (Policy.min_quantum p)) as (j' & Hrun' & Hup' & Hlow'); [lia | lia | lia |].
  rewrite Hrun'. f_equal. f_equal.
  destruct (Z.lt_trichotomy (Z.of_nat j) (Z.of_nat j')) as [Hlt | [Heq | Hgt]]; [| done |].
  - specialize (Hlow' ltac:(lia)).
    assert (Policy.quantum_ratio p ^ Z.of_nat j <= Policy.quantum_ratio p ^ (Z.of_nat j' - 1))
      by (apply Z.pow_le_mono_r; lia).
    nia.
  - specialize (Hlow ltac:(lia)).
    assert (Policy.quantum_ratio p ^ Z.of_nat j' <= Policy.quantum_ratio p ^ (Z.of_nat j - 1))
      by (apply Z.pow_le_mono_r; lia).
    nia.
Qed.

Lemma get_highest_priority_returns_witness :
  Policy.get_highest_priority (Policy.SkipJoinMLFQ_new 2) 100 = Some 7
  /\ exists k : Z,
       Policy.get_highest_priority (Policy.SkipJoinMLFQ_new 2) 100 = Some k
       /\ 100 < 2 * 2 ^ (k - 1).
Proof.
  split; [reflexivity |].
  destruct (get_highest_priority_returns (Policy.SkipJoinMLFQ_new 2) 100)
    as (k & Hrun & _ & Hup & _); [cbn; lia | cbn; lia |].
  exists k. split; [exact Hrun | exact Hup].
Defined.

(** ** Scheduler.min_numbers_sum_at_least and max_numbers_sum_at_most *)

Lemma accumulate_from_length (numbers : list Z) :
  forall total, length (Scheduler.accumulate_from total numbers) = length numbers.
Proof.
  induction numbers as [| x rest IH]; intros total; [done |].
  cbn [Scheduler.accumulate_from length]. by rewrite IH.
Qed.

Lemma accumulate_from_lookup (numbers : list Z) :
  forall (total : Z) (i : nat),
    (i < length numbers)%nat ->
    Scheduler.accumulate_from total numbers !! i = Some (total + sum_first (S i) numbers).
Proof.
  induction numbers as [| x rest IH]; intros total i Hi; [cbn in Hi; lia |].
  cbn [Scheduler.accumulate_from]. destruct i as [| i].
  - unfold sum_first. cbn. rewrite take_0. cbn. f_equal. lia.
  - cbn [length] in Hi. rewrite lookup_cons_ne_0 by done. cbn [pred].
    rewrite IH by lia. unfold sum_first. cbn. f_equal. lia.
Qed.

Lemma accumulate_lookup (numbers : list Z) (i : nat) (v : Z) :
  Scheduler.accumulate numbers !! i = Some v ->
  (i < length numbers)%nat /\ v = sum_first (S i) numbers.
Proof.
  intros Hv. pose proof (lookup_lt_Some _ _ _ Hv) as Hi.
  unfold Scheduler.accumulate in *. rewrite accumulate_from_length in Hi.
  rewrite accumulate_from_lookup in Hv by done. split; [done |].
  injection Hv as <-. lia.
Qed.

Lemma sum_first_nonneg (numbers : list Z) :
  Forall (fun x => 0 <= x) numbers -> forall k, 0 <= sum_first k numbers.
Proof.
  unfold sum_first. induction 1 as [| x rest Hx _ IH]; intros k; [by rewrite take_nil |].
  destruct k as [| k]; cbn; [lia |]. specialize (IH k). lia.
Qed.

Lemma sum_first_mono (numbers : list Z) :
  Forall (fun x => 0 <= x) numbers ->
  forall j k, (j <= k)%nat -> sum_first j numbers <= sum_first k numbers.
Proof.
  intros Hnn. induction Hnn as [| x rest Hx Hrest IH]; intros j k Hjk.
  - unfold sum_first. by rewrite !take_nil.
  - destruct j as [| j]; destruct k as [| k]; try lia.
    + pose proof (sum_first_nonneg rest Hrest k) as Hk. unfold sum_first in *. cbn. lia.
    + specialize (IH j k ltac:(lia)). unfold sum_first in *. cbn. lia.
Qed.

(** The binary search on a list that [go_right] splits in two: it returns the
    length of the part on which the test holds. *)
Lemma bisect_loop_finds (go_right : Z -> bool) (a : list Z) :
  (forall i j v w, (i <= j)%nat -> a !! i = Some v -> a !! j = Some w ->
                   go_right w = true -> go_right v = true) ->
  forall turns lo hi : nat,
    (lo <= hi <= length a)%nat ->
    (hi - lo <= turns)%nat ->
    (forall i v, (i < lo)%nat -> a !! i = Some v -> go_right v = true) ->
    (forall i v, (hi <= i)%nat -> a !! i = Some v -> go_right v = false) ->
    exists r : nat,
      Scheduler.bisect_loop go_right a turns lo hi = Returns r
      /\ (r <= length a)%nat
      /\ (forall i v, (i < r)%nat -> a !! i = Some v -> go_right v = true)
      /\ (forall i v, (r <= i)%nat -> a !! i = Some v -> go_right v = false).
Proof.
  intros Hmono. induction turns as [| turns IH]; intros lo hi Hle Hsize Hlow Hhigh.
  - exists lo. cbn [Scheduler.bisect_loop].
    destruct (Nat.ltb_spec lo hi); [lia |].
    split; [done |]. split; [lia |]. split; [done |].
    intros i v Hi. apply Hhigh. lia.
  - cbn [Scheduler.bisect_loop].
    destruct (Nat.ltb_spec lo hi) as [Hlt | Hge].
    + set (mid := ((lo + hi) / 2)%nat).
      assert (Hmid : (lo <= mid < hi)%nat).
      { pose proof (Nat.div_mod_eq (lo + hi) 2) as Hdiv.
        pose proof (Nat.mod_upper_bound (lo + hi) 2 ltac:(lia)) as Hmod.
        fold mid in Hdiv. lia. }
      destruct (lookup_lt_is_Some_2 a mid) as [v Hv]; [lia |].
      rewrite Hv.
      destruct (go_right v) eqn:Hgo.
      * apply IH; [lia | lia | | done].
        intros i w Hi Hw. apply (Hmono i mid w v); [lia | done | done | done].
      * apply IH; [lia | lia | done |].
        intros i w Hi Hw. destruct (go_right w) eqn:Hgw; [| done].
        pose proof (Hmono mid i v w ltac:(lia) Hv Hw Hgw). congruence.
    + exists lo. split; [done |]. split; [lia |]. split; [done |].
      intros i v Hi. apply Hhigh. lia.
Qed.

(** X14.  For numbers that are not negative, [min_numbers_sum_at_least]
    returns the least count [k >= 1] of leading numbers whose sum reaches
    [target], and -1 when the sum of no such prefix does (so also for an
    empty list).  For a [target] of zero or less it returns 1, not 0. *)
Theorem min_numbers_sum_at_least_least (numbers : list Z) (target : Z) :
  Forall (fun x => 0 <= x) numbers ->
  (exists k : nat,
     Scheduler.min_numbers_sum_at_least numbers target = Returns (Z.of_nat k)
     /\ (1 <= k <= length numbers)%nat
     /\ target <= sum_first k numbers
     /\ forall j : nat, (1 <= j < k)%nat -> sum_first j numbers < target)
  \/ (Scheduler.min_numbers_sum_at_least numbers target = Returns (-1)
      /\ forall j : nat, (1 <= j <= length numbers)%nat -> sum_first j numbers < target).
Proof.
  intros Hnn.
  set (a := Scheduler.accumulate numbers).
  assert (Hlen : length a = length numbers) by apply accumulate_from_length.
  assert (Hat : forall i, (i < length numbers)%nat -> a !! i = Some (sum_first (S i) numbers)).
  { intros i Hi. unfold a, Scheduler.accumulate. rewrite accumulate_from_lookup by done.
    f_equal; lia. }
  destruct (bisect_loop_finds (fun v => v <? target) a) with (turns := length a)
    (lo := 0%nat) (hi := length a) as (r & Hrun & Hr & Hlow & Hhigh).
  { intros i j v w Hij Hv Hw Hgo.
    apply accumulate_lookup in Hv as [_ ->]. apply accumulate_lookup in Hw as [_ ->].
    apply Z.ltb_lt in Hgo. apply Z.ltb_lt.
    pose proof (sum_first_mono numbers Hnn (S i) (S j) ltac:(lia)). lia. }
  { lia. }
  { lia. }
  { intros i v Hi. lia. }
  { intros i v Hi Hv. apply lookup_lt_Some in Hv. lia. }
  unfold Scheduler.min_numbers_sum_at_least, Scheduler.bisect_left. fold a. rewrite Hrun.
  destruct (Nat.leb_spec (length a) r) as [Hall | Hsome].
  - right. split; [done |]. intros j Hj.
    apply Z.ltb_lt. apply (Hlow (j - 1)%nat); [lia |].
    rewrite Hat by lia. do 2 f_equal. lia.
  - left. exists (S r). split; [f_equal; lia |]. split; [lia |]. split.
    + apply Z.ltb_ge. apply (Hhigh r); [lia |]. apply Hat. lia.
    + intros j Hj. apply Z.ltb_lt. apply (Hlow (j - 1)%nat); [lia |].
      rewrite Hat by lia. do 2 f_equal. lia.
Qed.

Lemma min_numbers_sum_at_least_least_witness :
  Scheduler.min_numbers_sum_at_least [3; 1; 4; 1; 5] 8 = Returns 3
  /\ Scheduler.min_numbers_sum_at_least [3; 1; 4; 1; 5] 0 = Returns 1
  /\ Scheduler.min_numbers_sum_at_least [3; 1; 4; 1; 5] 15 = Returns (-1)
  /\ ((exists k : nat,
         Scheduler.min_numbers_sum_at_least [3; 1; 4; 1; 5] 8 = Returns (Z.of_nat k)
         /\ (1 <= k <= length [3; 1; 4; 1; 5])%nat
         /\ 8 <= sum_first k [3; 1; 4; 1; 5]
         /\ forall j : nat, (1 <= j < k)%nat -> sum_first j [3; 1; 4; 1; 5] < 8)
      \/ (Scheduler.min_numbers_sum_at_least [3; 1; 4; 1; 5] 8 = Returns (-1)
          /\ forall j : nat, (1 <= j <= length [3; 1; 4; 1; 5])%nat ->
                             sum_first j [3; 1; 4; 1; 5] < 8)).
Proof.
  split; [reflexivity |]. split; [reflexivity |]. split; [reflexivity |].
  apply (min_numbers_sum_at_least_least [3; 1; 4; 1; 5] 8).
  repeat (apply Forall_cons_2; [lia |]). apply Forall_nil_2.
Defined.

(** X15.  For numbers that are not negative, [max_numbers_sum_at_most]
    returns the greatest count [k] of leading numbers whose sum stays within
    [target], provided that is not all of them: when every prefix fits (so
    also for an empty list) it returns -1. *)
Theorem max_numbers_sum_at_most_count (numbers : list Z) (target : Z) :
  Forall (fun x => 0 <= x) numbers ->
  (exists k : nat,
     Scheduler.max_numbers_sum_at_most numbers target = Returns (Z.of_nat k)
     /\ (k < length numbers)%nat
     /\ (forall j : nat, (1 <= j <= k)%nat -> sum_first j numbers <= target)
     /\ target < sum_first (S k) numbers)
  \/ (Scheduler.max_numbers_sum_at_most numbers target = Returns (-1)
      /\ forall j : nat, (1 <= j <= length numbers)%nat -> sum_first j numbers <= target).
Proof.
  intros Hnn.
  set (a := Scheduler.accumulate numbers).
  assert (Hlen : length a = length numbers) by apply accumulate_from_length.
  assert (Hat : forall i, (i < length numbers)%nat -> a !! i = Some (sum_first (S i) numbers)).
  { intros i Hi. unfold a, Scheduler.accumulate. rewrite accumulate_from_lookup by done.
    f_equal; lia. }
  destruct (bisect_loop_finds (fun v => negb (target <? v)) a) with (turns := length a)
    (lo := 0%nat) (hi := length a) as (r & Hrun & Hr & Hlow & Hhigh).
  { intros i j v w Hij Hv Hw Hgo.
    apply accumulate_lookup in Hv as [_ ->]. apply accumulate_lookup in Hw as [_ ->].
    apply negb_true_iff, Z.ltb_ge in Hgo. apply negb_true_iff, Z.ltb_ge.
    pose proof (sum_first_mono numbers Hnn (S i) (S j) ltac:(lia)). lia. }
  { lia. }
  { lia. }
  { intros i v Hi. lia. }
  { intros i v Hi Hv. apply lookup_lt_Some in Hv. lia. }
  unfold Scheduler.max_numbers_sum_at_most, Scheduler.bisect_right. fold a. rewrite Hrun.
  destruct (Nat.leb_spec (length a) r) as [Hall | Hsome].
  - right. split; [done |]. intros j Hj.
    apply Z.ltb_ge. apply negb_true_iff. apply (Hlow (j - 1)%nat); [lia |].
    rewrite Hat by lia. do 2 f_equal. lia.
  - left. exists r. split; [done |]. split; [lia |]. split.
    + intros j Hj. apply Z.ltb_ge. apply negb_true_iff. apply (Hlow (j - 1)%nat); [lia |].
      rewrite Hat by lia. do 2 f_equal. lia.
    + apply Z.ltb_lt. apply negb_false_iff. apply (Hhigh r); [lia |]. apply Hat. lia.
Qed.

Lemma max_numbers_sum_at_most_count_witness :
  Scheduler.max_numbers_sum_at_most [3; 1; 4; 1; 5] 8 = Returns 3
  /\ Scheduler.max_numbers_sum_at_most [3; 1; 4; 1; 5] 14 = Returns (-1)
  /\ ((exists k : nat,
         Scheduler.max_numbers_sum_at_most [3; 1; 4; 1; 5] 8 = Returns (Z.of_nat k)
         /\ (k < length [3; 1; 4; 1; 5])%nat
         /\ (forall j : nat, (1 <= j <= k)%nat -> sum_first j [3; 1; 4; 1; 5] <= 8)
         /\ 8 < sum_first (S k) [3; 1; 4; 1; 5])
      \/ (Scheduler.max_numbers_sum_at_most [3; 1; 4; 1; 5] 8 = Returns (-1)
          /\ forall j : nat, (1 <= j <= length [3; 1; 4; 1; 5])%nat ->
                             sum_first j [3; 1; 4; 1; 5] <= 8)).
Proof.
  split; [reflexivity |]. split; [reflexivity |].
  apply (max_numbers_sum_at_most_count [3; 1; 4; 1; 5] 8).
  repeat (apply Forall_cons_2; [lia |]). apply Forall_nil_2.
Defined.

(** ** Scheduler._get_num_new_tokens *)

Lemma new_tokens_of_decoding (seqs : list Sequence.t) :
  Forall (fun seq => SequenceData.stage (Sequence.data seq) = DECODE) seqs ->
  forall acc,
    fold_left (fun n seq => n + Sequence.get_num_new_tokens seq) seqs acc
    = acc + Z.of_nat (length seqs).
Proof.
  induction 1 as [| s rest Hs _ IH]; intros acc; cbn [fold_left length]; [lia |].
  rewrite IH. unfold Sequence.get_num_new_tokens. rewrite decide_True by done. lia.
Qed.

(** X16.  [_get_num_new_tokens]: with no sequence in the status asked for
    the assertion fails; with chunking and one such sequence the number
    returned fits the token budget left, so that [can_schedule] then depends
    on the sequence count alone; and when the sequences are decoding (and
    chunking does not apply) the number is their count. *)
Theorem get_num_new_tokens_fits_budget (seq_group : SequenceGroup.t) (status : SequenceStatus)
    (enable_chunking : bool) (budget : SchedulingBudget.t) :
  let seqs :=
    if decide (status = SWAPPED)
    then SequenceGroup.get_seqs (Some status) seq_group
         ++ SequenceGroup.get_seqs (Some PARTIAL_SWAPPED) seq_group
    else SequenceGroup.get_seqs (Some status) seq_group in
  let result := Scheduler._get_num_new_tokens seq_group status enable_chunking budget in
  (seqs = [] -> result = Raises AssertionError)
  /\ (forall n,
        result = Returns n -> enable_chunking = true -> length seqs = 1%nat ->
        n <= SchedulingBudget.remaining_token_budget budget
        /\ forall num_new_seqs,
             SchedulingBudget.can_schedule budget n num_new_seqs
             = (SchedulingBudget.num_curr_seqs budget + num_new_seqs
                <=? SchedulingBudget.max_num_seqs budget))
  /\ (Forall (fun seq => SequenceData.stage (Sequence.data seq) = DECODE) seqs ->
      seqs <> [] ->
      enable_chunking = false \/ length seqs <> 1%nat ->
      result = Returns (Z.of_nat (length seqs))).
Proof.
  intros seqs result.
  set (total := fold_left (fun n seq => n + Sequence.get_num_new_tokens seq) seqs 0).
  assert (Hresult :
            result
            = if negb (total >? 0) then Raises AssertionError
              else if enable_chunking && (length seqs =? 1)%nat
                   then Returns (Z.min total (SchedulingBudget.remaining_token_budget budget))
                   else Returns total) by reflexivity.
  clearbody result. subst result.
  split; [| split].
  - intros Hnil. unfold total. by rewrite Hnil.
  - intros n Hn Hchunk Hone. rewrite Hchunk, Hone in Hn.
    destruct (total >? 0); cbn in Hn; [| discriminate]. injection Hn as <-.
    split; [lia |]. intros num_new_seqs.
    unfold SchedulingBudget.can_schedule, SchedulingBudget.remaining_token_budget.
    destruct (Z.leb_spec
                (SchedulingBudget.num_batched_tokens budget
                 + Z.min total (SchedulingBudget.token_budget budget
                                - SchedulingBudget.num_batched_tokens budget))
                (SchedulingBudget.token_budget budget)); [done | lia].
  - intros Hdecode Hne Hcase.
    assert (Htotal : total = Z.of_nat (length seqs)).
    { unfold total. rewrite new_tokens_of_decoding by done. lia. }
    rewrite Htotal.
    assert (Hpos : (Z.of_nat (length seqs) >? 0) = true).
    { destruct seqs; [done |]. cbn [length]. apply Z.gtb_lt. lia. }
    rewrite Hpos. cbn [negb].
    destruct Hcase as [-> | Hlen]; [done |].
    apply Nat.eqb_neq in Hlen. by rewrite Hlen, andb_false_r.
Qed.

(** ** Computed tokens: SequenceData, Sequence and SequenceGroup *)

(** X17.  After [reset_state_for_recompute] a sequence is a prefill again and
    its new tokens are its whole length, the output tokens included.  A
    chunk short of the length leaves it a prefill with the rest to compute;
    the whole length makes it a decode, with one new token; a chunk beyond
    the length fails the assertion, the counter already raised. *)
Theorem recompute_prefills_whole_sequence (s : Sequence.t) :
  let s0 := Sequence.reset_state_for_recompute s in
  let len := Sequence.get_len s in
  Sequence.is_prefill s0 = true
  /\ Sequence.get_num_new_tokens s0 = len
  /\ (forall chunk, chunk < len ->
        exists d,
          SequenceData.update_num_computed_tokens chunk (Sequence.data s0) = (Returns tt, d)
          /\ Sequence.is_prefill (Sequence.set_data d s0) = true
          /\ Sequence.get_num_new_tokens (Sequence.set_data d s0) = len - chunk)
  /\ (exists d,
        SequenceData.update_num_computed_tokens len (Sequence.data s0) = (Returns tt, d)
        /\ Sequence.is_prefill (Sequence.set_data d s0) = false
        /\ Sequence.get_num_new_tokens (Sequence.set_data d s0) = 1)
  /\ (forall chunk, len < chunk ->
        exists d,
          SequenceData.update_num_computed_tokens chunk (Sequence.data s0) = (Raises AssertionError, d)
          /\ SequenceData.get_num_computed_tokens d = chunk).
Proof.
  intros s0 len.
  destruct s as [id bs [prompt output computed stage] ty st p1 p2 sw w r dflt].
  unfold s0, len, Sequence.reset_state_for_recompute, Sequence.get_len,
    SequenceData.reset_state_for_recompute, Sequence.is_prefill, Sequence.get_num_new_tokens,
    SequenceData.update_num_computed_tokens, SequenceData.get_num_uncomputed_tokens,
    SequenceData.get_num_computed_tokens, SequenceData.stage, SequenceData.get_len.
  cbn [Sequence.data Sequence.set_data SequenceData._prompt_token_ids
       SequenceData._output_token_ids SequenceData._num_computed_tokens SequenceData._stage].
  set (n := Z.of_nat (length output) + Z.of_nat (length prompt)).
  split; [done |]. split; [rewrite decide_False by done; lia |].
  split; [| split].
  - intros chunk Hchunk.
    destruct (Z.leb_spec (0 + chunk) n); [| lia]. cbn [negb].
    destruct (Z.eqb_spec (n - (0 + chunk)) 0); [lia |].
    eexists. split; [reflexivity |]. cbn.
    split; [done |]. rewrite decide_False by done. lia.
  - destruct (Z.leb_spec (0 + n) n); [| lia]. cbn [negb].
    destruct (Z.eqb_spec (n - (0 + n)) 0); [| lia].
    eexists. split; [reflexivity |]. cbn. split; [done |]. by rewrite decide_True.
  - intros chunk Hchunk.
    destruct (Z.leb_spec (0 + chunk) n); [lia |]. cbn [negb].
    eexists. split; [reflexivity |]. cbn. lia.
Qed.

(** The sequence after [seq.data.update_num_computed_tokens(n)], where the
    group's loop reaches it. *)
Lemma update_one_returns (n : Z) (seq : Sequence.t) :
  SequenceData.get_num_computed_tokens (Sequence.data seq) + n <= Sequence.get_len seq ->
  exists d,
    SequenceData.update_num_computed_tokens n (Sequence.data seq) = (Returns tt, d)
    /\ SequenceData.get_num_uncomputed_tokens d
       = SequenceData.get_num_uncomputed_tokens (Sequence.data seq) - n
    /\ (SequenceData.get_num_uncomputed_tokens d = 0 -> SequenceData.stage d = DECODE).
Proof.
  destruct seq as [id bs [prompt output computed stage] ty st p1 p2 sw w r dflt].
  unfold Sequence.get_len, SequenceData.update_num_computed_tokens,
    SequenceData.get_num_uncomputed_tokens, SequenceData.get_num_computed_tokens,
    SequenceData.stage, SequenceData.get_len.
  cbn [Sequence.data SequenceData._prompt_token_ids
       SequenceData._output_token_ids SequenceData._num_computed_tokens SequenceData._stage].
  set (len := Z.of_nat (length output) + Z.of_nat (length prompt)).
  intros Hfits.
  destruct (Z.leb_spec (computed + n) len); [| lia]. cbn [negb].
  destruct (Z.eqb_spec (len - (computed + n)) 0).
  - eexists. split; [reflexivity |]. cbn. split; [lia | done].
  - eexists. split; [reflexivity |]. cbn. split; [lia | lia].
Qed.

Lemma update_seqs_computed_tokens_returns (n : Z) (seqs : list Sequence.t) :
  (forall seq, seq ∈ seqs -> Sequence.is_finished seq = false ->
     SequenceData.get_num_computed_tokens (Sequence.data seq) + n <= Sequence.get_len seq) ->
  exists seqs',
    SequenceGroup.update_seqs_computed_tokens n seqs = (Returns tt, seqs')
    /\ fold_right Z.add 0
         (map (fun s => SequenceData.get_num_uncomputed_tokens (Sequence.data s))
              (filter (fun s => Sequence.is_finished s = false) seqs'))
       = fold_right Z.add 0
           (map (fun s => SequenceData.get_num_uncomputed_tokens (Sequence.data s))
                (filter (fun s => Sequence.is_finished s = false) seqs))
         - n * Z.of_nat (length (filter (fun s => Sequence.is_finished s = false) seqs))
    /\ length (filter (fun s => Sequence.is_finished s = false) seqs')
       = length (filter (fun s => Sequence.is_finished s = false) seqs)
    /\ (Sequence.seq_id <$> seqs') = (Sequence.seq_id <$> seqs)
    /\ Forall (fun s => Sequence.is_finished s = false ->
                        SequenceData.get_num_uncomputed_tokens (Sequence.data s) = 0 ->
                        Sequence.is_prefill s = false) seqs'.
Proof.
  induction seqs as [| seq rest IH]; intros Hfits.
  - exists []. repeat split; try done. cbn. lia.
  - destruct IH as (rest' & Hrun & Hsum & Hcount & Hids & Hstage).
    { intros s Hs. apply Hfits. by right. }
    cbn [SequenceGroup.update_seqs_computed_tokens].
    destruct (Sequence.is_finished seq) eqn:Hfin.
    + rewrite Hrun. exists (seq :: rest').
      rewrite !(filter_cons_False (fun s => Sequence.is_finished s = false))
        by (by rewrite Hfin).
      split; [done |]. split; [done |]. split; [done |].
      split; [by rewrite !fmap_cons, Hids |].
      apply Forall_cons_2; [by rewrite Hfin | done].
    + destruct (update_one_returns n seq) as (d & Hone & Hless & Hdecode).
      { apply Hfits; [left | done]. }
      rewrite Hone, Hrun. exists (Sequence.set_data d seq :: rest').
      assert (Hfin' : Sequence.is_finished (Sequence.set_data d seq) = false)
        by (by destruct seq).
      rewrite !(filter_cons_True (fun s => Sequence.is_finished s = false)) by done.
      split; [done |]. split; [| split; [| split]].
      * cbn [map fold_right length]. rewrite Hsum.
        replace (Sequence.data (Sequence.set_data d seq)) with d by (by destruct seq).
        rewrite Hless. lia.
      * cbn [length]. by rewrite Hcount.
      * rewrite !fmap_cons, Hids. by destruct seq.
      * apply Forall_cons_2; [| done]. intros _.
        replace (Sequence.data (Sequence.set_data d seq)) with d by (by destruct seq).
        intros Hzero. unfold Sequence.is_prefill.
        replace (Sequence.data (Sequence.set_data d seq)) with d by (by destruct seq).
        rewrite (Hdecode Hzero). done.
Qed.

(** X18.  [SequenceGroup.update_num_computed_tokens(n)] returns when [n]
    more tokens fit each unfinished sequence; the group's uncomputed tokens
    then are [n] fewer for each unfinished sequence, the sequences and their
    number are the same, and an unfinished sequence with nothing left to
    compute is a decode. *)
Theorem group_update_num_computed_tokens (n : Z) (g : SequenceGroup.t) :
  (forall seq, seq ∈ SequenceGroup.get_unfinished_seqs g ->
     SequenceData.get_num_computed_tokens (Sequence.data seq) + n <= Sequence.get_len seq) ->
  exists g',
    SequenceGroup.update_num_computed_tokens n g = (Returns tt, g')
    /\ SequenceGroup.get_num_uncomputed_tokens g'
       = SequenceGroup.get_num_uncomputed_tokens g - n * SequenceGroup.num_unfinished_seqs g
    /\ SequenceGroup.num_unfinished_seqs g' = SequenceGroup.num_unfinished_seqs g
    /\ (Sequence.seq_id <$> SequenceGroup.seqs_dict g')
       = (Sequence.seq_id <$> SequenceGroup.seqs_dict g)
    /\ (forall seq', seq' ∈ SequenceGroup.get_unfinished_seqs g' ->
          SequenceData.get_num_uncomputed_tokens (Sequence.data seq') = 0 ->
          Sequence.is_prefill seq' = false).
Proof.
  intros Hfits.
  destruct (update_seqs_computed_tokens_returns n (SequenceGroup.seqs_dict g))
    as (seqs' & Hrun & Hsum & Hcount & Hids & Hstage).
  { intros seq Hseq Hunfinished. apply Hfits.
    unfold SequenceGroup.get_unfinished_seqs. by apply list_elem_of_filter. }
  exists (SequenceGroup.set_seqs seqs' g).
  unfold SequenceGroup.update_num_computed_tokens. rewrite Hrun.
  split; [done |].
  unfold SequenceGroup.get_num_uncomputed_tokens, SequenceGroup.num_unfinished_seqs,
    SequenceGroup.get_unfinished_seqs.
  cbn [SequenceGroup.seqs_dict SequenceGroup.set_seqs].
  split; [exact Hsum |]. split; [by rewrite Hcount |]. split; [exact Hids |].
  intros seq' [Hunfinished Hin]%list_elem_of_filter.
  rewrite Forall_forall in Hstage. by apply Hstage.
Qed.

Lemma group_update_num_computed_tokens_witness :
  let g := pair_group "r1" 20 16 in
  exists g',
    SequenceGroup.update_num_computed_tokens 8 g = (Returns tt, g')
    /\ SequenceGroup.get_num_uncomputed_tokens g'
       = SequenceGroup.get_num_uncomputed_tokens g - 8 * SequenceGroup.num_unfinished_seqs g.
Proof.
  intros g.
  destruct (group_update_num_computed_tokens 8 g) as (g' & Hrun & Hsum & _).
  - intros seq Hseq. revert seq Hseq. apply Forall_forall. by_evaluation.
  - exists g'. by split.
Defined.

(** ** BlockSpaceManagerV1.allocate *)

Lemma counted_ref_count (ref_count0 : Z) (taken : list block_id) :
  forall (h : Heap) (x : block_id),
    ref_count (block_at (counted ref_count0 taken h) x)
    = if decide (x ∈ taken) then ref_count0 else ref_count (block_at h x).
Proof.
  induction taken as [| b taken IH]; intros h x.
  - by rewrite decide_False by apply not_elem_of_nil.
  - cbn [counted]. rewrite IH.
    destruct (decide (x ∈ taken)) as [Hin | Hout].
    + by rewrite (decide_True (P := x ∈ b :: taken)) by (by right).
    + destruct (decide (x = b)) as [-> | Hne].
      * rewrite (decide_True (P := b ∈ b :: taken)) by left.
        by rewrite ref_count_write_same.
      * rewrite (decide_False (P := x ∈ b :: taken)) by (by intros [? | ?]%elem_of_cons).
        by rewrite !ref_count_write_other.
Qed.

(** Without a sliding window [_allocate_sequence] takes its blocks from the
    end of the free list, the last one first. *)
Lemma allocate_blocks_takes (ref_count0 : Z) (idxs : list Z) :
  forall (T taken rest : list block_id) (m : BlockSpaceManagerV1.t),
    BlockSpaceManagerV1.block_sliding_window m = None ->
    free_blocks_of GPU m = rest ++ reverse taken ->
    length taken = length idxs ->
    BlockSpaceManagerV1.allocate_blocks idxs ref_count0 false T m
    = (Returns (T ++ taken),
       with_free_blocks GPU rest (counted ref_count0 taken (BlockSpaceManagerV1.heap m)) m).
Proof.
  induction idxs as [| i idxs IH]; intros T taken rest m Hw Hfree Hlen.
  - destruct taken; [| done]. cbn [BlockSpaceManagerV1.allocate_blocks counted].
    rewrite reverse_nil, app_nil_r in Hfree. rewrite app_nil_r, <- Hfree.
    by rewrite with_free_blocks_same.
  - destruct taken as [| b taken]; [done |].
    rewrite reverse_cons, app_assoc in Hfree.
    cbn [BlockSpaceManagerV1.allocate_blocks]. unfold bind at 1, get at 1. rewrite Hw.
    unfold bind at 1. rewrite (allocate_takes_last GPU _ b m Hfree).
    unfold bind at 1, modify at 1.
    rewrite (IH (T ++ [b]) taken rest).
    + rewrite <- app_assoc. cbn [app counted].
      by destruct m as [? ? ? ? ? ? [] [] ? ? ? ? ?].
    + by destruct m.
    + by destruct m as [? ? ? ? ? ? [] [] ? ? ? ? ?].
    + cbn [length] in Hlen. lia.
Qed.

(** With fewer free blocks than asked for it runs out of memory. *)
Lemma allocate_blocks_out_of_memory (ref_count0 : Z) (idxs : list Z) :
  forall (T : list block_id) (m : BlockSpaceManagerV1.t),
    BlockSpaceManagerV1.block_sliding_window m = None ->
    (length (free_blocks_of GPU m) < length idxs)%nat ->
    fst (BlockSpaceManagerV1.allocate_blocks idxs ref_count0 false T m)
    = Raises (ValueError OutOfMemory).
Proof.
  induction idxs as [| i idxs IH]; intros T m Hw Hlen; [cbn in Hlen; lia |].
  cbn [BlockSpaceManagerV1.allocate_blocks]. unfold bind at 1, get at 1. rewrite Hw.
  unfold bind at 1.
  destruct (free_blocks_of GPU m) as [| x l] eqn:Hfree using rev_ind.
  - unfold BlockSpaceManagerV1.on_allocator, UncachedBlockAllocator.allocate.
    unfold free_blocks_of in Hfree. cbn in Hfree |- *. rewrite Hfree. reflexivity.
  - clear IHl. rewrite (allocate_takes_last GPU l x m Hfree).
    unfold bind at 1, modify at 1. apply IH.
    + by destruct m.
    + rewrite length_app in Hlen. cbn [length] in Hlen.
      replace (free_blocks_of GPU _) with l
        by (by destruct m as [? ? ? ? ? ? [] [] ? ? ? ? ?]).
      lia.
Qed.

(** The loop of [allocate] that gives every waiting sequence the table. *)
Lemma assign_tables (T : list block_id) (seqs : list Sequence.t) :
  forall m : BlockSpaceManagerV1.t,
    exists bt,
      for_each seqs
        (fun seq => BlockSpaceManagerV1.write_table NORMAL (Sequence.seq_id seq) T) m
      = (Returns tt, BlockSpaceManagerV1.set_block_tables bt m)
      /\ (forall s, s ∈ seqs -> bt !! Sequence.seq_id s = Some T)
      /\ (forall i, i ∉ (Sequence.seq_id <$> seqs) ->
            bt !! i = BlockSpaceManagerV1.block_tables m !! i).
Proof.
  induction seqs as [| seq seqs IH]; intros m.
  - exists (BlockSpaceManagerV1.block_tables m). split; [by destruct m |]. split; [| done].
    intros s Hs. by apply elem_of_nil in Hs.
  - cbn [for_each]. unfold bind at 1, BlockSpaceManagerV1.write_table at 1, modify at 1.
    cbn [BlockSpaceManagerV1.tables_of BlockSpaceManagerV1.set_tables_of].
    destruct (IH (BlockSpaceManagerV1.set_block_tables
                    (<[Sequence.seq_id seq := T]> (BlockSpaceManagerV1.block_tables m)) m))
      as (bt & Hrun & Hin & Hout).
    exists bt. split; [by rewrite Hrun |]. split.
    + intros s [-> | Hs]%elem_of_cons; [| by apply Hin].
      destruct (decide (Sequence.seq_id seq ∈ (Sequence.seq_id <$> seqs))) as [Hmem | Hnew].
      * apply list_elem_of_fmap in Hmem as (s' & Hid & Hs'). rewrite Hid. by apply Hin.
      * rewrite Hout by done. cbn. apply lookup_insert_eq.
    + intros i Hi. rewrite fmap_cons in Hi. apply not_elem_of_cons in Hi as [Hne Hi].
      rewrite Hout by done. cbn. by apply lookup_insert_ne.
Qed.

(** [allocate_encoder] with room for the encoder sequence: its blocks come
    from the end of the free list and make the cross table of the request. *)
Lemma allocate_encoder_takes (g : SequenceGroup.t) (enc : Sequence.t)
    (m : BlockSpaceManagerV1.t) :
  SequenceGroup.encoder_seq g = Some enc ->
  BlockSpaceManagerV1.block_sliding_window m = None ->
  (Z.to_nat (Sequence.n_blocks enc) <= length (free_blocks_of GPU m))%nat ->
  exists m' T,
    BlockSpaceManagerV1.allocate_encoder g m = (Returns tt, m')
    /\ length T = Z.to_nat (Sequence.n_blocks enc)
    /\ BlockSpaceManagerV1.cross_block_tables m' !! SequenceGroup.request_id g = Some T
    /\ free_blocks_of GPU m = free_blocks_of GPU m' ++ reverse T
    /\ BlockSpaceManagerV1.block_sliding_window m' = None.
Proof.
  intros Henc Hw Hroom.
  set (e := Z.to_nat (Sequence.n_blocks enc)) in *.
  set (free := free_blocks_of GPU m) in *.
  set (rest := take (length free - e) free).
  set (taken := reverse (drop (length free - e) free)).
  assert (Hsplit : free = rest ++ reverse taken).
  { unfold rest, taken. by rewrite reverse_involutive, take_drop. }
  assert (Hlen : length taken = e).
  { unfold taken. rewrite length_reverse, length_drop. lia. }
  eexists _, taken.
  split; [| split; [exact Hlen | split; [| split]]].
  - unfold BlockSpaceManagerV1.allocate_encoder, SequenceGroup.get_encoder_seq. rewrite Henc.
    unfold bind at 1, BlockSpaceManagerV1._allocate_sequence.
    rewrite (allocate_blocks_takes 1 _ [] taken rest m Hw Hsplit)
      by (rewrite List.length_map, List.length_seq; fold e; lia).
    cbn [app]. unfold modify. reflexivity.
  - cbn. apply lookup_insert_eq.
  - cbn. by destruct m as [? ? ? ? ? ? [] [] ? ? ? ? ?].
  - by destruct m.
Qed.

Lemma allocate_encoder_out_of_memory (g : SequenceGroup.t) (enc : Sequence.t)
    (m : BlockSpaceManagerV1.t) :
  SequenceGroup.encoder_seq g = Some enc ->
  BlockSpaceManagerV1.block_sliding_window m = None ->
  (length (free_blocks_of GPU m) < Z.to_nat (Sequence.n_blocks enc))%nat ->
  fst (BlockSpaceManagerV1.allocate_encoder g m) = Raises (ValueError OutOfMemory).
Proof.
  intros Henc Hw Hroom.
  unfold BlockSpaceManagerV1.allocate_encoder, SequenceGroup.get_encoder_seq. rewrite Henc.
  unfold bind at 1, BlockSpaceManagerV1._allocate_sequence.
  pose proof (allocate_blocks_out_of_memory 1
                (map Z.of_nat (List.seq 0 (Z.to_nat (Sequence.n_blocks enc)))) [] m Hw) as Hoom.
  rewrite List.length_map, List.length_seq in Hoom. specialize (Hoom Hroom).
  destruct (BlockSpaceManagerV1.allocate_blocks _ _ _ _ _) as [[T | err] m1]; cbn in *; congruence.
Qed.

Section AllocateFacts.

Variable check : BlockSpaceManagerV1.t -> SequenceGroup.t -> outcome unit.

Variables (m : BlockSpaceManagerV1.t) (g : SequenceGroup.t).
Variables (seq : Sequence.t) (others : list Sequence.t).

Hypothesis waiting_seqs : SequenceGroup.get_seqs (Some WAITING) g = seq :: others.
Hypothesis check_passes : check m g = Returns tt.
Hypothesis no_window : BlockSpaceManagerV1.block_sliding_window m = None.

(** The decoder part of [allocate]: the table of the first waiting sequence
    is allocated and given to every waiting sequence. *)
Lemma allocate_decoder_part (k : nat) (rest taken : list block_id) :
  k = Z.to_nat (Sequence.n_blocks seq) ->
  free_blocks_of GPU m = rest ++ reverse taken ->
  length taken = k ->
  exists bt,
    BlockSpaceManagerV1.allocate check g false m
    = (do! BlockSpaceManagerV1.allocate_encoder g in BlockSpaceManagerV1.allocate_encoder g)
        (BlockSpaceManagerV1.set_block_tables bt
           (with_free_blocks GPU rest
              (counted (SequenceGroup.num_seqs None g) taken (BlockSpaceManagerV1.heap m)) m))
    /\ (forall s, s ∈ seq :: others -> bt !! Sequence.seq_id s = Some taken)
    /\ (forall i, i ∉ (Sequence.seq_id <$> seq :: others) ->
          bt !! i = BlockSpaceManagerV1.block_tables m !! i).
Proof.
  intros Hk Hfree Hlen.
  set (m1 := with_free_blocks GPU rest
               (counted (SequenceGroup.num_seqs None g) taken (BlockSpaceManagerV1.heap m)) m).
  destruct (assign_tables taken (seq :: others) m1) as (bt & Hrun & Hin & Hout).
  exists bt. split; [| split; [exact Hin |]].
  - unfold BlockSpaceManagerV1.allocate. unfold bind at 1, get at 1.
    unfold bind at 1, lift at 1. rewrite check_passes, waiting_seqs.
    unfold bind at 1, BlockSpaceManagerV1._allocate_sequence.
    rewrite (allocate_blocks_takes _ _ [] taken rest m no_window Hfree).
    + cbn [app]. fold m1. unfold bind at 1. by rewrite Hrun.
    + rewrite List.length_map, List.length_seq. lia.
  - intros i Hi. rewrite Hout by done. unfold m1. by rewrite block_tables_with_free_blocks.
Qed.

(** X19.  For a decoder-only group, without a sliding window and with blocks
    of a positive size, [allocate] succeeds whenever [can_allocate] answers
    [OK]: it takes the [n_blocks] last blocks of the free list, leaves at
    least the watermark free, gives every waiting sequence the same table and
    sets the reference count of its blocks to the number of sequences. *)
Theorem allocate_after_can_allocate :
  SequenceGroup.encoder_seq g = None ->
  0 < Sequence.block_size seq ->
  0 <= BlockSpaceManagerV1.watermark_blocks m ->
  BlockSpaceManagerV1.can_allocate check g false m = Returns OK ->
  exists m' T,
    BlockSpaceManagerV1.allocate check g false m = (Returns tt, m')
    /\ Z.of_nat (length T) = Sequence.n_blocks seq
    /\ free_blocks_of GPU m = free_blocks_of GPU m' ++ reverse T
    /\ BlockSpaceManagerV1.watermark_blocks m <= BlockSpaceManagerV1.get_num_free_gpu_blocks m'
    /\ (forall s, s ∈ seq :: others ->
          BlockSpaceManagerV1.block_tables m' !! Sequence.seq_id s = Some T)
    /\ (forall b, b ∈ T -> ref_count_of m' b = SequenceGroup.num_seqs None g)
    /\ (forall b, b ∉ T -> ref_count_of m' b = ref_count_of m b).
Proof.
  intros Hdecoder Hsize Hwatermark Hok.
  assert (Hn : 0 <= Sequence.n_blocks seq).
  { unfold Sequence.n_blocks.
    assert ((- Sequence.get_len seq) / Sequence.block_size seq <= 0); [| lia].
    apply Z.div_le_upper_bound; [done |].
    unfold Sequence.get_len, SequenceData.get_len. lia. }
  assert (Hroom : Sequence.n_blocks seq + BlockSpaceManagerV1.watermark_blocks m
                  <= Z.of_nat (length (free_blocks_of GPU m))).
  { revert Hok. unfold BlockSpaceManagerV1.can_allocate.
    rewrite check_passes, waiting_seqs. cbn.
    unfold BlockSpaceManagerV1.num_required_blocks, SequenceGroup.get_encoder_seq.
    rewrite Hdecoder, no_window. cbn [BlockSpaceManagerV1._get_seq_num_required_blocks].
    destruct (_ <? 0); [discriminate |].
    destruct (Z.geb_spec
                (Z.of_nat (length (UncachedBlockAllocator.free_blocks
                                     (BlockSpaceManagerV1.gpu_allocator m)))
                 - (Sequence.n_blocks seq + 0))
                (BlockSpaceManagerV1.watermark_blocks m)); [| discriminate].
    intros _. unfold free_blocks_of. cbn [BlockSpaceManagerV1.allocator]. lia. }
  set (k := Z.to_nat (Sequence.n_blocks seq)).
  set (free := free_blocks_of GPU m) in *.
  set (rest := take (length free - k) free).
  set (taken := reverse (drop (length free - k) free)).
  assert (Hsplit : free = rest ++ reverse taken).
  { unfold rest, taken. by rewrite reverse_involutive, take_drop. }
  assert (Hlen : length taken = k).
  { unfold taken. rewrite length_reverse, length_drop. lia. }
  destruct (allocate_decoder_part k rest taken eq_refl Hsplit Hlen) as (bt & Hrun & Hin & Hout).
  set (m1 := with_free_blocks GPU rest
               (counted (SequenceGroup.num_seqs None g) taken (BlockSpaceManagerV1.heap m)) m)
    in *.
  exists (BlockSpaceManagerV1.set_block_tables bt m1), taken.
  split; [| split; [| split; [| split; [| split; [| split]]]]].
  - rewrite Hrun. unfold BlockSpaceManagerV1.allocate_encoder, SequenceGroup.get_encoder_seq.
    by rewrite Hdecoder.
  - rewrite Hlen. unfold k. lia.
  - rewrite free_blocks_of_set_block_tables. unfold m1.
    by rewrite free_blocks_of_with_same.
  - unfold BlockSpaceManagerV1.get_num_free_gpu_blocks.
    change (UncachedBlockAllocator.free_blocks
              (BlockSpaceManagerV1.gpu_allocator (BlockSpaceManagerV1.set_block_tables bt m1)))
      with (free_blocks_of GPU (BlockSpaceManagerV1.set_block_tables bt m1)).
    rewrite free_blocks_of_set_block_tables. unfold m1. rewrite free_blocks_of_with_same.
    unfold rest. rewrite length_take. lia.
  - exact Hin.
  - intros b Hb. rewrite ref_count_of_set_block_tables. unfold m1.
    rewrite ref_count_of_with, counted_ref_count. by rewrite decide_True.
  - intros b Hb. rewrite ref_count_of_set_block_tables. unfold m1.
    rewrite ref_count_of_with, counted_ref_count. by rewrite decide_False.
Qed.

Lemma allocate_decoder_out_of_memory :
  (length (free_blocks_of GPU m) < Z.to_nat (Sequence.n_blocks seq))%nat ->
  fst (BlockSpaceManagerV1.allocate check g false m) = Raises (ValueError OutOfMemory).
Proof.
  intros Hroom.
  unfold BlockSpaceManagerV1.allocate. unfold bind at 1, get at 1.
  unfold bind at 1, lift at 1. rewrite check_passes, waiting_seqs.
  unfold bind at 1, BlockSpaceManagerV1._allocate_sequence.
  pose proof (allocate_blocks_out_of_memory (SequenceGroup.num_seqs None g)
                (map Z.of_nat (List.seq 0 (Z.to_nat (Sequence.n_blocks seq)))) [] m no_window)
    as Hoom.
  rewrite List.length_map, List.length_seq in Hoom. specialize (Hoom Hroom).
  destruct (BlockSpaceManagerV1.allocate_blocks _ _ _ _ _) as [[T | err] m1]; cbn in *; congruence.
Qed.

(** X20.  [allocate] holds the allocation of the encoder sequence twice: for
    an encoder/decoder group (no sliding window) it takes the blocks of the
    decoder prompt and twice those of the encoder sequence from the free list,
    while the cross table holds the encoder blocks once and [can_allocate]
    counted them once.  With fewer free blocks than that it runs out of
    memory. *)
Theorem allocate_takes_encoder_blocks_twice (enc : Sequence.t) :
  SequenceGroup.encoder_seq g = Some enc ->
  let n := Z.to_nat (Sequence.n_blocks seq) in
  let e := Z.to_nat (Sequence.n_blocks enc) in
  let free := length (free_blocks_of GPU m) in
  ((n + 2 * e <= free)%nat ->
   exists m' T,
     BlockSpaceManagerV1.allocate check g false m = (Returns tt, m')
     /\ length (free_blocks_of GPU m') = (free - (n + 2 * e))%nat
     /\ BlockSpaceManagerV1.cross_block_tables m' !! SequenceGroup.request_id g = Some T
     /\ length T = e)
  /\ ((free < n + 2 * e)%nat ->
      fst (BlockSpaceManagerV1.allocate check g false m) = Raises (ValueError OutOfMemory)).
Proof.
  intros Henc n e free.
  assert (Hdecoder : (n <= free)%nat ->
            exists m1,
              BlockSpaceManagerV1.allocate check g false m
              = (do! BlockSpaceManagerV1.allocate_encoder g in
                 BlockSpaceManagerV1.allocate_encoder g) m1
              /\ BlockSpaceManagerV1.block_sliding_window m1 = None
              /\ length (free_blocks_of GPU m1) = (free - n)%nat).
  { intros Hn.
    set (l := free_blocks_of GPU m).
    destruct (allocate_decoder_part n (take (free - n) l) (reverse (drop (free - n) l)) eq_refl)
      as (bt & Hrun & _).
    { by rewrite reverse_involutive, take_drop. }
    { rewrite length_reverse, length_drop. unfold l, free in *. lia. }
    eexists. split; [exact Hrun |]. split.
    - by destruct m.
    - rewrite free_blocks_of_set_block_tables, free_blocks_of_with_same, length_take.
      unfold l, free in *. lia. }
  split.
  - intros Hroom. destruct Hdecoder as (m1 & Hrun & Hw1 & Hfree1); [lia |].
    destruct (allocate_encoder_takes g enc m1 Henc Hw1) as (m2 & T2 & Hrun2 & Hlen2 & _ & Hfree2 & Hw2).
    { fold e. lia. }
    destruct (allocate_encoder_takes g enc m2 Henc Hw2) as (m3 & T3 & Hrun3 & Hlen3 & Hcross & Hfree3 & _).
    { fold e. rewrite Hfree2, length_app, length_reverse in Hfree1. lia. }
    exists m3, T3. split; [| split; [| split; [exact Hcross | exact Hlen3]]].
    + rewrite Hrun. by rewrite (bind_returns _ _ _ _ _ Hrun2).
    + rewrite Hfree2, length_app, length_reverse in Hfree1.
      rewrite Hfree3, length_app, length_reverse in Hfree1. fold e in Hlen2, Hlen3. lia.
  - intros Hroom.
    destruct (Nat.lt_ge_cases free n) as [Hlt | Hge];
      [by apply allocate_decoder_out_of_memory |].
    destruct Hdecoder as (m1 & Hrun & Hw1 & Hfree1); [lia |]. rewrite Hrun.
    destruct (Nat.lt_ge_cases (free - n) e) as [Hlt1 | Hge1].
    + pose proof (allocate_encoder_out_of_memory g enc m1 Henc Hw1 ltac:(fold e; lia)) as Hoom.
      unfold bind.
      destruct (BlockSpaceManagerV1.allocate_encoder g m1) as [[[] | err] m2]; cbn in *; congruence.
    + destruct (allocate_encoder_takes g enc m1 Henc Hw1)
        as (m2 & T2 & Hrun2 & Hlen2 & _ & Hfree2 & Hw2); [fold e; lia |].
      rewrite (bind_returns _ _ _ _ _ Hrun2).
      apply (allocate_encoder_out_of_memory g enc m2 Henc Hw2).
      rewrite Hfree2, length_app, length_reverse in Hfree1. fold e in Hlen2 |- *. lia.
Qed.

End AllocateFacts.

Lemma allocate_after_can_allocate_witness :
  let m := BlockSpaceManagerV1.new 16 4 4 0 1 None in
  let g := pair_group "r1" 20 16 in
  exists m' T,
    BlockSpaceManagerV1.allocate no_check g false m = (Returns tt, m')
    /\ T = [(GPU, 3); (GPU, 2)]
    /\ BlockSpaceManagerV1.block_tables m' !! 1 = Some T
    /\ BlockSpaceManagerV1.get_num_free_gpu_blocks m' = 2.
Proof.
  intros m g.
  destruct (allocate_after_can_allocate no_check m g
              (Sequence.new 0 (repeat 0 20) 16) [Sequence.new 1 (repeat 0 20) 16])
    as (m' & T & Hrun & _ & Hfree & _ & Htables & _).
  - reflexivity.
  - reflexivity.
  - reflexivity.
  - reflexivity.
  - cbn. lia.
  - cbn. lia.
  - vm_compute. reflexivity.
  - exists m', T.
    assert (HT : T = [(GPU, 3); (GPU, 2)]).
    { assert (Hm' : m' = snd (BlockSpaceManagerV1.allocate no_check g false m)) by (by rewrite Hrun).
      specialize (Htables (Sequence.new 1 (repeat 0 20) 16) ltac:(right; left)).
      rewrite Hm' in Htables. vm_compute in Htables. by injection Htables as <-. }
    split; [exact Hrun |]. split; [exact HT |]. split.
    + apply (Htables (Sequence.new 1 (repeat 0 20) 16)). right. left.
    + assert (Hm' : m' = snd (BlockSpaceManagerV1.allocate no_check g false m)) by (by rewrite Hrun).
      rewrite Hm'. vm_compute. reflexivity.
Defined.

Lemma allocate_takes_encoder_blocks_twice_witness :
  let m := BlockSpaceManagerV1.new 16 3 4 0 0 None in
  let g := encoder_group "r1" 16 20 in
  BlockSpaceManagerV1.can_allocate no_check g false m = Returns OK
  /\ fst (BlockSpaceManagerV1.allocate no_check g false m) = Raises (ValueError OutOfMemory).
Proof.
  intros m g. split; [vm_compute; reflexivity |].
  apply (proj2 (allocate_takes_encoder_blocks_twice no_check m g
                  (Sequence.new 0 (repeat 0 16) 16) []
                  eq_refl eq_refl eq_refl
                  (Sequence.new 1 (repeat 0 20) 16) eq_refl)).
  vm_compute. lia.
Defined.

(** ** can_append_slots and _append_slots *)

(** The second half of [append_slots] takes at most one block off the free
    list, and with a free block it does not run out of memory. *)
Lemma append_to_last_block_room (seq : Sequence.t) (tbl : list block_id)
    (m : BlockSpaceManagerV1.t) o m' :
  Sequence.get_seq_type seq = NORMAL ->
  (1 <= length (free_blocks_of GPU m))%nat ->
  BlockSpaceManagerV1.append_to_last_block seq tbl m = (o, m') ->
  o <> Raises (ValueError OutOfMemory)
  /\ (length (free_blocks_of GPU m) <= S (length (free_blocks_of GPU m')))%nat.
Proof.
  intros Hty Hroom.
  unfold BlockSpaceManagerV1.append_to_last_block. rewrite Hty.
  destruct (py_index tbl (-1)) as [last |]; [| intros [= <- <-]; split; [done | lia]].
  unfold bind at 1. unfold assert.
  destruct (bool_decide (block_device last = GPU));
    [| intros [= <- <-]; split; [done | lia]].
  cbn [ret]. unfold bind at 1, get at 1.
  destruct (ref_count (block_at (BlockSpaceManagerV1.heap m) last) =? 1);
    [intros [= <- <-]; split; [done | lia] |].
  destruct (free_blocks_of GPU m) as [| x rest _] eqn:Hfree using rev_ind;
    [cbn in Hroom; lia |].
  unfold bind at 1, BlockSpaceManagerV1._allocate_last_physical_block. rewrite Hty.
  cbn [BlockSpaceManagerV1.block_type_of].
  rewrite (allocate_takes_last GPU rest x m Hfree).
  unfold bind at 1, BlockSpaceManagerV1.write_table, modify.
  unfold bind at 1. unfold BlockSpaceManagerV1.on_allocator, UncachedBlockAllocator.free.
  cbn [BlockSpaceManagerV1.block_type_of].
  match goal with
  | |- context [BlockSpaceManagerV1.allocator GPU ?m2] =>
      assert (Hfree2 : UncachedBlockAllocator.free_blocks (BlockSpaceManagerV1.allocator GPU m2)
                       = rest)
        by (by destruct m as [? ? ? ? ? ? [] [] ? ? ? ? ?]);
      generalize dependent (BlockSpaceManagerV1.allocator GPU m2);
      generalize (BlockSpaceManagerV1.heap m2);
      generalize m2
  end.
  intros m2 h2 a2 Hfree2.
  rewrite length_app. cbn [length].
  destruct (ref_count (block_at h2 last) =? 0);
    [intros [= <- <-]; split; [done |]; unfold free_blocks_of; cbn; rewrite Hfree2; lia |].
  destruct (ref_count (block_at h2 last) - 1 =? 0); cbn; intros [= <- <-]; (split; [done |]);
    unfold free_blocks_of; cbn; rewrite ?Hfree2, ?length_app; cbn; lia.
Qed.

(** So does [append_slots]. *)
Lemma append_slots_room (seq : Sequence.t) (m : BlockSpaceManagerV1.t) o m' :
  Sequence.get_seq_type seq = NORMAL ->
  (1 <= length (free_blocks_of GPU m))%nat ->
  BlockSpaceManagerV1.append_slots seq m = (o, m') ->
  o <> Raises (ValueError OutOfMemory)
  /\ (length (free_blocks_of GPU m) <= S (length (free_blocks_of GPU m')))%nat.
Proof.
  intros Hty Hroom.
  unfold BlockSpaceManagerV1.append_slots. rewrite Hty.
  unfold bind at 1, BlockSpaceManagerV1.read_table.
  destruct (BlockSpaceManagerV1.tables_of NORMAL m !! Sequence.seq_id seq) as [tbl |];
    [| intros [= <- <-]; split; [done | lia]].
  destruct (Z.of_nat (length tbl) <? Sequence.n_blocks seq);
    [| by apply append_to_last_block_room].
  unfold bind at 1, assert.
  destruct (Z.of_nat (length tbl) =? Sequence.n_blocks seq - 1);
    [| intros [= <- <-]; split; [done | lia]].
  cbn [ret]. unfold bind at 1, get at 1.
  destruct (BlockSpaceManagerV1.reuses_window_block m tbl).
  - destruct (BlockSpaceManagerV1.block_sliding_window m) as [w |];
      [| intros [= <- <-]; split; [done | lia]].
    destruct (py_index tbl (Z.of_nat (length tbl) mod w)) as [b |];
      [| intros [= <- <-]; split; [done | lia]].
    unfold bind at 1, BlockSpaceManagerV1.write_table, modify.
    intros Hrun. apply append_to_last_block_room in Hrun; [| done |].
    + by rewrite free_blocks_of_set_block_tables in Hrun.
    + by rewrite free_blocks_of_set_block_tables.
  - destruct (free_blocks_of GPU m) as [| x rest _] eqn:Hfree using rev_ind;
      [cbn in Hroom; lia |].
    unfold bind at 1, BlockSpaceManagerV1._allocate_last_physical_block. rewrite Hty.
    cbn [BlockSpaceManagerV1.block_type_of].
    rewrite (allocate_takes_last GPU rest x m Hfree).
    unfold bind at 1, BlockSpaceManagerV1.write_table, modify. cbn [ret].
    intros [= <- <-]. split; [done |].
    cbn [BlockSpaceManagerV1.set_tables_of].
    rewrite free_blocks_of_set_block_tables, length_app. unfold free_blocks_of. cbn. lia.
Qed.

(** The loop of [_append_slots] with a free block for each sequence. *)
Lemma append_slots_of_room (seqs : list Sequence.t) :
  forall (blocks_to_copy : list (Z * Z)) (m : BlockSpaceManagerV1.t) o m',
    Forall (fun seq => Sequence.get_seq_type seq = NORMAL) seqs ->
    (length seqs <= length (free_blocks_of GPU m))%nat ->
    Scheduler.append_slots_of seqs blocks_to_copy m = (o, m') ->
    o <> Raises (ValueError OutOfMemory)
    /\ (forall cows, o = Returns cows ->
          (length (free_blocks_of GPU m) <= length seqs + length (free_blocks_of GPU m'))%nat).
Proof.
  induction seqs as [| seq seqs IH]; intros blocks_to_copy m o m' Hty Hroom.
  - intros [= <- <-]. split; [done |]. intros; cbn; lia.
  - apply Forall_cons in Hty as [Hseq Hty]. cbn [length] in Hroom.
    cbn [Scheduler.append_slots_of]. unfold bind at 1.
    destruct (BlockSpaceManagerV1.append_slots seq m) as [o1 m1] eqn:Hstep.
    destruct (append_slots_room seq m o1 m1 Hseq ltac:(lia) Hstep) as [Hoom Hless].
    destruct o1 as [cows1 | err].
    + intros Hrun. apply IH in Hrun as [Hoom' Hless']; [| done | lia].
      split; [done |]. intros cows Hcows. specialize (Hless' cows Hcows). cbn [length]. lia.
    + intros [= <- <-]. split; [done |]. intros cows [=].
Qed.

(** X21.  [can_append_slots] is enough for [_append_slots]: when it answers
    [True] for a group whose running sequences are of type [NORMAL],
    appending a slot to each of them never runs out of memory, and when it
    returns it has taken at most one block for each running sequence. *)
Theorem append_slots_after_can_append_slots (s : Scheduler.t) (g : SequenceGroup.t)
    (blocks_to_copy : list (Z * Z)) :
  Forall (fun seq => Sequence.get_seq_type seq = NORMAL)
         (SequenceGroup.get_seqs (Some RUNNING) g) ->
  BlockSpaceManagerV1.can_append_slots g 0 (Scheduler.block_manager s) = Returns true ->
  fst (Scheduler._append_slots g blocks_to_copy s) <> Raises (ValueError OutOfMemory)
  /\ (forall cows s',
        Scheduler._append_slots g blocks_to_copy s = (Returns cows, s') ->
        BlockSpaceManagerV1.get_num_free_gpu_blocks (Scheduler.block_manager s)
        - SequenceGroup.num_seqs (Some RUNNING) g
        <= BlockSpaceManagerV1.get_num_free_gpu_blocks (Scheduler.block_manager s')).
Proof.
  intros Hty Hcan.
  assert (Hroom : (length (SequenceGroup.get_seqs (Some RUNNING) g)
                   <= length (free_blocks_of GPU (Scheduler.block_manager s)))%nat).
  { revert Hcan. unfold BlockSpaceManagerV1.can_append_slots. cbn [Z.eqb negb].
    destruct (SequenceGroup.get_seqs (Some RUNNING) g) as [| seq seqs] eqn:Hseqs;
      [discriminate |].
    apply Forall_cons in Hty as [-> _].
    unfold SequenceGroup.num_seqs. rewrite Hseqs. cbn.
    intros [= Hle]. apply Z.leb_le in Hle. unfold free_blocks_of. cbn in *. lia. }
  unfold Scheduler._append_slots, zoom.
  destruct (Scheduler.append_slots_of _ blocks_to_copy (Scheduler.block_manager s))
    as [o m'] eqn:Hrun.
  destruct (append_slots_of_room _ _ _ _ _ Hty Hroom Hrun) as [Hoom Hless].
  split; [exact Hoom |].
  intros cows s' [= -> <-]. specialize (Hless cows eq_refl).
  unfold BlockSpaceManagerV1.get_num_free_gpu_blocks, SequenceGroup.num_seqs.
  unfold free_blocks_of in Hless. cbn in *. lia.
Qed.

Lemma append_slots_after_can_append_slots_witness :
  let s := Scheduler.mk (mkSchedulerConfig true "fcfs" 2048 256)
             (allocated_manager 4 4 None 16) [] [] [] false ∅ [] 0 in
  let g := SequenceGroup.new "r1" [decoding (Sequence.new 0 (repeat 0 16) 16) [7]]
             0%float None in
  BlockSpaceManagerV1.get_num_free_gpu_blocks (Scheduler.block_manager s) = 3
  /\ BlockSpaceManagerV1.get_num_free_gpu_blocks
       (Scheduler.block_manager (snd (Scheduler._append_slots g [] s))) = 2
  /\ fst (Scheduler._append_slots g [] s) <> Raises (ValueError OutOfMemory).
Proof.
  intros s g. split; [reflexivity |]. split; [reflexivity |].
  apply (append_slots_after_can_append_slots s g []).
  - repeat (apply Forall_cons_2; [reflexivity |]). apply Forall_nil_2.
  - reflexivity.
Defined.

(** X22.  [free_cross] frees the cross table of a request once: for a request
    without one it returns and changes nothing; when it returns, the request
    has no cross table, the cross tables of the other requests and the block
    tables of the sequences are as before, and a second [free_cross] returns
    and changes nothing. *)
Theorem free_cross_twice (g : SequenceGroup.t) (m : BlockSpaceManagerV1.t) :
  (BlockSpaceManagerV1.cross_block_tables m !! SequenceGroup.request_id g = None ->
   BlockSpaceManagerV1.free_cross g m = (Returns tt, m))
  /\ (forall m',
        BlockSpaceManagerV1.free_cross g m = (Returns tt, m') ->
        BlockSpaceManagerV1.cross_block_tables m' !! SequenceGroup.request_id g = None
        /\ BlockSpaceManagerV1.free_cross g m' = (Returns tt, m')
        /\ (forall other, other <> SequenceGroup.request_id g ->
              BlockSpaceManagerV1.cross_block_tables m' !! other
              = BlockSpaceManagerV1.cross_block_tables m !! other)
        /\ BlockSpaceManagerV1.block_tables m' = BlockSpaceManagerV1.block_tables m
        /\ BlockSpaceManagerV1.shared_block_tables m'
           = BlockSpaceManagerV1.shared_block_tables m).
Proof.
  assert (Hnone : forall m0,
            BlockSpaceManagerV1.cross_block_tables m0 !! SequenceGroup.request_id g = None ->
            BlockSpaceManagerV1.free_cross g m0 = (Returns tt, m0)).
  { intros m0 H0. unfold BlockSpaceManagerV1.free_cross. unfold bind, get. by rewrite H0. }
  split; [apply Hnone |].
  intros m' Hfree.
  assert (Hgone : BlockSpaceManagerV1.cross_block_tables m' !! SequenceGroup.request_id g = None
                  /\ (forall other, other <> SequenceGroup.request_id g ->
                        BlockSpaceManagerV1.cross_block_tables m' !! other
                        = BlockSpaceManagerV1.cross_block_tables m !! other)
                  /\ BlockSpaceManagerV1.block_tables m' = BlockSpaceManagerV1.block_tables m
                  /\ BlockSpaceManagerV1.shared_block_tables m'
                     = BlockSpaceManagerV1.shared_block_tables m).
  { revert Hfree. unfold BlockSpaceManagerV1.free_cross. unfold bind at 1, get at 1.
    destruct (BlockSpaceManagerV1.cross_block_tables m !! SequenceGroup.request_id g)
      as [T |] eqn:HT.
    - unfold bind at 1.
      pose proof (free_block_table_frame T "normal" m) as Hframe.
      destruct (BlockSpaceManagerV1._free_block_table T _ m) as [[[] | e] m1];
        cbn [snd] in Hframe; [| discriminate].
      unfold modify. intros [= <-].
      destruct Hframe as (H1 & H2 & H3). cbn. rewrite H3.
      split; [apply lookup_delete_eq |]. split; [| done].
      intros other Hne. by apply lookup_delete_ne.
    - intros [= <-]. by repeat split. }
  destruct Hgone as (Hgone & Hothers & Htables & Hshared).
  split; [exact Hgone |]. split; [by apply Hnone |]. by repeat split.
Qed.

Lemma free_cross_twice_witness :
  let g := encoder_group "r1" 16 16 in
  let m := snd (BlockSpaceManagerV1.allocate no_check g false
                  (BlockSpaceManagerV1.new 16 8 4 0 0 None)) in
  let m' := snd (BlockSpaceManagerV1.free_cross g m) in
  BlockSpaceManagerV1.get_num_free_gpu_blocks m = 5
  /\ BlockSpaceManagerV1.get_num_free_gpu_blocks m' = 6
  /\ BlockSpaceManagerV1.free_cross g m' = (Returns tt, m').
Proof.
  intros g m m'. split; [reflexivity |]. split; [reflexivity |].
  apply (proj2 (free_cross_twice g m) m').
  assert (Hreturns : fst (BlockSpaceManagerV1.free_cross g m) = Returns tt)
    by (vm_compute; reflexivity).
  unfold m'. destruct (BlockSpaceManagerV1.free_cross g m) as [o s]. cbn in *. by subst.
Defined.
